(** * Piece lifecycle and transaction reconciliation of the PDP server

    A shallow embedding of [pkg/piece/service.go] (the piece service) and of
    the transaction watcher ([package watcher]), together with the properties
    of the piece lifecycle that the specification states about them. *)

From Stdlib Require Import ZArith List Lia Bool String Ascii.
From Stdlib Require Import Init.Byte.
From stdpp Require Import base gmap strings list.

Import ListNotations.
Local Open Scope string_scope.
Local Open Scope list_scope.
Local Open Scope Z_scope.

(** ** Go's [int] on a 64-bit platform *)

Module GoInt.

(** Two's-complement wrap-around of a mathematical integer into [int]. *)
Definition wrap (z : Z) : Z := (z + 2 ^ 63) mod 2 ^ 64 - 2 ^ 63.

(** [x <<= 1] on an [int]. *)
Definition shl1 (x : Z) : Z := wrap (Z.shiftl x 1).

(** The largest power of two an [int] can hold. No slice that the Go runtime
    can allocate is longer than this. *)
Definition max_pow2 : Z := 2 ^ 62.

End GoInt.

(** ** Padding ([padToPowerOfTwo], service.go lines 394-417) *)

Module Padding.

(** [make([]byte, n)]: [n] zero bytes. *)
Definition make (n : Z) : list byte := repeat x00 (Z.to_nat n).

(** [copy(dst, src)]: overwrites the first [min(len dst, len src)] bytes of
    [dst] with those of [src]; the result is the new content of [dst]. *)
Definition copy (dst src : list byte) : list byte :=
  let n := Nat.min (length dst) (length src) in
  firstn n src ++ skipn n dst.

(** The loop [for nextPowerOfTwo < size { nextPowerOfTwo <<= 1 }]. Each unit
    of fuel pays for one execution of the body; [None] means the fuel ran out
    before the loop condition became false. *)
Fixpoint nextPowerOfTwo_loop (fuel : nat) (nextPowerOfTwo size : Z) : option Z :=
  if nextPowerOfTwo <? size then
    match fuel with
    | O => None
    | S fuel' => nextPowerOfTwo_loop fuel' (GoInt.shl1 nextPowerOfTwo) size
    end
  else Some nextPowerOfTwo.

(** After 64 doublings an [int] that started at 1 has become 0 and stays 0,
    so 64 units of fuel decide the loop: it has exited by then or never will
    (see [nextPowerOfTwo_loop_stuck]). *)
Definition loop_fuel : nat := 64.

(** [padToPowerOfTwo]; [None] when the doubling loop does not terminate. *)
Definition padToPowerOfTwo (data : list byte) : option (list byte) :=
  let size := Z.of_nat (length data) in
  if size =? 0 then Some data
  else
    match nextPowerOfTwo_loop loop_fuel 1 size with
    | None => None
    | Some nextPowerOfTwo =>
        if nextPowerOfTwo =? size then Some data
        else Some (copy (make nextPowerOfTwo) data)
    end.

(** A length is a power of two. *)
Definition is_pow2 (n : nat) : Prop := exists k : nat, n = (2 ^ k)%nat.

End Padding.

(** ** Go values shared by the packages *)

Module Go.

(** [fmt.Sprintf("%x", b)] and [hex.EncodeToString(b)]: two lower-case
    hexadecimal digits per byte. *)
Definition hex_digit (n : N) : ascii :=
  nth (N.to_nat n) (list_ascii_of_string "0123456789abcdef") "0"%char.

Definition hex_byte (b : byte) : string :=
  let n := Byte.to_N b in
  String (hex_digit (n / 16)) (String (hex_digit (n mod 16)) EmptyString).

Definition hex (bs : list byte) : string :=
  fold_right (fun b acc => hex_byte b ++ acc)%string "" bs.

(** A call that returns [(value, error)]: either the value or the text of
    the error. *)
Inductive res (A : Type) : Type :=
| ok (a : A)
| fail (cause : string).
Arguments ok {A} a.
Arguments fail {A} cause.

(** A value of type [interface{}]: the only dynamic type the code asks for
    is [string]. *)
Inductive iface : Type :=
| IString (s : string)
| IOther.

(** [time.Time] as seconds; the zero value is 0. *)
Definition Time : Type := Z.

End Go.

(** ** [package models]: the rows of the isolated database *)

Module models.

Record ParkedPiece := {
  pp_ID : Z;
  pp_PieceCID : string;          (* uniqueIndex *)
  PiecePaddedSize : Z;
  PieceRawSize : Z;
  Complete : bool;
  pp_LongTerm : bool
}.

Record ParkedPieceRef := {
  RefID : Z;
  PieceID : Z;
  DataURL : string;
  DataHeaders : string;
  ref_LongTerm : bool
}.

Record PDPPieceRef := {
  pdp_ID : Z;
  Service : string;
  pdp_PieceCID : string;         (* uniqueIndex *)
  PieceRef : Z;
  ProofsetRefcount : Z
}.

(** An Ethereum transaction waiting for confirmation. The timestamps that
    the ORM maintains by itself are left out. *)
Record MessageWaitsEth := {
  ID : Z;
  SignedTxHash : string;         (* uniqueIndex *)
  ConfirmedTxHash : string;
  TxStatus : string;
  TxSuccess : option bool;       (* *bool *)
  ConfirmedBlockNumber : option Z; (* *int64 *)
  ConfirmedTxData : list byte;
  TxReceipt : list byte;
  WaiterMachineID : option string
}.

(** The tables of one database. *)
Record DB := {
  message_waits_eth : list MessageWaitsEth;
  parked_pieces : list ParkedPiece;
  parked_piece_refs : list ParkedPieceRef;
  pdp_piecerefs : list PDPPieceRef
}.

(** The primary key given to a new row: one more than the largest in use. *)
Definition next_id (ids : list Z) : Z := 1 + fold_right Z.max 0 ids.

(** The answer to [Where("signed_tx_hash = ?", h).First(&row)]. *)
Inductive QueryResult : Type :=
| Found (row : MessageWaitsEth)
| RecordNotFound
| QueryError (cause : string).

(** Of the rows that match, [First] takes the one with the least primary
    key. *)
Fixpoint least_id (rows : list MessageWaitsEth) : option MessageWaitsEth :=
  match rows with
  | [] => None
  | r :: rest =>
      match least_id rest with
      | Some r' => if ID r' <? ID r then Some r' else Some r
      | None => Some r
      end
  end.

Definition first_by_hash (rows : list MessageWaitsEth) (h : string)
  : option MessageWaitsEth :=
  least_id (List.filter (fun r => String.eqb (SignedTxHash r) h) rows).

End models.

(** ** [package service]: the ledger collaborator *)

Module service.

Record AddRootRequest := {
  RootCID : string;
  SubrootCIDs : list string
}.

End service.

(** ** The collaborators of one call

    Everything outside the piece table and the isolated database is a
    collaborator reached through an interface: the file system, the hash and
    commitment libraries, the blob store, the ledger service, the clock, and
    the two database connections (which may fail). An [Env] fixes how they
    answer during one operation; a run of several operations takes one [Env]
    per operation, so their answers may change between calls. *)

Module Collab.
Import Go.

(** [os.Open], [file.Stat] and [io.Copy(hash, file)] on a path. *)
Inductive FileResult : Type :=
| OpenFails (cause : string)
| StatFails (cause : string)
| ReadFails (cause : string)
| FileOk (size : Z) (content : list byte).

Record Env := {
  os_open : string -> FileResult;
  sha256_sum : list byte -> list byte;
  (* io.Copy(cp, reader) into the commitment calculator *)
  commp_write : list byte -> option string;
  (* cp.Digest(): the digest and the padded piece size *)
  commp_digest : list byte -> res (list byte * Z);
  (* commcid.DataCommitmentV1ToCID(digest), in its string form *)
  commitment_to_cid : list byte -> res string;
  (* blobStore.Put(key, data): the error, if any *)
  blob_put : string -> list byte -> option string;
  (* cid.Decode *)
  cid_decode : string -> res string;
  (* nonffi.GenerateUnsealedCID(proofType, [{Size, PieceCID}]) *)
  generate_unsealed_cid : Z -> string -> res string;
  (* piriService.ProofSetAddRoot *)
  proof_set_add_root : Z -> list service.AddRootRequest -> res iface;
  time_now : Time;
  (* the isolated database: the error, if any, with which it refuses the
     statement in position n of the call (the functions below say which
     statement has which position) *)
  db_error : nat -> option string;
  (* the text with which the driver of the isolated database reports that
     the statement in position n violates a unique index *)
  unique_violation : nat -> string;
  (* Piri's own database: its transaction rows as the query in position n of
     the call finds them, or the error it answers *)
  piri_db : nat -> res (list models.MessageWaitsEth)
}.

End Collab.

(** ** Errors and outcomes *)

Module Errors.

(** The errors the two packages build with [fmt.Errorf]; [cause] is the text
    of the wrapped error. *)
Inductive error : Type :=
(* PreparePiece *)
| ErrOpenFile (cause : string)
| ErrFileInfo (cause : string)
| ErrCalcHash (cause : string)
(* UploadPiece *)
| ErrAlreadyExists (pieceID : string)
| ErrCalcCommp (cause : string)
| ErrCommpDigest (cause : string)
| ErrCommpToCID (cause : string)
| ErrBlobStore (cause : string)
(* AddPieceToProofSet, GetPiece, MonitorTransactionStatus *)
| ErrPieceNotFound (pieceID : string)
| ErrNotUploaded (pieceID : string)
| ErrInvalidCID (cause : string)
| ErrUnsealedCID (cause : string)
| ErrCreateParkedPiece (cause : string)
| ErrCreateParkedPieceRef (cause : string)
| ErrCreatePDPPieceRef (cause : string)
| ErrPiriEntries (inner : error)
| ErrLedger (cause : string)
| ErrNotPending (pieceID : string)
| ErrNoTxHash (pieceID : string)
| ErrQueryTx (cause : string)
(* watcher *)
| ErrGetPending (cause : string)
| ErrQueryPiri (cause : string)
| ErrUpdateTx (cause : string)
| ErrUpdatePieceStatus (inner : error)
| ErrCheckExisting (cause : string)
| ErrCreateTx (cause : string).

(** [err.Error()]. *)
Fixpoint message (e : error) : string :=
  match e with
  | ErrOpenFile c => "failed to open file: " ++ c
  | ErrFileInfo c => "failed to get file info: " ++ c
  | ErrCalcHash c => "failed to calculate hash: " ++ c
  | ErrAlreadyExists id => "piece " ++ id ++ " already exists"
  | ErrCalcCommp c => "failed to calculate commp: " ++ c
  | ErrCommpDigest c => "failed to get commp digest: " ++ c
  | ErrCommpToCID c => "failed to convert commp to piece CID: " ++ c
  | ErrBlobStore c => "failed to store piece in blob store: " ++ c
  | ErrPieceNotFound id => "piece not found: " ++ id
  | ErrNotUploaded id => "piece " ++ id ++ " is not uploaded"
  | ErrInvalidCID c => "invalid piece CID: " ++ c
  | ErrUnsealedCID c => "failed to generate unsealed CID: " ++ c
  | ErrCreateParkedPiece c => "failed to create parked piece: " ++ c
  | ErrCreateParkedPieceRef c => "failed to create parked piece ref: " ++ c
  | ErrCreatePDPPieceRef c => "failed to create PDP piece ref: " ++ c
  | ErrPiriEntries e => "failed to create Piri database entries: " ++ message e
  | ErrLedger c => c
  | ErrNotPending id => "piece " ++ id ++ " is not in pending confirmation status"
  | ErrNoTxHash id => "no transaction hash found for piece " ++ id
  | ErrQueryTx c => "failed to query transaction status: " ++ c
  | ErrGetPending c => "failed to get pending transactions: " ++ c
  | ErrQueryPiri c => "failed to query Piri's database: " ++ c
  | ErrUpdateTx c => "failed to update transaction status: " ++ c
  | ErrUpdatePieceStatus e => "failed to update piece status: " ++ message e
  | ErrCheckExisting c => "failed to check existing transaction: " ++ c
  | ErrCreateTx c => "failed to create transaction record: " ++ c
  end%string.

(** How a call ends: it returns a value, returns an error, or never
    returns. *)
Inductive outcome (A : Type) : Type :=
| Returns (a : A)
| Fails (e : error)
| Hangs.
Arguments Returns {A} a.
Arguments Fails {A} e.
Arguments Hangs {A}.

Definition is_failure {A} (o : outcome A) : bool :=
  match o with Fails _ => true | _ => false end.

Definition is_return {A} (o : outcome A) : bool :=
  match o with Returns _ => true | _ => false end.

End Errors.

(** ** [package piece]: the piece service *)

Module piece.
Import Go Collab Errors.

Record PieceInfo := {
  ID : string;
  FilePath : string;
  Size : Z;
  CommP : string;
  PieceCID : string;
  DataCID : string;
  ProofSetID : Z;
  Status : string;
  ErrorMessage : string;
  UploadURL : string;
  TransactionHash : string;
  TransactionTimestamp : Time
}.

(** Field assignments through the pointer held in the table. *)
Definition set_Status (v : string) (p : PieceInfo) : PieceInfo :=
  {| ID := ID p; FilePath := FilePath p; Size := Size p; CommP := CommP p;
     PieceCID := PieceCID p; DataCID := DataCID p; ProofSetID := ProofSetID p;
     Status := v; ErrorMessage := ErrorMessage p; UploadURL := UploadURL p;
     TransactionHash := TransactionHash p;
     TransactionTimestamp := TransactionTimestamp p |}.

Definition set_ErrorMessage (v : string) (p : PieceInfo) : PieceInfo :=
  {| ID := ID p; FilePath := FilePath p; Size := Size p; CommP := CommP p;
     PieceCID := PieceCID p; DataCID := DataCID p; ProofSetID := ProofSetID p;
     Status := Status p; ErrorMessage := v; UploadURL := UploadURL p;
     TransactionHash := TransactionHash p;
     TransactionTimestamp := TransactionTimestamp p |}.

Definition set_TransactionHash (v : string) (p : PieceInfo) : PieceInfo :=
  {| ID := ID p; FilePath := FilePath p; Size := Size p; CommP := CommP p;
     PieceCID := PieceCID p; DataCID := DataCID p; ProofSetID := ProofSetID p;
     Status := Status p; ErrorMessage := ErrorMessage p; UploadURL := UploadURL p;
     TransactionHash := v;
     TransactionTimestamp := TransactionTimestamp p |}.

Definition set_ProofSetID (v : Z) (p : PieceInfo) : PieceInfo :=
  {| ID := ID p; FilePath := FilePath p; Size := Size p; CommP := CommP p;
     PieceCID := PieceCID p; DataCID := DataCID p; ProofSetID := v;
     Status := Status p; ErrorMessage := ErrorMessage p; UploadURL := UploadURL p;
     TransactionHash := TransactionHash p;
     TransactionTimestamp := TransactionTimestamp p |}.

Definition set_TransactionTimestamp (v : Time) (p : PieceInfo) : PieceInfo :=
  {| ID := ID p; FilePath := FilePath p; Size := Size p; CommP := CommP p;
     PieceCID := PieceCID p; DataCID := DataCID p; ProofSetID := ProofSetID p;
     Status := Status p; ErrorMessage := ErrorMessage p; UploadURL := UploadURL p;
     TransactionHash := TransactionHash p;
     TransactionTimestamp := v |}.

(** The state behind a [*PieceService]: the table [pieces] (the Go map holds
    pointers, so an assignment to a field of a looked-up piece is an update of
    the table) and the isolated database [db]. The mutex makes every
    operation below atomic. *)
Record PieceService := {
  pieces : gmap string PieceInfo;
  db : models.DB
}.

Definition with_pieces (m : gmap string PieceInfo) (p : PieceService) : PieceService :=
  {| pieces := m; db := db p |}.

Definition with_db (d : models.DB) (p : PieceService) : PieceService :=
  {| pieces := pieces p; db := d |}.

(** [NewPieceService]. *)
Definition NewPieceService (d : models.DB) : PieceService :=
  {| pieces := ∅; db := d |}.

(** [PreparePiece] (lines 65-104). *)
Definition PreparePiece (env : Env) (p : PieceService) (filePath : string)
  : PieceService * outcome PieceInfo :=
  match os_open env filePath with
  | OpenFails c => (p, Fails (ErrOpenFile c))
  | StatFails c => (p, Fails (ErrFileInfo c))
  | ReadFails c => (p, Fails (ErrCalcHash c))
  | FileOk size content =>
      let hashBytes := sha256_sum env content in
      let pieceID := hex (firstn 8 hashBytes) in
      let pieceInfo :=
        {| ID := pieceID; FilePath := filePath; Size := size; CommP := "";
           PieceCID := ""; DataCID := ""; ProofSetID := 0;
           Status := "prepared"; ErrorMessage := ""; UploadURL := "";
           TransactionHash := ""; TransactionTimestamp := 0 |} in
      (with_pieces (<[pieceID := pieceInfo]> (pieces p)) p, Returns pieceInfo)
  end.

(** [UploadPiece] (lines 107-155). *)
Definition UploadPiece (env : Env) (p : PieceService) (pieceID : string)
    (fileContent : list byte) : PieceService * outcome PieceInfo :=
  match pieces p !! pieceID with
  | Some _ => (p, Fails (ErrAlreadyExists pieceID))
  | None =>
      match Padding.padToPowerOfTwo fileContent with
      | None => (p, Hangs)
      | Some paddedContent =>
          match commp_write env paddedContent with
          | Some c => (p, Fails (ErrCalcCommp c))
          | None =>
              match commp_digest env paddedContent with
              | fail c => (p, Fails (ErrCommpDigest c))
              | ok (digest, paddedPieceSize) =>
                  match commitment_to_cid env digest with
                  | fail c => (p, Fails (ErrCommpToCID c))
                  | ok pieceCID =>
                      let piece :=
                        {| ID := pieceID; FilePath := "";
                           Size := Z.of_nat (length paddedContent);
                           CommP := hex digest; PieceCID := pieceCID;
                           DataCID := pieceCID; ProofSetID := 0;
                           Status := "uploaded"; ErrorMessage := "";
                           UploadURL := ""; TransactionHash := "";
                           TransactionTimestamp := 0 |} in
                      match blob_put env (PieceCID piece) paddedContent with
                      | Some c => (p, Fails (ErrBlobStore c))
                      | None =>
                          (with_pieces (<[pieceID := piece]> (pieces p)) p,
                           Returns piece)
                      end
                  end
              end
          end
      end
  end.

(** [createPiriDatabaseEntries] (lines 233-287): three inserts in one
    database transaction, rolled back as a whole when one of them fails. An
    insert fails when the database refuses the statement or when a unique
    index is violated; the cause it then wraps is the driver's text. *)
Definition createPiriDatabaseEntries (env : Env) (d : models.DB) (piece : PieceInfo)
  : models.DB * option error :=
  let parkedPiece :=
    {| models.pp_ID := models.next_id (map models.pp_ID (models.parked_pieces d));
       models.pp_PieceCID := PieceCID piece;
       models.PiecePaddedSize := Size piece;
       models.PieceRawSize := Size piece;
       models.Complete := true;
       models.pp_LongTerm := true |} in
  let parkedPieceRef :=
    {| models.RefID := models.next_id (map models.RefID (models.parked_piece_refs d));
       models.PieceID := models.pp_ID parkedPiece;
       models.DataURL := "";
       models.DataHeaders := "{}";
       models.ref_LongTerm := true |} in
  let pdpPieceRef :=
    {| models.pdp_ID := models.next_id (map models.pdp_ID (models.pdp_piecerefs d));
       models.Service := "storacha";
       models.pdp_PieceCID := PieceCID piece;
       models.PieceRef := models.RefID parkedPieceRef;
       models.ProofsetRefcount := 0 |} in
  match db_error env 0 with
  | Some c => (d, Some (ErrCreateParkedPiece c))
  | None =>
      if existsb (fun r => String.eqb (models.pp_PieceCID r) (PieceCID piece))
                 (models.parked_pieces d)
      then (d, Some (ErrCreateParkedPiece (unique_violation env 0)))
      else
        match db_error env 1 with
        | Some c => (d, Some (ErrCreateParkedPieceRef c))
        | None =>
            match db_error env 2 with
            | Some c => (d, Some (ErrCreatePDPPieceRef c))
            | None =>
                if existsb (fun r => String.eqb (models.pdp_PieceCID r) (PieceCID piece))
                           (models.pdp_piecerefs d)
                then (d, Some (ErrCreatePDPPieceRef (unique_violation env 2)))
                else
                  ({| models.message_waits_eth := models.message_waits_eth d;
                      models.parked_pieces := models.parked_pieces d ++ [parkedPiece];
                      models.parked_piece_refs :=
                        models.parked_piece_refs d ++ [parkedPieceRef];
                      models.pdp_piecerefs := models.pdp_piecerefs d ++ [pdpPieceRef] |},
                   None)
            end
        end
  end.

(** [AddPieceToProofSet] (lines 158-230). *)
Definition AddPieceToProofSet (env : Env) (p : PieceService) (pieceID : string)
    (proofSetID : Z) : PieceService * outcome unit :=
  match pieces p !! pieceID with
  | None => (p, Fails (ErrPieceNotFound pieceID))
  | Some piece =>
      if negb (String.eqb (Status piece) "uploaded")
      then (p, Fails (ErrNotUploaded pieceID))
      else
        match cid_decode env (PieceCID piece) with
        | fail c => (p, Fails (ErrInvalidCID c))
        | ok pieceCID =>
            let paddedSize := Size piece in
            match generate_unsealed_cid env paddedSize pieceCID with
            | fail c => (p, Fails (ErrUnsealedCID c))
            | ok generatedCID =>
                match createPiriDatabaseEntries env (db p) piece with
                | (_, Some e) => (p, Fails (ErrPiriEntries e))
                | (d', None) =>
                    let addRootReq :=
                      {| service.RootCID := generatedCID;
                         service.SubrootCIDs := [PieceCID piece] |} in
                    match proof_set_add_root env proofSetID [addRootReq] with
                    | fail c =>
                        let piece1 := set_Status "error" piece in
                        let piece2 :=
                          set_ErrorMessage
                            ("failed to add root to proof set: " ++ c)%string piece1 in
                        ({| pieces := <[pieceID := piece2]> (pieces p); db := d' |},
                         Fails (ErrLedger c))
                    | ok result =>
                        let piece1 :=
                          match result with
                          | IString txHash => set_TransactionHash txHash piece
                          | IOther => piece
                          end in
                        let piece2 := set_ProofSetID proofSetID piece1 in
                        let piece3 := set_Status "pending_confirmation" piece2 in
                        let piece4 := set_TransactionTimestamp (time_now env) piece3 in
                        ({| pieces := <[pieceID := piece4]> (pieces p); db := d' |},
                         Returns tt)
                    end
                end
            end
        end
  end.

(** [GetPiece] (lines 290-300). *)
Definition GetPiece (p : PieceService) (pieceID : string) : outcome PieceInfo :=
  match pieces p !! pieceID with
  | Some piece => Returns piece
  | None => Fails (ErrPieceNotFound pieceID)
  end.

(** The query of [MonitorTransactionStatus]:
    [p.db.Where("signed_tx_hash = ?", h).First(&messageWait)]. *)
Definition query_transaction (env : Env) (d : models.DB) (h : string)
  : models.QueryResult :=
  match db_error env 0 with
  | Some c => models.QueryError c
  | None =>
      match models.first_by_hash (models.message_waits_eth d) h with
      | Some row => models.Found row
      | None => models.RecordNotFound
      end
  end.

(** [MonitorTransactionStatus] (lines 343-392). *)
Definition MonitorTransactionStatus (env : Env) (p : PieceService) (pieceID : string)
  : PieceService * outcome unit :=
  match pieces p !! pieceID with
  | None => (p, Fails (ErrPieceNotFound pieceID))
  | Some piece =>
      if negb (String.eqb (Status piece) "pending_confirmation")
      then (p, Fails (ErrNotPending pieceID))
      else if String.eqb (TransactionHash piece) ""
      then (p, Fails (ErrNoTxHash pieceID))
      else
        match query_transaction env (db p) (TransactionHash piece) with
        | models.QueryError c => (p, Fails (ErrQueryTx c))
        | models.RecordNotFound => (p, Returns tt)
        | models.Found messageWait =>
            if String.eqb (models.TxStatus messageWait) "confirmed" then
              match models.TxSuccess messageWait with
              | Some true =>
                  (with_pieces
                     (<[pieceID := set_Status "added_to_proofset" piece]> (pieces p)) p,
                   Returns tt)
              | _ =>
                  let piece1 := set_Status "transaction_failed" piece in
                  let piece2 :=
                    set_ErrorMessage "Transaction failed on blockchain" piece1 in
                  (with_pieces (<[pieceID := piece2]> (pieces p)) p, Returns tt)
              end
            else
              (* case "pending" and default: a log line *)
              (p, Returns tt)
        end
  end.

End piece.

(** ** What a transaction row reports *)

Module Ledger.
Import models.

Definition succeeded (row : MessageWaitsEth) : bool :=
  match TxSuccess row with
  | Some true => true
  | _ => false
  end.

End Ledger.

(** ** [package watcher]: the transaction watcher *)

Module watcher.
Import Go Collab Errors.

(** The state behind a [*TransactionWatcher]: the isolated database. Piri's
    database [piriDB] is a collaborator ([piri_db]); the struct has no other
    field through which it could reach the piece table. *)
Record TransactionWatcher := {
  db : models.DB
}.

(** [tw.db.Model(tx).Updates(updates)]: the six columns of the row whose
    primary key is that of [tx] take the values of [piriTx]. *)
Definition apply_updates (piriTx : models.MessageWaitsEth) (row : models.MessageWaitsEth)
  : models.MessageWaitsEth :=
  {| models.ID := models.ID row;
     models.SignedTxHash := models.SignedTxHash row;
     models.ConfirmedTxHash := models.ConfirmedTxHash piriTx;
     models.TxStatus := models.TxStatus piriTx;
     models.TxSuccess := models.TxSuccess piriTx;
     models.ConfirmedBlockNumber := models.ConfirmedBlockNumber piriTx;
     models.ConfirmedTxData := models.ConfirmedTxData piriTx;
     models.TxReceipt := models.TxReceipt piriTx;
     models.WaiterMachineID := models.WaiterMachineID row |}.

Definition update_row (tx piriTx : models.MessageWaitsEth) (d : models.DB) : models.DB :=
  {| models.message_waits_eth :=
       map (fun row => if models.ID row =? models.ID tx
                       then apply_updates piriTx row else row)
           (models.message_waits_eth d);
     models.parked_pieces := models.parked_pieces d;
     models.parked_piece_refs := models.parked_piece_refs d;
     models.pdp_piecerefs := models.pdp_piecerefs d |}.

(** [updatePieceStatusForConfirmedTx] (lines 174-186): the body writes one
    log line and returns [nil]. *)
Definition updatePieceStatusForConfirmedTx (tw : TransactionWatcher) (txHash : string)
  : TransactionWatcher * option error :=
  (tw, None).

(** [handleConfirmedTransaction] (lines 155-171). *)
Definition handleConfirmedTransaction (tw : TransactionWatcher)
    (tx piriTx : models.MessageWaitsEth) : TransactionWatcher * option error :=
  if (0 <? length (models.TxReceipt piriTx))%nat then
    match updatePieceStatusForConfirmedTx tw (models.SignedTxHash tx) with
    | (tw', Some e) => (tw', Some (ErrUpdatePieceStatus e))
    | (tw', None) => (tw', None)
    end
  else (tw, None).

(** [checkTransactionStatus] (lines 106-152), for the row in position [i] of
    the batch: its query has position [i] among those the tick sends to Piri's
    database, its update position [S i] among the statements on the isolated
    database (position 0 is the initial [Find]). *)
Definition checkTransactionStatus (env : Env) (tw : TransactionWatcher) (i : nat)
    (tx : models.MessageWaitsEth) : TransactionWatcher * option error :=
  match piri_db env i with
  | fail c => (tw, Some (ErrQueryPiri c))
  | ok piriRows =>
      match models.first_by_hash piriRows (models.SignedTxHash tx) with
      | None => (tw, None)
      | Some piriTx =>
          if negb (String.eqb (models.TxStatus piriTx) (models.TxStatus tx)) then
            match db_error env (S i) with
            | Some c => (tw, Some (ErrUpdateTx c))
            | None =>
                let tw1 := {| db := update_row tx piriTx (db tw) |} in
                if String.eqb (models.TxStatus piriTx) "confirmed"
                   && match models.TxSuccess piriTx with
                      | Some true => true
                      | _ => false
                      end
                then
                  (* an error of the handler is logged, not returned *)
                  (fst (handleConfirmedTransaction tw1 tx piriTx), None)
                else (tw1, None)
            end
          else (tw, None)
      end
  end.

(** The loop of [processPendingTransactions] over the rows read at its
    start: an error of one row is logged and the loop goes on. *)
Fixpoint check_all (env : Env) (tw : TransactionWatcher) (i : nat)
    (pendingTxs : list models.MessageWaitsEth) : TransactionWatcher :=
  match pendingTxs with
  | [] => tw
  | tx :: rest =>
      check_all env (fst (checkTransactionStatus env tw i tx)) (S i) rest
  end.

(** [processPendingTransactions] (lines 75-103): one tick of the watcher. *)
Definition processPendingTransactions (env : Env) (tw : TransactionWatcher)
  : TransactionWatcher * option error :=
  match db_error env 0 with
  | Some c => (tw, Some (ErrGetPending c))
  | None =>
      let pendingTxs :=
        List.filter (fun r => String.eqb (models.TxStatus r) "pending")
                    (models.message_waits_eth (db tw)) in
      if (length pendingTxs =? 0)%nat then (tw, None)
      else (check_all env tw 0 pendingTxs, None)
  end.

(** [MonitorTransaction] (lines 189-221): starts watching a transaction
    hash. *)
Definition MonitorTransaction (env : Env) (tw : TransactionWatcher)
    (txHash txType : string) : TransactionWatcher * option error :=
  match db_error env 0 with
  | Some c => (tw, Some (ErrCheckExisting c))
  | None =>
      match models.first_by_hash (models.message_waits_eth (db tw)) txHash with
      | Some existingTx => (tw, None)
      | None =>
          match db_error env 1 with
          | Some c => (tw, Some (ErrCreateTx c))
          | None =>
              let newTx :=
                {| models.ID :=
                     models.next_id (map models.ID (models.message_waits_eth (db tw)));
                   models.SignedTxHash := txHash;
                   models.ConfirmedTxHash := "";
                   models.TxStatus := "pending";
                   models.TxSuccess := None;
                   models.ConfirmedBlockNumber := None;
                   models.ConfirmedTxData := [];
                   models.TxReceipt := [];
                   models.WaiterMachineID := None |} in
              ({| db :=
                    {| models.message_waits_eth :=
                         models.message_waits_eth (db tw) ++ [newTx];
                       models.parked_pieces := models.parked_pieces (db tw);
                       models.parked_piece_refs := models.parked_piece_refs (db tw);
                       models.pdp_piecerefs := models.pdp_piecerefs (db tw) |} |},
               None)
          end
      end
  end.

End watcher.

(** ** The server: piece service and watcher over one database

    [initializePDPServer] hands the same isolated database to
    [NewPieceService] and to [NewTransactionWatcher], so the state of the
    server is that of the piece service, and a tick of the watcher acts on its
    [db]. *)

Module server.
Import Go Collab Errors.

Definition State : Type := piece.PieceService.

(** One execution of the background tick. *)
Definition tick (env : Env) (s : State) : State * outcome unit :=
  let '(tw, r) :=
    watcher.processPendingTransactions env {| watcher.db := piece.db s |} in
  (piece.with_db (watcher.db tw) s,
   match r with Some e => Fails e | None => Returns tt end).

(** The watcher starts watching a transaction. *)
Definition watch (env : Env) (s : State) (txHash txType : string)
  : State * outcome unit :=
  let '(tw, r) :=
    watcher.MonitorTransaction env {| watcher.db := piece.db s |} txHash txType in
  (piece.with_db (watcher.db tw) s,
   match r with Some e => Fails e | None => Returns tt end).

(** The operations that change the state. *)
Inductive Op : Type :=
| OpPreparePiece (filePath : string)
| OpUploadPiece (pieceID : string) (fileContent : list byte)
| OpAddPieceToProofSet (pieceID : string) (proofSetID : Z)
| OpMonitorTransactionStatus (pieceID : string)
| OpTick
| OpMonitorTransaction (txHash txType : string).

Definition forget {A} (o : outcome A) : outcome unit :=
  match o with
  | Returns _ => Returns tt
  | Fails e => Fails e
  | Hangs => Hangs
  end.

Definition step (env : Env) (s : State) (op : Op) : State * outcome unit :=
  match op with
  | OpPreparePiece filePath =>
      let '(s', o) := piece.PreparePiece env s filePath in (s', forget o)
  | OpUploadPiece pieceID fileContent =>
      let '(s', o) := piece.UploadPiece env s pieceID fileContent in (s', forget o)
  | OpAddPieceToProofSet pieceID proofSetID =>
      piece.AddPieceToProofSet env s pieceID proofSetID
  | OpMonitorTransactionStatus pieceID =>
      piece.MonitorTransactionStatus env s pieceID
  | OpTick => tick env s
  | OpMonitorTransaction txHash txType => watch env s txHash txType
  end.

(** A run: the operations are serialised by the mutexes, each meets the
    collaborators as they are at that moment. A call that never returns ends
    the run. The result is the final state and the log of outcomes. *)
Fixpoint run (s : State) (trace : list (Env * Op))
  : State * list (Op * outcome unit) :=
  match trace with
  | [] => (s, [])
  | (env, op) :: rest =>
      let '(s', o) := step env s op in
      match o with
      | Hangs => (s', [(op, o)])
      | _ => let '(s'', log) := run s' rest in (s'', (op, o) :: log)
      end
  end.

(** The uploads of [pieceID] that returned a piece, in a log. *)
Definition successful_upload (pieceID : string) (entry : Op * outcome unit) : bool :=
  match entry with
  | (OpUploadPiece id _, Returns _) => String.eqb id pieceID
  | _ => false
  end.

Definition count_uploads (pieceID : string) (log : list (Op * outcome unit)) : nat :=
  length (List.filter (fun e => successful_upload pieceID e) log).

(** The status of a piece in a state, if the piece is there. *)
Definition status_of (s : State) (pieceID : string) : option string :=
  piece.Status <$> piece.pieces s !! pieceID.

(** An execution of the reconciliation algorithm: the background tick or
    the manual monitor of some piece. *)
Definition is_reconciliation (op : Op) : bool :=
  match op with
  | OpTick | OpMonitorTransactionStatus _ => true
  | _ => false
  end.

End server.

(** ** The lifecycle the specification draws *)

Module Lifecycle.

(** The edges of the specification's state machine:
    Prepared, Uploaded, PendingConfirmation, then AddedToProofSet or
    TransactionFailed, and Error from Uploaded or PendingConfirmation. *)
Definition edge (from to : string) : bool :=
  (String.eqb from "prepared" && String.eqb to "uploaded")
  || (String.eqb from "uploaded" && String.eqb to "pending_confirmation")
  || (String.eqb from "pending_confirmation" && String.eqb to "added_to_proofset")
  || (String.eqb from "pending_confirmation" && String.eqb to "transaction_failed")
  || (String.eqb from "uploaded" && String.eqb to "error")
  || (String.eqb from "pending_confirmation" && String.eqb to "error").

(** A piece keeps its status or follows an edge. *)
Definition forward (before after : option string) : bool :=
  match before, after with
  | Some a, Some b => String.eqb a b || edge a b
  | None, _ => true
  | Some _, None => false
  end.

(** The terminal statuses. *)
Definition terminal (status : string) : bool :=
  String.eqb status "added_to_proofset" || String.eqb status "transaction_failed".

End Lifecycle.

(** ** Concrete collaborators and states used in the examples *)

Module Examples.
Import Go Collab Errors.

(** SHA-256 of the empty file. *)
Definition sha256_empty : list byte :=
  [xe3; xb0; xc4; x42; x98; xfc; x1c; x14; x9a; xfb; xf4; xc8; x99; x6f; xb9; x24;
   x27; xae; x41; xe4; x64; x9b; x93; x4c; xa4; x95; x99; x1b; x78; x52; xb8; x55].

(** Collaborators that all answer: one empty file on disk, a ledger that
    accepts submissions with the transaction hash of [PiriServiceAdapter],
    databases that work. The hash is SHA-256 on the only file there is. *)
Definition env_ok (piri_rows : list models.MessageWaitsEth) : Env :=
  {| os_open := fun path =>
       if String.eqb path "empty.bin" then FileOk 0 []
       else OpenFails "no such file or directory";
     sha256_sum := fun content =>
       match content with [] => sha256_empty | _ => repeat x00 32 end;
     commp_write := fun _ => None;
     commp_digest := fun padded =>
       if (length padded <? 65)%nat
       then fail "insufficient state accumulated"
       else ok (repeat x00 32, 2 * Z.of_nat (length padded));
     commitment_to_cid := fun digest => ok ("baga6ea4seaq" ++ hex digest)%string;
     blob_put := fun _ _ => None;
     cid_decode := fun c => ok c;
     generate_unsealed_cid := fun _ c => ok c;
     proof_set_add_root := fun _ _ => ok (IString "mock_tx_hash");
     time_now := 1755394200;
     db_error := fun _ => None;
     unique_violation := fun n =>
       match n with
       | O => "constraint failed: UNIQUE constraint failed: parked_pieces.piece_c_id (2067)"
       | _ => "constraint failed: UNIQUE constraint failed: pdp_piece_refs.piece_c_id (2067)"
       end;
     piri_db := fun _ => ok piri_rows |}.

(** The same, with a ledger whose answer is no string. *)
Definition env_odd_result : Env :=
  {| os_open := os_open (env_ok []);
     sha256_sum := sha256_sum (env_ok []);
     commp_write := commp_write (env_ok []);
     commp_digest := commp_digest (env_ok []);
     commitment_to_cid := commitment_to_cid (env_ok []);
     blob_put := blob_put (env_ok []);
     cid_decode := cid_decode (env_ok []);
     generate_unsealed_cid := generate_unsealed_cid (env_ok []);
     proof_set_add_root := fun _ _ => ok IOther;
     time_now := time_now (env_ok []);
     db_error := fun _ => None;
     unique_violation := unique_violation (env_ok []);
     piri_db := fun _ => ok [] |}.

(** The same, with a ledger that rejects the submission. *)
Definition env_ledger_down : Env :=
  {| os_open := os_open (env_ok []);
     sha256_sum := sha256_sum (env_ok []);
     commp_write := commp_write (env_ok []);
     commp_digest := commp_digest (env_ok []);
     commitment_to_cid := commitment_to_cid (env_ok []);
     blob_put := blob_put (env_ok []);
     cid_decode := cid_decode (env_ok []);
     generate_unsealed_cid := generate_unsealed_cid (env_ok []);
     proof_set_add_root := fun _ _ => fail "execution reverted";
     time_now := time_now (env_ok []);
     db_error := fun _ => None;
     unique_violation := unique_violation (env_ok []);
     piri_db := fun _ => ok [] |}.

(** The same, with a blob store that refuses the write. *)
Definition env_blob_down : Env :=
  {| os_open := os_open (env_ok []);
     sha256_sum := sha256_sum (env_ok []);
     commp_write := commp_write (env_ok []);
     commp_digest := commp_digest (env_ok []);
     commitment_to_cid := commitment_to_cid (env_ok []);
     blob_put := fun _ _ => Some "disk full";
     cid_decode := cid_decode (env_ok []);
     generate_unsealed_cid := generate_unsealed_cid (env_ok []);
     proof_set_add_root := proof_set_add_root (env_ok []);
     time_now := time_now (env_ok []);
     db_error := fun _ => None;
     unique_violation := unique_violation (env_ok []);
     piri_db := fun _ => ok [] |}.

Definition empty_db : models.DB :=
  {| models.message_waits_eth := [];
     models.parked_pieces := [];
     models.parked_piece_refs := [];
     models.pdp_piecerefs := [] |}.

(** A transaction row with the hash the ledger adapter hands out. *)
Definition tx_row (status : string) (success : option bool)
    (block : option Z) (receipt : list byte) : models.MessageWaitsEth :=
  {| models.ID := 1;
     models.SignedTxHash := "mock_tx_hash";
     models.ConfirmedTxHash := "";
     models.TxStatus := status;
     models.TxSuccess := success;
     models.ConfirmedBlockNumber := block;
     models.ConfirmedTxData := [];
     models.TxReceipt := receipt;
     models.WaiterMachineID := None |}.

Definition db_with (row : models.MessageWaitsEth) : models.DB :=
  {| models.message_waits_eth := [row];
     models.parked_pieces := [];
     models.parked_piece_refs := [];
     models.pdp_piecerefs := [] |}.

(** Eleven bytes of file content. *)
Definition eleven_bytes : list byte := list_byte_of_string "hello world".

(** A hundred bytes of file content. *)
Definition hundred_bytes : list byte := repeat x2a 100.

(** A piece with the given status, submitted with transaction
    [mock_tx_hash]. *)
Definition a_piece (status : string) : piece.PieceInfo :=
  {| piece.ID := "test-small"; piece.FilePath := ""; piece.Size := 128;
     piece.CommP := hex (repeat x00 32);
     piece.PieceCID := ("baga6ea4seaq" ++ hex (repeat x00 32))%string;
     piece.DataCID := ("baga6ea4seaq" ++ hex (repeat x00 32))%string;
     piece.ProofSetID := 7; piece.Status := status; piece.ErrorMessage := "";
     piece.UploadURL := ""; piece.TransactionHash := "mock_tx_hash";
     piece.TransactionTimestamp := 1755394200 |}.

(** A server that holds that one piece, over the given database. *)
Definition state_with (status : string) (d : models.DB) : server.State :=
  {| piece.pieces := {[ "test-small" := a_piece status ]}; piece.db := d |}.

(** A fresh server. *)
Definition fresh : server.State := piece.NewPieceService empty_db.

End Examples.

(** ** Submissions to the ledger, as a log shows them *)

Module Submissions.
Import Errors server.

(** A call of [AddPieceToProofSet] for [pieceID] that reached the ledger:
    it returned [nil], or it returned the error of [ProofSetAddRoot]. *)
Definition submission (pieceID : string) (entry : Op * outcome unit) : bool :=
  match entry with
  | (OpAddPieceToProofSet id _, Returns _) => String.eqb id pieceID
  | (OpAddPieceToProofSet id _, Fails (ErrLedger _)) => String.eqb id pieceID
  | _ => false
  end.

Definition count_submissions (pieceID : string) (log : list (Op * outcome unit)) : nat :=
  length (List.filter (fun e => submission pieceID e) log).

(** A piece that reconciliation cannot move: it is not pending, or it is
    pending without a transaction hash. *)
Definition frozen (piece : piece.PieceInfo) : bool :=
  negb (String.eqb (piece.Status piece) "pending_confirmation")
  || String.eqb (piece.TransactionHash piece) "".

(** The piece is in the table and is not [uploaded]. *)
Definition spent (s : State) (pieceID : string) : Prop :=
  exists piece0,
    piece.pieces s !! pieceID = Some piece0 /\ piece.Status piece0 <> "uploaded".

End Submissions.

(** ** A tick, row by row

    What one tick of the watcher is to compute, told row by row instead of
    statement by statement; the facts on the watcher compare it with
    [processPendingTransactions]. *)

Module RowByRow.
Import Go Collab models.

(** The database [d] with another transaction table. *)
Definition with_rows (rows : list MessageWaitsEth) (d : DB) : DB :=
  {| message_waits_eth := rows;
     parked_pieces := parked_pieces d;
     parked_piece_refs := parked_piece_refs d;
     pdp_piecerefs := pdp_piecerefs d |}.

(** What becomes of a pending row, the one in position [i] of the batch:
    it takes the columns of Piri's record when Piri answers, knows the hash
    under another status, and the isolated database accepts the update;
    otherwise it stays as it is. *)
Definition fate (env : Env) (i : nat) (row : MessageWaitsEth) : MessageWaitsEth :=
  match piri_db env i with
  | ok piriRows =>
      match first_by_hash piriRows (SignedTxHash row) with
      | Some piriTx =>
          if negb (String.eqb (TxStatus piriTx) (TxStatus row)) then
            match db_error env (S i) with
            | None => watcher.apply_updates piriTx row
            | Some _ => row
            end
          else row
      | None => row
      end
  | fail _ => row
  end.

(** The transaction table after a tick: every pending row meets its fate,
    the others stay. [i] counts the pending rows met so far. *)
Fixpoint reconciled (env : Env) (i : nat) (rows : list MessageWaitsEth)
  : list MessageWaitsEth :=
  match rows with
  | [] => []
  | row :: rest =>
      if String.eqb (TxStatus row) "pending"
      then fate env i row :: reconciled env (S i) rest
      else row :: reconciled env i rest
  end.

(** Collaborators that answer every query of a tick in the same way: the
    isolated database accepts every statement, Piri's database shows the rows
    [piriRows]. *)
Definition steady (env : Env) (piriRows : list MessageWaitsEth) : Prop :=
  (forall n, db_error env n = None) /\ (forall n, piri_db env n = ok piriRows).

(** What no check of a row changes. *)
Definition same_keys (d d' : DB) : Prop :=
  map ID (message_waits_eth d') = map ID (message_waits_eth d) /\
  map SignedTxHash (message_waits_eth d') = map SignedTxHash (message_waits_eth d) /\
  map WaiterMachineID (message_waits_eth d')
    = map WaiterMachineID (message_waits_eth d) /\
  parked_pieces d' = parked_pieces d /\
  parked_piece_refs d' = parked_piece_refs d /\
  pdp_piecerefs d' = pdp_piecerefs d.

End RowByRow.

(** ** [PiriServiceAdapter]: the ledger service as the server is wired *)

Module PiriServiceAdapter.
Import Go Collab.

(** [ProofSetAddRoot] (service/service.go lines 35-39): the same answer to
    every request. *)
Definition ProofSetAddRoot (proofSetID : Z) (addRoots : list service.AddRootRequest)
  : res iface :=
  ok (IString "mock_tx_hash").

(** The ledger collaborator of [env] is the adapter, as in
    [initializePDPServer]. *)
Definition wired (env : Env) : Prop :=
  forall proofSetID addRoots,
    proof_set_add_root env proofSetID addRoots = ProofSetAddRoot proofSetID addRoots.

(** What holds of the piece table of a server so wired: no piece is in
    status [error], and every piece that has been submitted carries the
    adapter's transaction hash. *)
Definition adapter_marked (s : server.State) : Prop :=
  forall pieceID piece0,
    piece.pieces s !! pieceID = Some piece0 ->
    piece.Status piece0 <> "error" /\
    (piece.Status piece0 = "pending_confirmation" \/
     piece.Status piece0 = "added_to_proofset" \/
     piece.Status piece0 = "transaction_failed" ->
     piece.TransactionHash piece0 = "mock_tx_hash").

End PiriServiceAdapter.

(** ** [package api]: the handlers of the piece endpoints *)

Module api.
Import Go Collab Errors.

(** What a handler writes: [c.JSON(code, payload)], or the
    [echo.NewHTTPError(code, message)] it returns. *)
Inductive Body : Type :=
| ErrorJSON (message : string)          (* {"error": message} *)
| PieceJSON (pieceInfo : piece.PieceInfo)
| TransactionJSON (piece_id status transaction_hash : string)
    (transaction_timestamp : Time) (error_message : string)
| HTTPError (message : string).

Record Response := {
  code : Z;
  body : Body
}.

Definition StatusOK : Z := 200.
Definition StatusBadRequest : Z := 400.
Definition StatusNotFound : Z := 404.
Definition StatusInternalServerError : Z := 500.
Definition StatusServiceUnavailable : Z := 503.

(** How a handler ends: with a response, with a nil-pointer panic, or
    never. *)
Inductive Handled : Type :=
| Responds (r : Response)
| Panics
| NeverReturns.

Definition is_hang {A} (o : outcome A) : bool :=
  match o with Hangs => true | _ => false end.

(** [c.FormFile("file")], [file.Open()] and [io.ReadAll(src)]. *)
Inductive FormFile : Type :=
| NoFormFile
| FormFileOpenFails
| FormFileReadFails
| FormFileContent (content : list byte).

(** The request of [PUT /pieces/:pieceID]. *)
Record UploadRequest := {
  up_pieceID : string;                  (* c.Param("pieceID") *)
  up_formFile : FormFile;
  up_body : res (list byte)             (* io.ReadAll(c.Request().Body) *)
}.

(** [handleUploadPiece] (api/server.go lines 356-417). [pieceSvc] is [None]
    for a nil piece service. *)
Definition handleUploadPiece (env : Env) (pieceSvc : option server.State)
    (req : UploadRequest) : option server.State * Handled :=
  match pieceSvc with
  | None =>
      (pieceSvc,
       Responds {| code := StatusServiceUnavailable;
                   body := ErrorJSON "Piece service not available" |})
  | Some s =>
      if String.eqb (up_pieceID req) "" then
        (pieceSvc,
         Responds {| code := StatusBadRequest;
                     body := ErrorJSON "Piece ID is required" |})
      else
        let read : Response + list byte :=
          match up_formFile req with
          | FormFileOpenFails =>
              inl {| code := StatusBadRequest;
                     body := ErrorJSON "Failed to open uploaded file" |}
          | FormFileReadFails =>
              inl {| code := StatusInternalServerError;
                     body := ErrorJSON "Failed to read uploaded file" |}
          | FormFileContent content => inr content
          | NoFormFile =>
              match up_body req with
              | fail _ =>
                  inl {| code := StatusBadRequest;
                         body := ErrorJSON "Failed to read request body" |}
              | ok content => inr content
              end
          end in
        match read with
        | inl response => (pieceSvc, Responds response)
        | inr fileContent =>
            if (length fileContent =? 0)%nat then
              (pieceSvc,
               Responds {| code := StatusBadRequest;
                           body := ErrorJSON "No file content provided" |})
            else
              match piece.UploadPiece env s (up_pieceID req) fileContent with
              | (s', Fails e) =>
                  (Some s',
                   Responds {| code := StatusInternalServerError;
                               body := ErrorJSON ("Failed to upload piece: "
                                                  ++ message e)%string |})
              | (s', Returns pieceInfo) =>
                  (Some s', Responds {| code := StatusOK; body := PieceJSON pieceInfo |})
              | (s', Hangs) => (Some s', NeverReturns)
              end
        end
  end.

(** [handleGetPiece] (lines 420-443). *)
Definition handleGetPiece (pieceSvc : option server.State) (pieceID : string)
  : Handled :=
  match pieceSvc with
  | None =>
      Responds {| code := StatusServiceUnavailable;
                  body := ErrorJSON "Piece service not available" |}
  | Some s =>
      if String.eqb pieceID "" then
        Responds {| code := StatusBadRequest; body := ErrorJSON "Piece ID is required" |}
      else
        match piece.GetPiece s pieceID with
        | Fails e =>
            Responds {| code := StatusNotFound;
                        body := ErrorJSON ("Piece not found: " ++ message e)%string |}
        | Returns pieceInfo =>
            Responds {| code := StatusOK; body := PieceJSON pieceInfo |}
        | Hangs => NeverReturns
        end
  end.

(** The map that the two transaction handlers answer with. *)
Definition transaction_response (p : piece.PieceInfo) : Response :=
  {| code := StatusOK;
     body := TransactionJSON (piece.ID p) (piece.Status p) (piece.TransactionHash p)
               (piece.TransactionTimestamp p) (piece.ErrorMessage p) |}.

(** [handleGetTransactionStatus] (lines 571-591): no nil check, so a nil
    piece service is dereferenced. *)
Definition handleGetTransactionStatus (pieceSvc : option server.State)
    (pieceID : string) : Handled :=
  if String.eqb pieceID "" then
    Responds {| code := StatusBadRequest; body := HTTPError "piece ID is required" |}
  else
    match pieceSvc with
    | None => Panics
    | Some s =>
        match piece.GetPiece s pieceID with
        | Fails e =>
            Responds {| code := StatusNotFound;
                        body := HTTPError ("piece not found: " ++ message e)%string |}
        | Returns p => Responds (transaction_response p)
        | Hangs => NeverReturns
        end
    end.

(** [handleMonitorTransaction] (lines 594-619). The handler calls
    [MonitorTransactionStatus], releases the lock, and calls [GetPiece];
    [between] are the operations of other requests and of the watcher that run
    between the two calls. *)
Definition handleMonitorTransaction (env : Env) (pieceSvc : option server.State)
    (pieceID : string) (between : list (Env * server.Op))
  : option server.State * Handled :=
  if String.eqb pieceID "" then
    (pieceSvc,
     Responds {| code := StatusBadRequest; body := HTTPError "piece ID is required" |})
  else
    match pieceSvc with
    | None => (pieceSvc, Panics)
    | Some s =>
        match piece.MonitorTransactionStatus env s pieceID with
        | (s1, Fails e) =>
            (Some s1,
             Responds {| code := StatusInternalServerError;
                         body := HTTPError ("failed to monitor transaction: "
                                            ++ message e)%string |})
        | (s1, Hangs) => (Some s1, NeverReturns)
        | (s1, Returns _) =>
            let '(s2, log) := server.run s1 between in
            if existsb (fun entry => is_hang (snd entry)) log then
              (* the lock is never released *)
              (Some s2, NeverReturns)
            else
              match piece.GetPiece s2 pieceID with
              | Fails e =>
                  (Some s2,
                   Responds {| code := StatusNotFound;
                               body := HTTPError ("piece not found: "
                                                  ++ message e)%string |})
              | Returns p => (Some s2, Responds (transaction_response p))
              | Hangs => (Some s2, NeverReturns)
              end
        end
    end.

End api.

(** ** The alphabet of the hexadecimal encoding *)

Module Hex.

(** The characters [hex] writes. *)
Definition is_hex_digit (c : ascii) : bool :=
  existsb (Ascii.eqb c) (list_ascii_of_string "0123456789abcdef").

End Hex.

Module PaddingFacts.
Import Padding.

Lemma wrap_small z : - 2 ^ 63 <= z < 2 ^ 63 -> GoInt.wrap z = z.
Proof.
  intros Hz. unfold GoInt.wrap.
  rewrite Z.mod_small by lia. lia.
Qed.

Lemma shl1_pow2 k : 0 <= k < 62 -> GoInt.shl1 (2 ^ k) = 2 ^ (k + 1).
Proof.
  intros Hk. unfold GoInt.shl1.
  rewrite Z.shiftl_mul_pow2 by lia.
  replace (2 ^ k * 2 ^ 1) with (2 ^ (k + 1)) by (rewrite Z.pow_add_r by lia; reflexivity).
  apply wrap_small.
  assert (0 < 2 ^ (k + 1)) by (apply Z.pow_pos_nonneg; lia).
  assert (2 ^ (k + 1) <= 2 ^ 62) by (apply Z.pow_le_mono_r; lia).
  lia.
Qed.

(** The loop, started at [2^k] with every smaller power below [size], stops
    at the least power of two that is not below [size]. *)
Lemma nextPowerOfTwo_loop_spec size :
  0 < size <= GoInt.max_pow2 ->
  forall (fuel : nat) (k : Z),
    0 <= k <= 62 -> 62 - k <= Z.of_nat fuel ->
    (k = 0 \/ 2 ^ (k - 1) < size) ->
    exists j, k <= j <= 62 /\
      nextPowerOfTwo_loop fuel (2 ^ k) size = Some (2 ^ j) /\
      size <= 2 ^ j /\ (j = 0 \/ 2 ^ (j - 1) < size).
Proof.
  unfold GoInt.max_pow2. intros Hsize.
  induction fuel as [|fuel IH]; intros k Hk Hfuel Hprev.
  - assert (k = 62) by lia. subst k. exists 62. cbn [nextPowerOfTwo_loop].
    destruct (Z.ltb_spec (2 ^ 62) size); [lia|].
    repeat split; first [lia | assumption | reflexivity].
  - cbn [nextPowerOfTwo_loop].
    destruct (Z.ltb_spec (2 ^ k) size) as [Hlt|Hge].
    + assert (k < 62).
      { destruct (Z.eq_dec k 62); [subst; lia | lia]. }
      rewrite shl1_pow2 by lia.
      destruct (IH (k + 1)) as (j & Hj & Hloop & Hle & Hmin); try lia.
      { right. replace (k + 1 - 1) with k by lia. exact Hlt. }
      exists j. repeat split; first [lia | assumption].
    + exists k. repeat split; first [lia | assumption | reflexivity].
Qed.

Lemma nextPowerOfTwo_loop_zero size fuel :
  0 < size -> nextPowerOfTwo_loop fuel 0 size = None.
Proof.
  intros Hsize. induction fuel as [|fuel IH]; cbn [nextPowerOfTwo_loop];
    destruct (Z.ltb_spec 0 size); try lia; [reflexivity|].
  change (GoInt.shl1 0) with 0. exact IH.
Qed.

Lemma nextPowerOfTwo_loop_from_62 size fuel :
  2 ^ 62 < size -> nextPowerOfTwo_loop fuel (2 ^ 62) size = None.
Proof.
  intros Hsize.
  destruct fuel as [|fuel]; cbn [nextPowerOfTwo_loop];
    destruct (Z.ltb_spec (2 ^ 62) size); try lia; [reflexivity|].
  change (GoInt.shl1 (2 ^ 62)) with (- 2 ^ 63).
  destruct fuel as [|fuel]; cbn [nextPowerOfTwo_loop];
    destruct (Z.ltb_spec (- 2 ^ 63) size); try lia; [reflexivity|].
  change (GoInt.shl1 (- 2 ^ 63)) with 0.
  apply nextPowerOfTwo_loop_zero. lia.
Qed.

(** Fuel is no limit: on a size above [2^62] the loop variable wraps around
    to 0 and the loop does not exit, whatever the fuel. *)
Lemma nextPowerOfTwo_loop_stuck size :
  GoInt.max_pow2 < size ->
  forall (n : nat) (k : Z) (fuel : nat),
    k = 62 - Z.of_nat n -> 0 <= k ->
    nextPowerOfTwo_loop fuel (2 ^ k) size = None.
Proof.
  unfold GoInt.max_pow2. intros Hsize.
  induction n as [|n IH]; intros k fuel Hk Hk0.
  - replace k with 62 by lia. now apply nextPowerOfTwo_loop_from_62.
  - assert (2 ^ k < size).
    { assert (2 ^ k <= 2 ^ 62) by (apply Z.pow_le_mono_r; lia). lia. }
    destruct fuel as [|fuel]; cbn [nextPowerOfTwo_loop];
      destruct (Z.ltb_spec (2 ^ k) size); try lia; [reflexivity|].
    rewrite shl1_pow2 by lia. apply IH; lia.
Qed.

End PaddingFacts.

Module PaddingTheorems.
Import Padding PaddingFacts.

Lemma skipn_repeat_zeros (n m : nat) :
  skipn n (repeat x00 m) = repeat x00 (m - n).
Proof.
  revert m. induction n as [|n IH]; intros m.
  - rewrite Nat.sub_0_r. reflexivity.
  - destruct m as [|m]; [reflexivity|]. cbn [repeat skipn]. apply IH.
Qed.

Lemma copy_make_longer (n : Z) (data : list byte) :
  Z.of_nat (length data) <= n ->
  copy (make n) data = data ++ repeat x00 (Z.to_nat n - length data).
Proof.
  intros Hle. unfold copy, make.
  rewrite repeat_length.
  rewrite Nat.min_r by lia.
  rewrite firstn_all. f_equal.
  apply skipn_repeat_zeros.
Qed.

Lemma pow2_nat_Z (k : Z) : 0 <= k -> Z.of_nat (2 ^ Z.to_nat k) = 2 ^ k.
Proof.
  intros Hk. rewrite Nat2Z.inj_pow. rewrite Z2Nat.id by lia. reflexivity.
Qed.

Lemma is_pow2_Z (n : nat) (j : Z) : 0 <= j -> Z.of_nat n = 2 ^ j -> is_pow2 n.
Proof.
  intros Hj Hn. exists (Z.to_nat j).
  apply Nat2Z.inj. rewrite pow2_nat_Z by lia. exact Hn.
Qed.

Lemma pow2_between (j k : Z) :
  0 <= j -> 0 <= k -> 2 ^ (j - 1) < 2 ^ k -> j <= k.
Proof.
  intros Hj Hk Hlt.
  destruct (Z.le_gt_cases j k) as [|Hgt]; [assumption|].
  assert (2 ^ k <= 2 ^ (j - 1)) by (apply Z.pow_le_mono_r; lia).
  lia.
Qed.

(** On every input a Go slice can hold, the padding returns. *)
Lemma padToPowerOfTwo_returns (data : list byte) :
  Z.of_nat (length data) <= GoInt.max_pow2 ->
  is_Some (padToPowerOfTwo data).
Proof.
  intros Hmax. unfold padToPowerOfTwo.
  destruct (Z.eqb_spec (Z.of_nat (length data)) 0) as [|Hne]; [eauto|].
  destruct (nextPowerOfTwo_loop_spec (Z.of_nat (length data))
              ltac:(lia) loop_fuel 0)
    as (j & _ & Hloop & _); [lia | unfold loop_fuel; lia | now left |].
  change (2 ^ 0) with 1 in Hloop. rewrite Hloop.
  destruct (2 ^ j =? Z.of_nat (length data)); eauto.
Qed.

(** C7. For every byte sequence of positive length (and of a length a Go
    slice can have), [padToPowerOfTwo] returns a sequence whose length is a
    power of two and which is the input followed by zero bytes only; an input
    whose length is a power of two is returned unchanged, any other is padded
    to the least power of two above its length. *)
Theorem padToPowerOfTwo_pads (data : list byte) :
  (0 < length data)%nat ->
  Z.of_nat (length data) <= GoInt.max_pow2 ->
  exists padded,
    padToPowerOfTwo data = Some padded /\
    is_pow2 (length padded) /\
    (exists zeros, padded = data ++ repeat x00 zeros) /\
    (is_pow2 (length data) -> padded = data) /\
    (~ is_pow2 (length data) ->
       (length data < length padded)%nat /\
       forall m, is_pow2 m -> (length data < m)%nat -> (length padded <= m)%nat).
Proof.
  intros Hpos Hmax.
  set (size := Z.of_nat (length data)) in *.
  assert (Hsize : 0 < size <= GoInt.max_pow2) by (unfold size; lia).
  destruct (nextPowerOfTwo_loop_spec size Hsize loop_fuel 0)
    as (j & Hj & Hloop & Hle & Hmin); [lia | unfold loop_fuel; lia | now left |].
  unfold padToPowerOfTwo. fold size.
  destruct (Z.eqb_spec size 0) as [|_]; [lia|].
  change (2 ^ 0) with 1 in Hloop. rewrite Hloop.
  destruct (Z.eqb_spec (2 ^ j) size) as [Heq|Hne].
  - exists data. split; [reflexivity|].
    split; [apply (is_pow2_Z _ j); [lia | unfold size in Heq; lia]|].
    split; [exists 0%nat; cbn [repeat]; now rewrite app_nil_r|].
    split; [reflexivity|].
    intros Hnot. exfalso. apply Hnot.
    apply (is_pow2_Z _ j); [lia | unfold size in Heq; lia].
  - assert (Hlt : size < 2 ^ j) by lia.
    assert (Hlen : length (copy (make (2 ^ j)) data) = Z.to_nat (2 ^ j)).
    { rewrite copy_make_longer by (fold size; lia).
      rewrite length_app, repeat_length. unfold size in Hlt. lia. }
    exists (copy (make (2 ^ j)) data). split; [reflexivity|].
    split.
    { apply (is_pow2_Z _ j); [lia|]. rewrite Hlen.
      rewrite Z2Nat.id; [reflexivity|]. apply Z.pow_nonneg. lia. }
    split.
    { eexists. apply copy_make_longer. fold size. lia. }
    assert (Hj0 : 2 ^ (j - 1) < size).
    { destruct Hmin as [->|]; [|assumption]. cbn in Hlt. lia. }
    split.
    + intros [k Hk]. exfalso.
      assert (Hsk : size = 2 ^ Z.of_nat k).
      { unfold size. rewrite Hk. rewrite Nat2Z.inj_pow. reflexivity. }
      assert (j <= Z.of_nat k) by (apply pow2_between; lia).
      assert (2 ^ j <= 2 ^ Z.of_nat k) by (apply Z.pow_le_mono_r; lia).
      lia.
    + intros _. split.
      * rewrite Hlen. unfold size in Hlt. lia.
      * intros m [k Hk] Hm. rewrite Hlen.
        assert (Hmk : Z.of_nat m = 2 ^ Z.of_nat k).
        { rewrite Hk. rewrite Nat2Z.inj_pow. reflexivity. }
        assert (j <= Z.of_nat k).
        { apply pow2_between; unfold size in *; lia. }
        assert (2 ^ j <= 2 ^ Z.of_nat k) by (apply Z.pow_le_mono_r; lia).
        lia.
Qed.

(** The hypotheses of [padToPowerOfTwo_pads] hold of an eleven-byte input. *)
Lemma padToPowerOfTwo_pads_witness :
  (0 < length Examples.eleven_bytes)%nat /\
  Z.of_nat (length Examples.eleven_bytes) <= GoInt.max_pow2 /\
  exists padded,
    padToPowerOfTwo Examples.eleven_bytes = Some padded /\
    is_pow2 (length padded) /\
    (exists zeros, padded = Examples.eleven_bytes ++ repeat x00 zeros) /\
    (is_pow2 (length Examples.eleven_bytes) -> padded = Examples.eleven_bytes) /\
    (~ is_pow2 (length Examples.eleven_bytes) ->
       (length Examples.eleven_bytes < length padded)%nat /\
       forall m, is_pow2 m -> (length Examples.eleven_bytes < m)%nat ->
                 (length padded <= m)%nat).
Proof.
  split; [cbn; lia|].
  split; [vm_compute; discriminate|].
  apply (padToPowerOfTwo_pads Examples.eleven_bytes);
    [cbn; lia | vm_compute; discriminate].
Defined.

Example padToPowerOfTwo_eleven :
  option_map (@length byte) (padToPowerOfTwo Examples.eleven_bytes) = Some 16%nat.
Proof. reflexivity. Qed.

(** C10. On the empty byte sequence [padToPowerOfTwo] returns, and returns
    the empty sequence itself, whose length 0 is not a power of two. *)
Theorem padToPowerOfTwo_empty :
  padToPowerOfTwo [] = Some [] /\
  length (@nil byte) = 0%nat /\
  ~ is_pow2 (length (@nil byte)).
Proof.
  split; [reflexivity|]. split; [reflexivity|].
  intros [k Hk]. cbn [length] in Hk.
  symmetry in Hk. apply Nat.pow_eq_0_iff in Hk. lia.
Qed.

End PaddingTheorems.

(** ** The piece service, one call at a time *)

Module PieceFacts.
Import Go Collab Errors piece.

Lemma eqb_false_of_ne (a b : string) : a <> b -> String.eqb a b = false.
Proof. intros Hne. now apply String.eqb_neq. Qed.

(** Whatever [UploadPiece] does, an uploaded record is stored only by a call
    that returns it. *)
Lemma UploadPiece_cases env p pieceID fileContent :
  (exists e, UploadPiece env p pieceID fileContent = (p, Fails e)) \/
  UploadPiece env p pieceID fileContent = (p, Hangs) \/
  (exists piece,
     pieces p !! pieceID = None /\
     Status piece = "uploaded" /\
     UploadPiece env p pieceID fileContent =
       (with_pieces (<[pieceID := piece]> (pieces p)) p, Returns piece)).
Proof.
  unfold UploadPiece.
  destruct (pieces p !! pieceID) as [existing|] eqn:Hlookup; [left; eauto|].
  destruct (Padding.padToPowerOfTwo fileContent) as [padded|]; [|right; left; reflexivity].
  destruct (commp_write env padded); [left; eauto|].
  destruct (commp_digest env padded) as [[digest paddedPieceSize]|]; [|left; eauto].
  destruct (commitment_to_cid env digest) as [pieceCID|]; [|left; eauto].
  cbn [PieceCID].
  destruct (blob_put env pieceCID padded); [left; eauto|].
  right; right. eexists.
  split; [reflexivity|]. split; [|reflexivity]. reflexivity.
Qed.

Lemma UploadPiece_present env p pieceID fileContent :
  is_Some (pieces p !! pieceID) ->
  UploadPiece env p pieceID fileContent = (p, Fails (ErrAlreadyExists pieceID)).
Proof.
  intros [existing Hlookup]. unfold UploadPiece. now rewrite Hlookup.
Qed.

(** On an id that is not in the table the call goes through as soon as the
    padding loop ends and the collaborators answer. *)
Lemma UploadPiece_absent env p pieceID fileContent padded digest paddedPieceSize pieceCID :
  pieces p !! pieceID = None ->
  Padding.padToPowerOfTwo fileContent = Some padded ->
  commp_write env padded = None ->
  commp_digest env padded = ok (digest, paddedPieceSize) ->
  commitment_to_cid env digest = ok pieceCID ->
  blob_put env pieceCID padded = None ->
  exists piece,
    UploadPiece env p pieceID fileContent =
      (with_pieces (<[pieceID := piece]> (pieces p)) p, Returns piece) /\
    ID piece = pieceID /\ Status piece = "uploaded" /\
    Size piece = Z.of_nat (length padded) /\ PieceCID piece = pieceCID.
Proof.
  intros Hlookup Hpad Hwrite Hdigest Hcid Hput. unfold UploadPiece.
  rewrite Hlookup, Hpad, Hwrite, Hdigest, Hcid. cbn [PieceCID]. rewrite Hput.
  eexists. split; [reflexivity|]. repeat split.
Qed.

(** On content a Go slice can hold, [UploadPiece] returns. *)
Lemma UploadPiece_returns env p pieceID fileContent :
  Z.of_nat (length fileContent) <= GoInt.max_pow2 ->
  snd (UploadPiece env p pieceID fileContent) <> Hangs.
Proof.
  intros Hmax.
  destruct (PaddingTheorems.padToPowerOfTwo_returns fileContent Hmax)
    as [padded Hpad].
  destruct (UploadPiece_cases env p pieceID fileContent)
    as [[e ->]|[Hhang|(piece & _ & _ & ->)]]; try discriminate.
  revert Hhang. unfold UploadPiece. rewrite Hpad.
  destruct (pieces p !! pieceID); [discriminate|].
  destruct (commp_write env padded); [discriminate|].
  destruct (commp_digest env padded) as [[digest paddedPieceSize]|]; [|discriminate].
  destruct (commitment_to_cid env digest) as [pieceCID|]; [|discriminate].
  cbn [PieceCID]. destruct (blob_put env pieceCID padded); discriminate.
Qed.

(** The call returned this state and this error: nothing was written. *)
Ltac returned_error :=
  intros [= <- <-]; split; [reflexivity|]; eauto 10.

(** The errors of [UploadPiece], and the state it returns with them. *)
Lemma UploadPiece_fails_inv env p pieceID fileContent p' e :
  UploadPiece env p pieceID fileContent = (p', Fails e) ->
  p' = p /\
  (e = ErrAlreadyExists pieceID \/ (exists c, e = ErrCalcCommp c) \/
   (exists c, e = ErrCommpDigest c) \/ (exists c, e = ErrCommpToCID c) \/
   (exists c, e = ErrBlobStore c)).
Proof.
  unfold UploadPiece.
  destruct (pieces p !! pieceID) as [existing|]; [returned_error|].
  destruct (Padding.padToPowerOfTwo fileContent) as [padded|]; [|discriminate].
  destruct (commp_write env padded); [returned_error|].
  destruct (commp_digest env padded) as [[digest paddedPieceSize]|];
    [|returned_error].
  destruct (commitment_to_cid env digest) as [pieceCID|]; [|returned_error].
  cbn [PieceCID].
  destruct (blob_put env pieceCID padded); [returned_error|discriminate].
Qed.

(** C9. When [UploadPiece] returns an error (the id is already there, the
    commitment cannot be computed, or the blob store refuses the write) the
    piece table is as it was: no record has been added or changed. *)
Theorem UploadPiece_error_keeps_table env p pieceID fileContent p' e :
  UploadPiece env p pieceID fileContent = (p', Fails e) ->
  pieces p' = pieces p /\ p' = p /\
  (e = ErrAlreadyExists pieceID \/ (exists c, e = ErrCalcCommp c) \/
   (exists c, e = ErrCommpDigest c) \/ (exists c, e = ErrCommpToCID c) \/
   (exists c, e = ErrBlobStore c)).
Proof.
  intros Hcall.
  destruct (UploadPiece_fails_inv env p pieceID fileContent p' e Hcall) as [-> Hcause].
  auto.
Qed.

(** A blob store that refuses the write makes the upload fail. *)
Lemma UploadPiece_error_keeps_table_witness :
  UploadPiece Examples.env_blob_down Examples.fresh "test-small" Examples.hundred_bytes
    = (Examples.fresh, Fails (ErrBlobStore "disk full")) /\
  pieces Examples.fresh = pieces Examples.fresh /\
  Examples.fresh = Examples.fresh /\
  (ErrBlobStore "disk full" = ErrAlreadyExists "test-small" \/
   (exists c, ErrBlobStore "disk full" = ErrCalcCommp c) \/
   (exists c, ErrBlobStore "disk full" = ErrCommpDigest c) \/
   (exists c, ErrBlobStore "disk full" = ErrCommpToCID c) \/
   (exists c, ErrBlobStore "disk full" = ErrBlobStore c)).
Proof.
  assert (H : UploadPiece Examples.env_blob_down Examples.fresh "test-small"
                Examples.hundred_bytes
              = (Examples.fresh, Fails (ErrBlobStore "disk full")))
    by (vm_compute; reflexivity).
  split; [exact H|].
  exact (UploadPiece_error_keeps_table _ _ _ _ _ _ H).
Defined.

(** C6. [AddPieceToProofSet] on a piece that is there but whose status is not
    [uploaded] returns the error "piece ... is not uploaded" and changes
    nothing: the service, and so every field of the piece, is as before. *)
Theorem AddPieceToProofSet_not_uploaded env p pieceID proofSetID piece0 :
  pieces p !! pieceID = Some piece0 ->
  Status piece0 <> "uploaded" ->
  exists p',
    AddPieceToProofSet env p pieceID proofSetID = (p', Fails (ErrNotUploaded pieceID)) /\
    p' = p /\ pieces p' !! pieceID = Some piece0.
Proof.
  intros Hlookup Hstatus. exists p. unfold AddPieceToProofSet.
  rewrite Hlookup. rewrite (eqb_false_of_ne _ _ Hstatus). cbn [negb]. auto.
Qed.

(** A piece that is already pending cannot be submitted again. *)
Lemma AddPieceToProofSet_not_uploaded_witness :
  exists p',
    AddPieceToProofSet (Examples.env_ok [])
      (Examples.state_with "pending_confirmation" Examples.empty_db) "test-small" 7
      = (p', Fails (ErrNotUploaded "test-small")) /\
    p' = Examples.state_with "pending_confirmation" Examples.empty_db /\
    pieces p' !! "test-small" = Some (Examples.a_piece "pending_confirmation").
Proof.
  apply (AddPieceToProofSet_not_uploaded (Examples.env_ok [])
           (Examples.state_with "pending_confirmation" Examples.empty_db)
           "test-small" 7 (Examples.a_piece "pending_confirmation")).
  - vm_compute. reflexivity.
  - cbn. discriminate.
Defined.

End PieceFacts.

(** ** The query by transaction hash *)

Module TableFacts.
Import models.

Lemma least_id_In rows row : least_id rows = Some row -> In row rows.
Proof.
  revert row. induction rows as [|r rows IH]; intros row; [discriminate|].
  cbn [least_id]. destruct (least_id rows) as [r'|].
  - destruct (ID r' <? ID r); intros [= <-]; [right; now apply IH | now left].
  - intros [= <-]. now left.
Qed.

Lemma least_id_cons r rows : is_Some (least_id (r :: rows)).
Proof.
  cbn [least_id]. destruct (least_id rows) as [r'|]; [|eauto].
  destruct (ID r' <? ID r); eauto.
Qed.

Lemma first_by_hash_found rows h row :
  first_by_hash rows h = Some row -> SignedTxHash row = h /\ In row rows.
Proof.
  unfold first_by_hash. intros Hleast. apply least_id_In in Hleast.
  apply filter_In in Hleast as [Hin Heq]. split; [now apply String.eqb_eq|exact Hin].
Qed.

Lemma first_by_hash_present rows h row :
  In row rows -> SignedTxHash row = h -> is_Some (first_by_hash rows h).
Proof.
  intros Hin Hhash. unfold first_by_hash.
  assert (Hf : In row (List.filter (fun r => String.eqb (SignedTxHash r) h) rows))
    by (apply filter_In; split; [exact Hin | now apply String.eqb_eq]).
  destruct (List.filter _ rows) as [|r l]; [destruct Hf | apply least_id_cons].
Qed.

Lemma filter_none {A} (f : A -> bool) (l : list A) :
  (forall x, In x l -> f x = false) -> List.filter f l = [].
Proof.
  induction l as [|a l IH]; intros Hall; [reflexivity|].
  cbn [List.filter]. rewrite (Hall a) by now left.
  apply IH. intros x Hx. apply Hall. now right.
Qed.

(** Under the unique index on the hash, the rows with a row's hash are that
    row alone. *)
Lemma filter_hash_unique rows row :
  List.NoDup (map SignedTxHash rows) -> In row rows ->
  List.filter (fun r => String.eqb (SignedTxHash r) (SignedTxHash row)) rows = [row].
Proof.
  induction rows as [|r rows IH]; intros Hnodup Hin; [destruct Hin|].
  cbn [map] in Hnodup. apply List.NoDup_cons_iff in Hnodup as [Hfresh Hnodup].
  cbn [List.filter]. destruct Hin as [->|Hin].
  - rewrite String.eqb_refl. f_equal. apply filter_none.
    intros x Hx. apply String.eqb_neq. intros Heq. apply Hfresh.
    rewrite <- Heq. now apply in_map.
  - destruct (String.eqb_spec (SignedTxHash r) (SignedTxHash row)) as [Heq|Hne].
    + exfalso. apply Hfresh. rewrite Heq. now apply in_map.
    + now apply IH.
Qed.

Lemma first_by_hash_unique rows h row :
  List.NoDup (map SignedTxHash rows) -> In row rows -> SignedTxHash row = h ->
  first_by_hash rows h = Some row.
Proof.
  intros Hnodup Hin <-. unfold first_by_hash.
  now rewrite (filter_hash_unique rows row Hnodup Hin).
Qed.

End TableFacts.

(** ** The manual monitor *)

Module MonitorFacts.
Import Go Collab Errors piece.

(** What the monitor does to a pending piece, by the answer of the
    transaction query. *)
Lemma MonitorTransactionStatus_pending env p pieceID piece0 :
  pieces p !! pieceID = Some piece0 ->
  Status piece0 = "pending_confirmation" ->
  TransactionHash piece0 <> "" ->
  MonitorTransactionStatus env p pieceID =
    match query_transaction env (db p) (TransactionHash piece0) with
    | models.QueryError c => (p, Fails (ErrQueryTx c))
    | models.RecordNotFound => (p, Returns tt)
    | models.Found row =>
        if String.eqb (models.TxStatus row) "confirmed" then
          match models.TxSuccess row with
          | Some true =>
              (with_pieces
                 (<[pieceID := set_Status "added_to_proofset" piece0]> (pieces p)) p,
               Returns tt)
          | _ =>
              (with_pieces
                 (<[pieceID := set_ErrorMessage "Transaction failed on blockchain"
                                 (set_Status "transaction_failed" piece0)]> (pieces p)) p,
               Returns tt)
          end
        else (p, Returns tt)
    end.
Proof.
  intros Hlookup Hstatus Hhash. unfold MonitorTransactionStatus.
  rewrite Hlookup, Hstatus. cbn [String.eqb Ascii.eqb Bool.eqb negb].
  rewrite (PieceFacts.eqb_false_of_ne _ _ Hhash). reflexivity.
Qed.

(** On any other piece the monitor returns an error and writes nothing. *)
Lemma MonitorTransactionStatus_not_pending env p pieceID piece0 :
  pieces p !! pieceID = Some piece0 ->
  Status piece0 <> "pending_confirmation" ->
  MonitorTransactionStatus env p pieceID = (p, Fails (ErrNotPending pieceID)).
Proof.
  intros Hlookup Hstatus. unfold MonitorTransactionStatus.
  rewrite Hlookup, (PieceFacts.eqb_false_of_ne _ _ Hstatus). reflexivity.
Qed.

(** The monitor writes to no piece but the one it is asked about. *)
Lemma MonitorTransactionStatus_other env p pieceID other :
  other <> pieceID ->
  pieces (fst (MonitorTransactionStatus env p pieceID)) !! other = pieces p !! other.
Proof.
  intros Hne. unfold MonitorTransactionStatus.
  destruct (pieces p !! pieceID) as [piece0|]; [|reflexivity].
  destruct (negb _); [reflexivity|].
  destruct (String.eqb (TransactionHash piece0) ""); [reflexivity|].
  destruct (query_transaction _ _ _) as [row| |]; try reflexivity.
  destruct (String.eqb (models.TxStatus row) "confirmed"); [|reflexivity].
  destruct (models.TxSuccess row) as [[|]|]; cbn [fst with_pieces pieces];
    now rewrite lookup_insert_ne.
Qed.

(** The monitor leaves the database alone. *)
Lemma MonitorTransactionStatus_db env p pieceID :
  db (fst (MonitorTransactionStatus env p pieceID)) = db p.
Proof.
  unfold MonitorTransactionStatus.
  destruct (pieces p !! pieceID) as [piece0|]; [|reflexivity].
  destruct (negb _); [reflexivity|].
  destruct (String.eqb (TransactionHash piece0) ""); [reflexivity|].
  destruct (query_transaction _ _ _) as [row| |]; try reflexivity.
  destruct (String.eqb (models.TxStatus row) "confirmed"); [|reflexivity].
  destruct (models.TxSuccess row) as [[|]|]; reflexivity.
Qed.

Lemma status_of_insert (p : PieceService) pieceID piece :
  server.status_of (with_pieces (<[pieceID := piece]> (pieces p)) p) pieceID
  = Some (Status piece).
Proof.
  unfold server.status_of. cbn [pieces with_pieces].
  now rewrite lookup_insert_eq.
Qed.

Lemma status_of_lookup (p : PieceService) pieceID piece :
  pieces p !! pieceID = Some piece ->
  server.status_of p pieceID = Some (Status piece).
Proof. intros H. unfold server.status_of. now rewrite H. Qed.

(** C4. Reconciling a piece that is pending and has a transaction hash
    reads the transaction table of the database for the row with the piece's
    hash. The piece moves to [added_to_proofset] exactly when the query is
    answered and finds a row of that table, with the piece's hash, that is
    [confirmed] with the success flag set; it moves to [transaction_failed],
    with the non-empty message "Transaction failed on blockchain", exactly when
    that row is [confirmed] without the flag set. Nothing changes while no row
    with the piece's hash is [confirmed]: while every such row is still
    [pending], or there is none. Under the table's unique index on the hash,
    the one row with the piece's hash decides the status. *)
Theorem MonitorTransactionStatus_reconciles env p pieceID piece0 :
  pieces p !! pieceID = Some piece0 ->
  Status piece0 = "pending_confirmation" ->
  TransactionHash piece0 <> "" ->
  (server.status_of (fst (MonitorTransactionStatus env p pieceID)) pieceID
     = Some "added_to_proofset" <->
   db_error env 0 = None /\
   exists row,
     models.first_by_hash (models.message_waits_eth (db p)) (TransactionHash piece0)
       = Some row /\
     In row (models.message_waits_eth (db p)) /\
     models.SignedTxHash row = TransactionHash piece0 /\
     models.TxStatus row = "confirmed" /\ models.TxSuccess row = Some true) /\
  (server.status_of (fst (MonitorTransactionStatus env p pieceID)) pieceID
     = Some "transaction_failed" <->
   db_error env 0 = None /\
   exists row,
     models.first_by_hash (models.message_waits_eth (db p)) (TransactionHash piece0)
       = Some row /\
     In row (models.message_waits_eth (db p)) /\
     models.SignedTxHash row = TransactionHash piece0 /\
     models.TxStatus row = "confirmed" /\ models.TxSuccess row <> Some true) /\
  (server.status_of (fst (MonitorTransactionStatus env p pieceID)) pieceID
     = Some "transaction_failed" ->
   exists piece',
     pieces (fst (MonitorTransactionStatus env p pieceID)) !! pieceID = Some piece' /\
     ErrorMessage piece' = "Transaction failed on blockchain" /\
     ErrorMessage piece' <> "") /\
  ((forall row,
      In row (models.message_waits_eth (db p)) ->
      models.SignedTxHash row = TransactionHash piece0 ->
      models.TxStatus row <> "confirmed") ->
   fst (MonitorTransactionStatus env p pieceID) = p) /\
  (List.NoDup (map models.SignedTxHash (models.message_waits_eth (db p))) ->
   db_error env 0 = None ->
   forall row,
     In row (models.message_waits_eth (db p)) ->
     models.SignedTxHash row = TransactionHash piece0 ->
     server.status_of (fst (MonitorTransactionStatus env p pieceID)) pieceID
     = Some (if String.eqb (models.TxStatus row) "confirmed"
             then if Ledger.succeeded row
                  then "added_to_proofset" else "transaction_failed"
             else "pending_confirmation")).
Proof.
  intros Hlookup Hstatus Hhash.
  rewrite (MonitorTransactionStatus_pending env p pieceID piece0 Hlookup Hstatus Hhash).
  pose proof (status_of_lookup p pieceID piece0 Hlookup) as Hbefore.
  rewrite Hstatus in Hbefore.
  unfold query_transaction.
  destruct (db_error env 0) as [c|] eqn:Hdb.
  { cbn [fst]. rewrite Hbefore.
    repeat split; try discriminate; try (now intros [? _]). }
  destruct (models.first_by_hash (models.message_waits_eth (db p))
              (TransactionHash piece0)) as [row|] eqn:Hfirst.
  2:{ cbn [fst]. rewrite Hbefore.
      repeat split; try discriminate;
        try (now intros [_ (row & Hrow & _)]).
      intros Hnodup _ row Hin Hrow.
      now rewrite (TableFacts.first_by_hash_unique _ _ _ Hnodup Hin Hrow) in Hfirst. }
  destruct (TableFacts.first_by_hash_found _ _ _ Hfirst) as [Hrow Hin].
  assert (Hthe : forall row',
             List.NoDup (map models.SignedTxHash (models.message_waits_eth (db p))) ->
             In row' (models.message_waits_eth (db p)) ->
             models.SignedTxHash row' = TransactionHash piece0 -> row' = row).
  { intros row' Hnodup Hin' Hrow'.
    pose proof (TableFacts.first_by_hash_unique _ _ _ Hnodup Hin' Hrow') as Hfirst'.
    congruence. }
  unfold Ledger.succeeded.
  destruct (String.eqb_spec (models.TxStatus row) "confirmed") as [Hc|Hc].
  - assert (Hlast : forall status : string,
               (if match models.TxSuccess row with Some true => true | _ => false end
                then "added_to_proofset" else "transaction_failed") = status ->
               List.NoDup (map models.SignedTxHash (models.message_waits_eth (db p))) ->
               None = (None : option string) ->
               forall row',
                 In row' (models.message_waits_eth (db p)) ->
                 models.SignedTxHash row' = TransactionHash piece0 ->
                 Some status
                 = Some (if String.eqb (models.TxStatus row') "confirmed"
                         then if match models.TxSuccess row' with
                                 | Some true => true | _ => false end
                              then "added_to_proofset" else "transaction_failed"
                         else "pending_confirmation")).
    { intros status <- Hnodup _ row' Hin' Hrow'.
      rewrite (Hthe row' Hnodup Hin' Hrow'), Hc. reflexivity. }
    destruct (models.TxSuccess row) as [[|]|] eqn:Hsuccess; cbn [fst];
      rewrite status_of_insert; cbn [Status set_Status set_ErrorMessage].
    + split.
      { split; [|reflexivity].
        intros _. split; [reflexivity|]. exists row. repeat split; auto. }
      split.
      { split; [discriminate|].
        intros [_ (row' & Hr & _ & _ & _ & Hs)]. injection Hr as <-. congruence. }
      split; [discriminate|].
      split; [intros Hnone; exfalso; exact (Hnone row Hin Hrow Hc)|].
      now apply Hlast.
    + split.
      { split; [discriminate|].
        intros [_ (row' & Hr & _ & _ & _ & Hs)]. injection Hr as <-. congruence. }
      split.
      { split; [|reflexivity].
        intros _. split; [reflexivity|]. exists row. repeat split; auto.
        rewrite Hsuccess. discriminate. }
      split.
      { intros _. eexists. split; [cbn [pieces with_pieces]; apply lookup_insert_eq|].
        cbn [ErrorMessage set_ErrorMessage]. split; [reflexivity|discriminate]. }
      split; [intros Hnone; exfalso; exact (Hnone row Hin Hrow Hc)|].
      now apply Hlast.
    + split.
      { split; [discriminate|].
        intros [_ (row' & Hr & _ & _ & _ & Hs)]. injection Hr as <-. congruence. }
      split.
      { split; [|reflexivity].
        intros _. split; [reflexivity|]. exists row. repeat split; auto.
        rewrite Hsuccess. discriminate. }
      split.
      { intros _. eexists. split; [cbn [pieces with_pieces]; apply lookup_insert_eq|].
        cbn [ErrorMessage set_ErrorMessage]. split; [reflexivity|discriminate]. }
      split; [intros Hnone; exfalso; exact (Hnone row Hin Hrow Hc)|].
      now apply Hlast.
  - cbn [fst]. rewrite Hbefore.
    split.
    { split; [discriminate|].
      intros [_ (row' & Hr & _ & _ & Hc' & _)]. injection Hr as <-. contradiction. }
    split.
    { split; [discriminate|].
      intros [_ (row' & Hr & _ & _ & Hc' & _)]. injection Hr as <-. contradiction. }
    split; [discriminate|].
    split; [reflexivity|].
    intros Hnodup _ row' Hin' Hrow'.
    rewrite (Hthe row' Hnodup Hin' Hrow').
    destruct (String.eqb_spec (models.TxStatus row) "confirmed"); [contradiction|].
    reflexivity.
Qed.

(** A pending piece whose transaction the table holds confirmed and
    successful. *)
Lemma MonitorTransactionStatus_reconciles_witness :
  server.status_of
    (fst (MonitorTransactionStatus (Examples.env_ok [])
            (Examples.state_with "pending_confirmation"
               (Examples.db_with (Examples.tx_row "confirmed" (Some true) (Some 12345) [x01])))
            "test-small")) "test-small"
  = Some "added_to_proofset".
Proof.
  refine (proj2 (proj1 (MonitorTransactionStatus_reconciles (Examples.env_ok [])
           (Examples.state_with "pending_confirmation"
              (Examples.db_with (Examples.tx_row "confirmed" (Some true) (Some 12345) [x01])))
           "test-small" (Examples.a_piece "pending_confirmation") _ _ _)) _).
  - vm_compute. reflexivity.
  - reflexivity.
  - cbn. discriminate.
  - split; [reflexivity|].
    exists (Examples.tx_row "confirmed" (Some true) (Some 12345) [x01]).
    repeat split; try reflexivity. now left.
Defined.

End MonitorFacts.

(** ** What reconciliation writes on the piece *)

Module CopyFacts.
Import Go Collab Errors piece.

(** Two ledgers that confirm the transaction in different blocks and with
    different receipts. *)
Example monitor_block_12345 :
  pieces (fst (MonitorTransactionStatus (Examples.env_ok [])
                 (Examples.state_with "pending_confirmation"
                    (Examples.db_with
                       (Examples.tx_row "confirmed" (Some true) (Some 12345) [x01])))
                 "test-small")) !! "test-small"
  = Some (Examples.a_piece "added_to_proofset").
Proof. vm_compute. reflexivity. Qed.

Example monitor_block_99999 :
  pieces (fst (MonitorTransactionStatus (Examples.env_ok [])
                 (Examples.state_with "pending_confirmation"
                    (Examples.db_with
                       (Examples.tx_row "confirmed" (Some true) (Some 99999) [x02; x03])))
                 "test-small")) !! "test-small"
  = Some (Examples.a_piece "added_to_proofset").
Proof. vm_compute. reflexivity. Qed.

(** Against C5: the confirmed block and the receipt of the ledger record
    cannot be read off the reconciled piece, in whatever form. The two
    ledgers above leave the very same piece record. *)
Lemma monitor_copies_no_ledger_fields :
  ~ exists read : PieceInfo -> option Z * list byte,
      forall env p pieceID piece0 row,
        pieces p !! pieceID = Some piece0 ->
        Status piece0 = "pending_confirmation" ->
        TransactionHash piece0 <> "" ->
        query_transaction env (db p) (TransactionHash piece0) = models.Found row ->
        models.TxStatus row = "confirmed" ->
        exists piece',
          pieces (fst (MonitorTransactionStatus env p pieceID)) !! pieceID = Some piece' /\
          read piece' = (models.ConfirmedBlockNumber row, models.TxReceipt row).
Proof.
  intros [read Hread].
  destruct (Hread (Examples.env_ok [])
              (Examples.state_with "pending_confirmation"
                 (Examples.db_with
                    (Examples.tx_row "confirmed" (Some true) (Some 12345) [x01])))
              "test-small" (Examples.a_piece "pending_confirmation")
              (Examples.tx_row "confirmed" (Some true) (Some 12345) [x01]))
    as (piece1 & Hpiece1 & Hread1);
    [vm_compute; reflexivity | reflexivity | cbn; discriminate
    | vm_compute; reflexivity | reflexivity |].
  destruct (Hread (Examples.env_ok [])
              (Examples.state_with "pending_confirmation"
                 (Examples.db_with
                    (Examples.tx_row "confirmed" (Some true) (Some 99999) [x02; x03])))
              "test-small" (Examples.a_piece "pending_confirmation")
              (Examples.tx_row "confirmed" (Some true) (Some 99999) [x02; x03]))
    as (piece2 & Hpiece2 & Hread2);
    [vm_compute; reflexivity | reflexivity | cbn; discriminate
    | vm_compute; reflexivity | reflexivity |].
  rewrite monitor_block_12345 in Hpiece1.
  rewrite monitor_block_99999 in Hpiece2.
  injection Hpiece1 as <-. injection Hpiece2 as <-.
  rewrite Hread1 in Hread2. cbn in Hread2. discriminate.
Qed.

(** C5, amended. On a pending piece whose transaction is found with status
    [confirmed], reconciliation writes the status ([added_to_proofset] when
    the success flag is true, [transaction_failed] with the fixed error
    message otherwise) and nothing else: every other field of the piece, every
    other piece and the database are as before. *)
Theorem MonitorTransactionStatus_confirmed_writes env p pieceID piece0 row :
  pieces p !! pieceID = Some piece0 ->
  Status piece0 = "pending_confirmation" ->
  TransactionHash piece0 <> "" ->
  query_transaction env (db p) (TransactionHash piece0) = models.Found row ->
  models.TxStatus row = "confirmed" ->
  exists piece',
    MonitorTransactionStatus env p pieceID
      = (with_pieces (<[pieceID := piece']> (pieces p)) p, Returns tt) /\
    Status piece' =
      (if Ledger.succeeded row then "added_to_proofset" else "transaction_failed") /\
    ErrorMessage piece' =
      (if Ledger.succeeded row then ErrorMessage piece0
       else "Transaction failed on blockchain") /\
    ID piece' = ID piece0 /\ FilePath piece' = FilePath piece0 /\
    Size piece' = Size piece0 /\ CommP piece' = CommP piece0 /\
    PieceCID piece' = PieceCID piece0 /\ DataCID piece' = DataCID piece0 /\
    ProofSetID piece' = ProofSetID piece0 /\ UploadURL piece' = UploadURL piece0 /\
    TransactionHash piece' = TransactionHash piece0 /\
    TransactionTimestamp piece' = TransactionTimestamp piece0.
Proof.
  intros Hlookup Hstatus Hhash Hquery Hconfirmed.
  rewrite (MonitorFacts.MonitorTransactionStatus_pending env p pieceID piece0
             Hlookup Hstatus Hhash).
  rewrite Hquery, Hconfirmed. cbn [String.eqb Ascii.eqb Bool.eqb].
  unfold Ledger.succeeded.
  destruct (models.TxSuccess row) as [[|]|];
    (eexists; split; [reflexivity|]); cbn; repeat split.
Qed.

(** A confirmed, unsuccessful transaction. *)
Lemma MonitorTransactionStatus_confirmed_writes_witness :
  exists piece',
    MonitorTransactionStatus (Examples.env_ok [])
      (Examples.state_with "pending_confirmation"
         (Examples.db_with (Examples.tx_row "confirmed" (Some false) (Some 12345) [x01])))
      "test-small"
    = (with_pieces
         (<["test-small" := piece']>
            (pieces (Examples.state_with "pending_confirmation"
                       (Examples.db_with
                          (Examples.tx_row "confirmed" (Some false) (Some 12345) [x01])))))
         (Examples.state_with "pending_confirmation"
            (Examples.db_with (Examples.tx_row "confirmed" (Some false) (Some 12345) [x01]))),
       Returns tt) /\
    Status piece' = "transaction_failed" /\
    ErrorMessage piece' = "Transaction failed on blockchain".
Proof.
  destruct (MonitorTransactionStatus_confirmed_writes (Examples.env_ok [])
              (Examples.state_with "pending_confirmation"
                 (Examples.db_with
                    (Examples.tx_row "confirmed" (Some false) (Some 12345) [x01])))
              "test-small" (Examples.a_piece "pending_confirmation")
              (Examples.tx_row "confirmed" (Some false) (Some 12345) [x01]))
    as (piece' & Hcall & Hst & Hmsg & _).
  - vm_compute. reflexivity.
  - reflexivity.
  - cbn. discriminate.
  - vm_compute. reflexivity.
  - reflexivity.
  - exists piece'. split; [exact Hcall|]. split; [exact Hst|exact Hmsg].
Defined.

End CopyFacts.

(** ** Runs of the server *)

Module ServerFacts.
Import Go Collab Errors piece server.

(** The watcher has no way to the piece table: a tick leaves it as it is. *)
Lemma tick_pieces env s : pieces (fst (tick env s)) = pieces s.
Proof.
  unfold tick.
  destruct (watcher.processPendingTransactions env _) as [tw r]. reflexivity.
Qed.

Lemma watch_pieces env s txHash txType :
  pieces (fst (watch env s txHash txType)) = pieces s.
Proof.
  unfold watch.
  destruct (watcher.MonitorTransaction env _ _ _) as [tw r]. reflexivity.
Qed.

Lemma PreparePiece_present env s filePath pieceID :
  is_Some (pieces s !! pieceID) ->
  is_Some (pieces (fst (PreparePiece env s filePath)) !! pieceID).
Proof.
  intros Hin. unfold PreparePiece.
  destruct (os_open env filePath); try exact Hin.
  cbn [fst pieces with_pieces]. rewrite lookup_insert.
  case_decide; [eauto | exact Hin].
Qed.

Lemma UploadPiece_keeps_present env s id fileContent pieceID :
  is_Some (pieces s !! pieceID) ->
  is_Some (pieces (fst (UploadPiece env s id fileContent)) !! pieceID).
Proof.
  intros Hin.
  destruct (PieceFacts.UploadPiece_cases env s id fileContent)
    as [[e ->]|[->|(piece & _ & _ & ->)]]; try exact Hin.
  cbn [fst pieces with_pieces]. rewrite lookup_insert.
  case_decide; [eauto | exact Hin].
Qed.

Lemma AddPieceToProofSet_present env s id proofSetID pieceID :
  is_Some (pieces s !! pieceID) ->
  is_Some (pieces (fst (AddPieceToProofSet env s id proofSetID)) !! pieceID).
Proof.
  intros Hin. unfold AddPieceToProofSet.
  destruct (pieces s !! id) as [piece0|]; [|exact Hin].
  destruct (negb _); [exact Hin|].
  destruct (cid_decode env _) as [pieceCID|]; [|exact Hin].
  destruct (generate_unsealed_cid env _ _) as [generatedCID|]; [|exact Hin].
  destruct (createPiriDatabaseEntries env _ _) as [d' [e|]]; [exact Hin|].
  destruct (proof_set_add_root env _ _) as [result|c];
    cbn [fst pieces]; rewrite lookup_insert; case_decide; eauto.
Qed.

Lemma MonitorTransactionStatus_present env s id pieceID :
  is_Some (pieces s !! pieceID) ->
  is_Some (pieces (fst (MonitorTransactionStatus env s id)) !! pieceID).
Proof.
  intros Hin. destruct (decide (pieceID = id)) as [->|Hne].
  - destruct Hin as [piece0 Hlookup].
    destruct (decide (Status piece0 = "pending_confirmation")) as [Hst|Hst].
    + destruct (decide (TransactionHash piece0 = "")) as [Hh|Hh].
      * unfold MonitorTransactionStatus. rewrite Hlookup, Hst, Hh.
        cbn [fst String.eqb Ascii.eqb Bool.eqb negb]. rewrite Hlookup. eauto.
      * rewrite (MonitorFacts.MonitorTransactionStatus_pending env s id piece0
                   Hlookup Hst Hh).
        destruct (query_transaction _ _ _) as [row| |];
          cbn [fst]; try (rewrite Hlookup; eauto).
        destruct (String.eqb (models.TxStatus row) "confirmed");
          [|cbn [fst]; rewrite Hlookup; eauto].
        destruct (models.TxSuccess row) as [[|]|]; cbn [fst with_pieces pieces];
          rewrite lookup_insert_eq; eauto.
    + rewrite (MonitorFacts.MonitorTransactionStatus_not_pending env s id piece0
                 Hlookup Hst).
      cbn [fst]. rewrite Hlookup. eauto.
  - now rewrite MonitorFacts.MonitorTransactionStatus_other.
Qed.

(** No operation removes a piece from the table. *)
Lemma step_present env s op pieceID :
  is_Some (pieces s !! pieceID) ->
  is_Some (pieces (fst (step env s op)) !! pieceID).
Proof.
  intros Hin. destruct op as [filePath|id fileContent|id proofSetID|id| |txHash txType];
    cbn [step].
  - pose proof (PreparePiece_present env s filePath pieceID Hin) as H.
    destruct (PreparePiece env s filePath). exact H.
  - pose proof (UploadPiece_keeps_present env s id fileContent pieceID Hin) as H.
    destruct (UploadPiece env s id fileContent). exact H.
  - now apply AddPieceToProofSet_present.
  - now apply MonitorTransactionStatus_present.
  - now rewrite tick_pieces.
  - now rewrite watch_pieces.
Qed.

(** An upload that returns a piece was made on an id that was not there. *)
Lemma step_upload_returns env s id fileContent s' u :
  step env s (OpUploadPiece id fileContent) = (s', Returns u) ->
  pieces s !! id = None /\ is_Some (pieces s' !! id).
Proof.
  cbn [step].
  destruct (PieceFacts.UploadPiece_cases env s id fileContent)
    as [[e ->]|[->|(piece & Hnone & _ & ->)]]; cbn [forget]; try discriminate.
  intros [= <- _]. split; [exact Hnone|].
  cbn [pieces with_pieces]. rewrite lookup_insert_eq. eauto.
Qed.

Lemma count_uploads_cons pieceID entry log :
  count_uploads pieceID (entry :: log)
  = ((if successful_upload pieceID entry then 1 else 0)
     + count_uploads pieceID log)%nat.
Proof.
  unfold count_uploads. cbn [List.filter].
  destruct (successful_upload pieceID entry); reflexivity.
Qed.

(** Once the id is in the table no upload of it returns a piece. *)
Lemma run_present_no_upload pieceID trace :
  forall s, is_Some (pieces s !! pieceID) ->
            count_uploads pieceID (snd (run s trace)) = 0%nat.
Proof.
  induction trace as [|[env op] rest IH]; intros s Hin; [reflexivity|].
  cbn [run].
  destruct (step env s op) as [s' o] eqn:Hstep.
  assert (Hin' : is_Some (pieces s' !! pieceID)).
  { pose proof (step_present env s op pieceID Hin) as H.
    now rewrite Hstep in H. }
  assert (Hentry : successful_upload pieceID (op, o) = false).
  { destruct op as [filePath|id fileContent|id proofSetID|id| |txHash txType]; try reflexivity.
    destruct o as [u|e|]; try reflexivity.
    cbn [successful_upload].
    destruct (String.eqb_spec id pieceID) as [->|]; [|reflexivity].
    apply step_upload_returns in Hstep as [Hnone _].
    rewrite Hnone in Hin. now destruct Hin. }
  destruct o as [u|e|].
  - specialize (IH s' Hin'). destruct (run s' rest) as [s'' log].
    cbn [snd] in *. rewrite count_uploads_cons, Hentry, IH. reflexivity.
  - specialize (IH s' Hin'). destruct (run s' rest) as [s'' log].
    cbn [snd] in *. rewrite count_uploads_cons, Hentry, IH. reflexivity.
  - cbn [snd]. rewrite count_uploads_cons, Hentry. reflexivity.
Qed.

(** In a run, at most one upload of an id returns a piece. *)
Lemma run_upload_once pieceID trace :
  forall s, (count_uploads pieceID (snd (run s trace)) <= 1)%nat.
Proof.
  induction trace as [|[env op] rest IH]; intros s; [cbn; lia|].
  cbn [run].
  destruct (step env s op) as [s' o] eqn:Hstep.
  destruct (successful_upload pieceID (op, o)) eqn:Hentry.
  - destruct op as [filePath|id fileContent|id proofSetID|id| |txHash txType]; try discriminate.
    destruct o as [u|e|]; try discriminate.
    cbn [successful_upload] in Hentry. apply String.eqb_eq in Hentry. subst id.
    apply step_upload_returns in Hstep as [_ Hin'].
    pose proof (run_present_no_upload pieceID rest s' Hin') as Hrest.
    destruct (run s' rest) as [s'' log]. cbn [snd] in *.
    rewrite count_uploads_cons. cbn [successful_upload].
    rewrite String.eqb_refl, Hrest. lia.
  - destruct o as [u|e|].
    + specialize (IH s'). destruct (run s' rest) as [s'' log].
      cbn [snd] in *. rewrite count_uploads_cons, Hentry. lia.
    + specialize (IH s'). destruct (run s' rest) as [s'' log].
      cbn [snd] in *. rewrite count_uploads_cons, Hentry. lia.
    + cbn [snd]. rewrite count_uploads_cons, Hentry. cbn. lia.
Qed.

End ServerFacts.

(** ** Upload *)

Module UploadTheorems.
Import Go Collab Errors piece server.

(** Against C2: an id that the table has never seen is not refused. On a
    fresh server, with no [PreparePiece] before it, the upload of
    [test-small] returns the piece and stores it as [uploaded]. *)
Lemma UploadPiece_unknown_id_accepted :
  pieces Examples.fresh !! "test-small" = None /\
  is_return (snd (UploadPiece (Examples.env_ok []) Examples.fresh "test-small"
                    Examples.hundred_bytes)) = true /\
  is_failure (snd (UploadPiece (Examples.env_ok []) Examples.fresh "test-small"
                     Examples.hundred_bytes)) = false /\
  status_of (fst (UploadPiece (Examples.env_ok []) Examples.fresh "test-small"
                    Examples.hundred_bytes)) "test-small" = Some "uploaded".
Proof. vm_compute. repeat split. Qed.

(** C2, amended. [UploadPiece] never answers "not found". On an id that is
    not in the table it goes through, once the padding loop ends and the
    collaborators answer, and stores the record as [uploaded]; no
    [PreparePiece] is needed before. On the id of a piece that has been
    uploaded it returns the error "already exists" and changes nothing. In
    every run at most one upload of an id returns a piece. *)
Theorem UploadPiece_at_most_once :
  (forall env p pieceID fileContent other,
     snd (UploadPiece env p pieceID fileContent) <> Fails (ErrPieceNotFound other)) /\
  (forall env p pieceID fileContent padded digest paddedPieceSize pieceCID,
     pieces p !! pieceID = None ->
     Padding.padToPowerOfTwo fileContent = Some padded ->
     commp_write env padded = None ->
     commp_digest env padded = ok (digest, paddedPieceSize) ->
     commitment_to_cid env digest = ok pieceCID ->
     blob_put env pieceCID padded = None ->
     exists piece,
       UploadPiece env p pieceID fileContent
         = (with_pieces (<[pieceID := piece]> (pieces p)) p, Returns piece) /\
       Status piece = "uploaded") /\
  (forall env p pieceID fileContent piece0,
     pieces p !! pieceID = Some piece0 ->
     Status piece0 <> "prepared" ->
     UploadPiece env p pieceID fileContent = (p, Fails (ErrAlreadyExists pieceID))) /\
  (forall s trace pieceID,
     (count_uploads pieceID (snd (run s trace)) <= 1)%nat).
Proof.
  split; [|split; [|split]].
  - intros env p pieceID fileContent other.
    destruct (PieceFacts.UploadPiece_cases env p pieceID fileContent)
      as [[e He]|[->|(piece & _ & _ & ->)]]; cbn [snd]; try discriminate.
    rewrite He. cbn [snd]. intros [= ->].
    apply PieceFacts.UploadPiece_fails_inv in He
      as (_ & [?|[[? ?]|[[? ?]|[[? ?]|[? ?]]]]]); discriminate.
  - intros env p pieceID fileContent padded digest paddedPieceSize pieceCID
           Hnone Hpad Hwrite Hdigest Hcid Hput.
    destruct (PieceFacts.UploadPiece_absent env p pieceID fileContent padded digest
                paddedPieceSize pieceCID Hnone Hpad Hwrite Hdigest Hcid Hput)
      as (piece & Hcall & _ & Hst & _).
    exists piece. split; assumption.
  - intros env p pieceID fileContent piece0 Hlookup _.
    apply PieceFacts.UploadPiece_present. eauto.
  - intros s trace pieceID. apply ServerFacts.run_upload_once.
Qed.

(** A second upload of the same id is refused. *)
Lemma UploadPiece_at_most_once_witness :
  UploadPiece (Examples.env_ok []) (Examples.state_with "uploaded" Examples.empty_db)
    "test-small" Examples.hundred_bytes
  = (Examples.state_with "uploaded" Examples.empty_db,
     Fails (ErrAlreadyExists "test-small")).
Proof.
  apply (proj1 (proj2 (proj2 UploadPiece_at_most_once))
           (Examples.env_ok []) (Examples.state_with "uploaded" Examples.empty_db)
           "test-small" Examples.hundred_bytes (Examples.a_piece "uploaded")).
  - vm_compute. reflexivity.
  - cbn. discriminate.
Defined.

Example two_uploads_one_success :
  map snd
    (snd (run Examples.fresh
            [(Examples.env_ok [], OpUploadPiece "test-small" Examples.hundred_bytes);
             (Examples.env_ok [], OpUploadPiece "test-small" Examples.hundred_bytes)]))
  = [Returns tt; Fails (ErrAlreadyExists "test-small")].
Proof. vm_compute. reflexivity. Qed.

End UploadTheorems.

(** ** Reconciliation: the tick and the monitor *)

Module ReconcileTheorems.
Import Go Collab Errors piece server.

Lemma terminal_not_pending status :
  Lifecycle.terminal status = true -> status <> "pending_confirmation".
Proof.
  unfold Lifecycle.terminal. intros Hterm ->. cbn in Hterm. discriminate.
Qed.

(** One execution of the reconciliation algorithm leaves the record of a
    terminal piece as it is. *)
Lemma reconciliation_keeps_terminal env s op pieceID piece0 :
  is_reconciliation op = true ->
  pieces s !! pieceID = Some piece0 ->
  Lifecycle.terminal (Status piece0) = true ->
  pieces (fst (step env s op)) !! pieceID = Some piece0.
Proof.
  intros Hop Hlookup Hterm.
  destruct op as [filePath|id fileContent|id proofSetID|id| |txHash txType]; try discriminate;
    cbn [step].
  - destruct (decide (pieceID = id)) as [->|Hne].
    + rewrite (MonitorFacts.MonitorTransactionStatus_not_pending env s id piece0
                 Hlookup (terminal_not_pending _ Hterm)).
      exact Hlookup.
    + now rewrite MonitorFacts.MonitorTransactionStatus_other.
  - now rewrite ServerFacts.tick_pieces.
Qed.

Lemma reconciliation_never_hangs env s op :
  is_reconciliation op = true -> snd (step env s op) <> Hangs.
Proof.
  destruct op as [filePath|id fileContent|id proofSetID|id| |txHash txType]; try discriminate;
    intros _; cbn [step].
  - unfold MonitorTransactionStatus.
    destruct (pieces s !! id) as [piece0|]; [|discriminate].
    destruct (negb _); [discriminate|].
    destruct (String.eqb (TransactionHash piece0) ""); [discriminate|].
    destruct (query_transaction _ _ _) as [row| |]; try discriminate.
    destruct (String.eqb (models.TxStatus row) "confirmed"); [|discriminate].
    destruct (models.TxSuccess row) as [[|]|]; discriminate.
  - unfold tick.
    destruct (watcher.processPendingTransactions env _) as [tw [e|]]; discriminate.
Qed.

Lemma reconciliations_keep_terminal pieceID piece0 trace :
  Forall (fun call => is_reconciliation (snd call) = true) trace ->
  Lifecycle.terminal (Status piece0) = true ->
  forall s, pieces s !! pieceID = Some piece0 ->
            pieces (fst (run s trace)) !! pieceID = Some piece0.
Proof.
  intros Hall Hterm.
  induction Hall as [|[env op] rest Hop _ IH]; intros s Hlookup; [exact Hlookup|].
  cbn [snd] in Hop. cbn [run].
  pose proof (reconciliation_keeps_terminal env s op pieceID piece0
                Hop Hlookup Hterm) as Hstep.
  destruct (step env s op) as [s' o]. cbn [fst] in Hstep.
  destruct o as [u|e|].
  - specialize (IH s' Hstep). destruct (run s' rest) as [s'' log]. exact IH.
  - specialize (IH s' Hstep). destruct (run s' rest) as [s'' log]. exact IH.
  - exact Hstep.
Qed.

(** C8. A piece whose status is [added_to_proofset] or
    [transaction_failed] keeps that status through every later execution of
    the reconciliation algorithm, be it the background tick or the manual
    monitor of this or of another piece, however the ledger answers. *)
Theorem terminal_status_is_final s trace pieceID status :
  status_of s pieceID = Some status ->
  Lifecycle.terminal status = true ->
  Forall (fun call => is_reconciliation (snd call) = true) trace ->
  status_of (fst (run s trace)) pieceID = Some status.
Proof.
  unfold status_of. intros Hstatus Hterm Hall.
  destruct (pieces s !! pieceID) as [piece0|] eqn:Hlookup; [|discriminate].
  cbn in Hstatus. injection Hstatus as <-.
  now rewrite (reconciliations_keep_terminal pieceID piece0 trace Hall Hterm s Hlookup).
Qed.

(** A piece that is [added_to_proofset], then a tick and a manual monitor
    against a ledger that now calls the transaction failed. *)
Lemma terminal_status_is_final_witness :
  status_of
    (fst (run (Examples.state_with "added_to_proofset"
                 (Examples.db_with (Examples.tx_row "pending" None None [])))
            [(Examples.env_ok [Examples.tx_row "confirmed" (Some false) (Some 12345) [x01]],
              OpTick);
             (Examples.env_ok [], OpMonitorTransactionStatus "test-small")]))
    "test-small"
  = Some "added_to_proofset".
Proof.
  apply (terminal_status_is_final
           (Examples.state_with "added_to_proofset"
              (Examples.db_with (Examples.tx_row "pending" None None [])))
           [(Examples.env_ok [Examples.tx_row "confirmed" (Some false) (Some 12345) [x01]],
             OpTick);
            (Examples.env_ok [], OpMonitorTransactionStatus "test-small")]
           "test-small" "added_to_proofset").
  - vm_compute. reflexivity.
  - reflexivity.
  - repeat constructor.
Defined.

(** C1, on the code. A piece is uploaded and submitted to a proof set, and
    the watcher is told to watch its transaction. Piri's database then reports
    the transaction confirmed and successful, with a receipt. The tick copies
    the confirmation onto the local transaction row and leaves the piece
    [pending_confirmation]; a second tick does the same; the manual monitor,
    run on the state the tick left, moves the piece to [added_to_proofset]. *)
Theorem tick_leaves_confirmed_piece_pending :
  models.message_waits_eth
    (db (fst (run Examples.fresh
                [(Examples.env_ok [], OpUploadPiece "test-small" Examples.hundred_bytes);
                 (Examples.env_ok [], OpAddPieceToProofSet "test-small" 7);
                 (Examples.env_ok [], OpMonitorTransaction "mock_tx_hash" "add_root");
                 (Examples.env_ok
                    [Examples.tx_row "confirmed" (Some true) (Some 12345) [x01]],
                  OpTick)])))
  = [Examples.tx_row "confirmed" (Some true) (Some 12345) [x01]] /\
  status_of
    (fst (run Examples.fresh
            [(Examples.env_ok [], OpUploadPiece "test-small" Examples.hundred_bytes);
             (Examples.env_ok [], OpAddPieceToProofSet "test-small" 7);
             (Examples.env_ok [], OpMonitorTransaction "mock_tx_hash" "add_root");
             (Examples.env_ok
                [Examples.tx_row "confirmed" (Some true) (Some 12345) [x01]],
              OpTick)]))
    "test-small" = Some "pending_confirmation" /\
  status_of
    (fst (run Examples.fresh
            [(Examples.env_ok [], OpUploadPiece "test-small" Examples.hundred_bytes);
             (Examples.env_ok [], OpAddPieceToProofSet "test-small" 7);
             (Examples.env_ok [], OpMonitorTransaction "mock_tx_hash" "add_root");
             (Examples.env_ok
                [Examples.tx_row "confirmed" (Some true) (Some 12345) [x01]],
              OpTick);
             (Examples.env_ok
                [Examples.tx_row "confirmed" (Some true) (Some 12345) [x01]],
              OpTick)]))
    "test-small" = Some "pending_confirmation" /\
  status_of
    (fst (run Examples.fresh
            [(Examples.env_ok [], OpUploadPiece "test-small" Examples.hundred_bytes);
             (Examples.env_ok [], OpAddPieceToProofSet "test-small" 7);
             (Examples.env_ok [], OpMonitorTransaction "mock_tx_hash" "add_root");
             (Examples.env_ok
                [Examples.tx_row "confirmed" (Some true) (Some 12345) [x01]],
              OpTick);
             (Examples.env_ok
                [Examples.tx_row "confirmed" (Some true) (Some 12345) [x01]],
              OpMonitorTransactionStatus "test-small")]))
    "test-small" = Some "added_to_proofset".
Proof. vm_compute. repeat split. Qed.

End ReconcileTheorems.

(** ** The lifecycle *)

Module LifecycleTheorems.
Import Go Collab Errors piece server.

Lemma forward_refl o : Lifecycle.forward o o = true.
Proof.
  destruct o as [a|]; [|reflexivity]. cbn. now rewrite String.eqb_refl.
Qed.

Lemma forward_same (s s' : State) pieceID :
  pieces s' !! pieceID = pieces s !! pieceID ->
  Lifecycle.forward (status_of s pieceID) (status_of s' pieceID) = true.
Proof. unfold status_of. intros ->. apply forward_refl. Qed.

Lemma AddPieceToProofSet_forward env s id proofSetID pieceID :
  Lifecycle.forward (status_of s pieceID)
    (status_of (fst (AddPieceToProofSet env s id proofSetID)) pieceID) = true.
Proof.
  unfold AddPieceToProofSet.
  destruct (pieces s !! id) as [piece0|] eqn:Hlookup; [|apply forward_refl].
  destruct (String.eqb_spec (Status piece0) "uploaded") as [Hst|Hst];
    cbn [negb]; [|apply forward_refl].
  destruct (cid_decode env _) as [pieceCID|]; [|apply forward_refl].
  destruct (generate_unsealed_cid env _ _) as [generatedCID|]; [|apply forward_refl].
  destruct (createPiriDatabaseEntries env _ _) as [d' [e|]]; [apply forward_refl|].
  destruct (decide (pieceID = id)) as [->|Hne].
  - unfold status_of at 1. rewrite Hlookup. cbn [fmap option_fmap option_map]. rewrite Hst.
    destruct (proof_set_add_root env _ _) as [result|c];
      unfold status_of; cbn [fst pieces]; rewrite lookup_insert_eq;
      [destruct result|]; reflexivity.
  - destruct (proof_set_add_root env _ _) as [result|c];
      apply forward_same; cbn [fst pieces]; now rewrite lookup_insert_ne.
Qed.

Lemma MonitorTransactionStatus_forward env s id pieceID :
  Lifecycle.forward (status_of s pieceID)
    (status_of (fst (MonitorTransactionStatus env s id)) pieceID) = true.
Proof.
  destruct (decide (pieceID = id)) as [->|Hne];
    [|apply forward_same; now apply MonitorFacts.MonitorTransactionStatus_other].
  destruct (pieces s !! id) as [piece0|] eqn:Hlookup.
  2: { unfold MonitorTransactionStatus. rewrite Hlookup. apply forward_refl. }
  destruct (decide (Status piece0 = "pending_confirmation")) as [Hst|Hst].
  2: { rewrite (MonitorFacts.MonitorTransactionStatus_not_pending env s id piece0
                  Hlookup Hst). apply forward_refl. }
  destruct (decide (TransactionHash piece0 = "")) as [Hh|Hh].
  { unfold MonitorTransactionStatus. rewrite Hlookup, Hst, Hh. apply forward_refl. }
  rewrite (MonitorFacts.MonitorTransactionStatus_pending env s id piece0
             Hlookup Hst Hh).
  destruct (query_transaction _ _ _) as [row| |]; try apply forward_refl.
  destruct (String.eqb (models.TxStatus row) "confirmed"); [|apply forward_refl].
  unfold status_of at 1. rewrite Hlookup. cbn [fmap option_fmap option_map]. rewrite Hst.
  destruct (models.TxSuccess row) as [[|]|]; cbn [fst];
    rewrite MonitorFacts.status_of_insert; reflexivity.
Qed.

(** Every operation but [PreparePiece] keeps the status of each piece or
    moves it along an edge of the lifecycle. *)
Lemma step_forward_unless_prepare env s op pieceID :
  (forall filePath, op <> OpPreparePiece filePath) ->
  Lifecycle.forward (status_of s pieceID)
    (status_of (fst (step env s op)) pieceID) = true.
Proof.
  intros Hop. destruct op as [filePath|id fileContent|id proofSetID|id| |txHash txType];
    cbn [step].
  - now destruct (Hop filePath).
  - destruct (PieceFacts.UploadPiece_cases env s id fileContent)
      as [[e ->]|[->|(piece & Hnone & _ & ->)]]; cbn [fst];
      try apply forward_refl.
    destruct (decide (pieceID = id)) as [->|Hne].
    + unfold status_of at 1. now rewrite Hnone.
    + apply forward_same. cbn [pieces with_pieces]. now rewrite lookup_insert_ne.
  - apply AddPieceToProofSet_forward.
  - apply MonitorTransactionStatus_forward.
  - apply forward_same. now rewrite ServerFacts.tick_pieces.
  - apply forward_same. now rewrite ServerFacts.watch_pieces.
Qed.

(** C3, on the code. [UploadPiece] under the id that [PreparePiece] derives
    from the empty file stores the piece as [uploaded]; [PreparePiece] of
    that file then overwrites the record, and the piece is [prepared] again,
    which is no edge of the lifecycle. The same happens to a piece that has
    gone all the way to [added_to_proofset]. *)
Theorem PreparePiece_moves_piece_backward :
  status_of
    (fst (run Examples.fresh
            [(Examples.env_ok [],
              OpUploadPiece "e3b0c44298fc1c14" Examples.hundred_bytes)]))
    "e3b0c44298fc1c14" = Some "uploaded" /\
  status_of
    (fst (run Examples.fresh
            [(Examples.env_ok [],
              OpUploadPiece "e3b0c44298fc1c14" Examples.hundred_bytes);
             (Examples.env_ok [], OpPreparePiece "empty.bin")]))
    "e3b0c44298fc1c14" = Some "prepared" /\
  Lifecycle.forward (Some "uploaded") (Some "prepared") = false /\
  status_of
    (fst (run Examples.fresh
            [(Examples.env_ok [],
              OpUploadPiece "e3b0c44298fc1c14" Examples.hundred_bytes);
             (Examples.env_ok [], OpAddPieceToProofSet "e3b0c44298fc1c14" 7);
             (Examples.env_ok [], OpMonitorTransaction "mock_tx_hash" "add_root");
             (Examples.env_ok
                [Examples.tx_row "confirmed" (Some true) (Some 12345) [x01]],
              OpTick);
             (Examples.env_ok [], OpMonitorTransactionStatus "e3b0c44298fc1c14")]))
    "e3b0c44298fc1c14" = Some "added_to_proofset" /\
  status_of
    (fst (run Examples.fresh
            [(Examples.env_ok [],
              OpUploadPiece "e3b0c44298fc1c14" Examples.hundred_bytes);
             (Examples.env_ok [], OpAddPieceToProofSet "e3b0c44298fc1c14" 7);
             (Examples.env_ok [], OpMonitorTransaction "mock_tx_hash" "add_root");
             (Examples.env_ok
                [Examples.tx_row "confirmed" (Some true) (Some 12345) [x01]],
              OpTick);
             (Examples.env_ok [], OpMonitorTransactionStatus "e3b0c44298fc1c14");
             (Examples.env_ok [], OpPreparePiece "empty.bin")]))
    "e3b0c44298fc1c14" = Some "prepared" /\
  Lifecycle.forward (Some "added_to_proofset") (Some "prepared") = false.
Proof. vm_compute. repeat split. Qed.

End LifecycleTheorems.

(** ** More on padding *)

Module PaddingMore.
Import Padding PaddingFacts.

(** The result of the padding of a non-empty input, with the exponent the
    loop stops at. *)
Lemma padToPowerOfTwo_shape (data : list byte) :
  (0 < length data)%nat ->
  Z.of_nat (length data) <= GoInt.max_pow2 ->
  exists j,
    0 <= j <= 62 /\
    padToPowerOfTwo data
      = Some (data ++ repeat x00 (Z.to_nat (2 ^ j) - length data)) /\
    Z.of_nat (length data) <= 2 ^ j /\
    (j = 0 \/ 2 ^ (j - 1) < Z.of_nat (length data)).
Proof.
  intros Hpos Hmax.
  destruct (nextPowerOfTwo_loop_spec (Z.of_nat (length data))
              ltac:(lia) loop_fuel 0)
    as (j & Hj & Hloop & Hle & Hmin); [lia | unfold loop_fuel; lia | now left |].
  exists j. split; [lia|]. split; [|split; assumption].
  unfold padToPowerOfTwo.
  destruct (Z.eqb_spec (Z.of_nat (length data)) 0) as [|_]; [lia|].
  change (2 ^ 0) with 1 in Hloop. rewrite Hloop.
  destruct (Z.eqb_spec (2 ^ j) (Z.of_nat (length data))) as [Heq|Hne].
  - rewrite Heq, Nat2Z.id, Nat.sub_diag. cbn [repeat]. now rewrite app_nil_r.
  - now rewrite PaddingTheorems.copy_make_longer.
Qed.

Lemma padToPowerOfTwo_shape_length (data : list byte) (j : Z) :
  0 <= j -> Z.of_nat (length data) <= 2 ^ j ->
  Z.of_nat (length (data ++ repeat x00 (Z.to_nat (2 ^ j) - length data))) = 2 ^ j.
Proof.
  intros Hj Hle. rewrite length_app, repeat_length.
  assert (0 < 2 ^ j) by (apply Z.pow_pos_nonneg; lia). lia.
Qed.

(** The loop on a size that is a power of two stops at that size. *)
Lemma nextPowerOfTwo_loop_pow2 (j : Z) :
  0 <= j <= 62 -> nextPowerOfTwo_loop loop_fuel 1 (2 ^ j) = Some (2 ^ j).
Proof.
  intros Hj.
  assert (Hsize : 0 < 2 ^ j <= GoInt.max_pow2).
  { split; [apply Z.pow_pos_nonneg; lia|].
    unfold GoInt.max_pow2. apply Z.pow_le_mono_r; lia. }
  destruct (nextPowerOfTwo_loop_spec (2 ^ j) Hsize loop_fuel 0)
    as (j' & Hj' & Hloop & Hle & Hmin); [lia | unfold loop_fuel; lia | now left |].
  change (2 ^ 0) with 1 in Hloop. rewrite Hloop. do 2 f_equal.
  assert (j <= j').
  { destruct (Z.le_gt_cases j j') as [|Hgt]; [assumption|].
    assert (2 ^ j' < 2 ^ j) by (apply Z.pow_lt_mono_r; lia). lia. }
  assert (j' <= j).
  { destruct Hmin as [->|Hlt]; [lia|].
    destruct (Z.le_gt_cases j' j) as [|Hgt]; [assumption|].
    assert (2 ^ j <= 2 ^ (j' - 1)) by (apply Z.pow_le_mono_r; lia). lia. }
  lia.
Qed.

(** X1. Padding is idempotent: padding what [padToPowerOfTwo] returned
    returns it unchanged. *)
Theorem padToPowerOfTwo_idempotent (data padded : list byte) :
  Z.of_nat (length data) <= GoInt.max_pow2 ->
  padToPowerOfTwo data = Some padded ->
  padToPowerOfTwo padded = Some padded.
Proof.
  intros Hmax Hpad.
  destruct (Nat.eq_dec (length data) 0%nat) as [Hnil|Hpos].
  { apply length_zero_iff_nil in Hnil. subst data.
    cbn in Hpad. injection Hpad as <-. reflexivity. }
  destruct (padToPowerOfTwo_shape data) as (j & Hj & Hshape & Hle & _);
    [lia | assumption |].
  rewrite Hshape in Hpad. injection Hpad as <-.
  pose proof (padToPowerOfTwo_shape_length data j ltac:(lia) Hle) as Hlen.
  unfold padToPowerOfTwo. rewrite Hlen.
  assert (0 < 2 ^ j) by (apply Z.pow_pos_nonneg; lia).
  destruct (Z.eqb_spec (2 ^ j) 0) as [|_]; [lia|].
  rewrite nextPowerOfTwo_loop_pow2 by lia. now rewrite Z.eqb_refl.
Qed.

Lemma padToPowerOfTwo_idempotent_witness :
  Z.of_nat (length Examples.eleven_bytes) <= GoInt.max_pow2 /\
  padToPowerOfTwo Examples.eleven_bytes
    = Some (Examples.eleven_bytes ++ repeat x00 5) /\
  padToPowerOfTwo (Examples.eleven_bytes ++ repeat x00 5)
    = Some (Examples.eleven_bytes ++ repeat x00 5).
Proof.
  split; [vm_compute; discriminate|]. split; [reflexivity|].
  apply (padToPowerOfTwo_idempotent Examples.eleven_bytes);
    [vm_compute; discriminate | reflexivity].
Defined.

(** X2. Padding never shortens a non-empty input and never doubles it: the
    padded length is at least the input length and less than twice it. *)
Theorem padToPowerOfTwo_less_than_double (data padded : list byte) :
  (0 < length data)%nat ->
  Z.of_nat (length data) <= GoInt.max_pow2 ->
  padToPowerOfTwo data = Some padded ->
  (length data <= length padded < 2 * length data)%nat.
Proof.
  intros Hpos Hmax Hpad.
  destruct (padToPowerOfTwo_shape data Hpos Hmax) as (j & Hj & Hshape & Hle & Hmin).
  rewrite Hshape in Hpad. injection Hpad as <-.
  pose proof (padToPowerOfTwo_shape_length data j ltac:(lia) Hle) as Hlen.
  split; [lia|].
  destruct (Z.eq_dec j 0) as [->|Hj0]; [cbn in Hlen; lia|].
  destruct Hmin as [->|Hlt]; [lia|].
  assert (2 ^ j = 2 * 2 ^ (j - 1)).
  { replace j with (Z.succ (j - 1)) at 1 by lia. apply Z.pow_succ_r. lia. }
  lia.
Qed.

Lemma padToPowerOfTwo_less_than_double_witness :
  (length Examples.hundred_bytes
   <= length (Examples.hundred_bytes ++ repeat x00 28)
   < 2 * length Examples.hundred_bytes)%nat.
Proof.
  apply (padToPowerOfTwo_less_than_double Examples.hundred_bytes);
    [cbn; lia | vm_compute; discriminate | reflexivity].
Defined.

End PaddingMore.

(** ** Hexadecimal ids *)

Module HexFacts.
Import Go.

Lemma hex_cons (b : byte) (bs : list byte) :
  hex (b :: bs)
  = String (hex_digit (Byte.to_N b / 16))
      (String (hex_digit (Byte.to_N b mod 16)) (hex bs)).
Proof. reflexivity. Qed.

Lemma hex_byte_digits (b : byte) :
  Hex.is_hex_digit (hex_digit (Byte.to_N b / 16)) = true /\
  Hex.is_hex_digit (hex_digit (Byte.to_N b mod 16)) = true.
Proof. destruct b; split; reflexivity. Qed.

Lemma hex_byte_injective (a b : byte) : hex_byte a = hex_byte b -> a = b.
Proof.
  intros Heq.
  set (value := fun c : ascii =>
         match c with
         | "0" => 0 | "1" => 1 | "2" => 2 | "3" => 3 | "4" => 4 | "5" => 5
         | "6" => 6 | "7" => 7 | "8" => 8 | "9" => 9 | "a" => 10 | "b" => 11
         | "c" => 12 | "d" => 13 | "e" => 14 | "f" => 15 | _ => 0
         end%char%N).
  set (back := fun s : string =>
         match s with
         | String c1 (String c2 _) => Byte.of_N (16 * value c1 + value c2)
         | _ => None
         end).
  assert (Hback : forall x, back (hex_byte x) = Some x)
    by (intros x; destruct x; reflexivity).
  pose proof (Hback a) as Ha. rewrite Heq, Hback in Ha. congruence.
Qed.

Lemma hex_length (bs : list byte) :
  String.length (hex bs) = (2 * length bs)%nat.
Proof.
  induction bs as [|b bs IH]; [reflexivity|].
  rewrite hex_cons. cbn [String.length length]. rewrite IH. lia.
Qed.

Lemma hex_digits (bs : list byte) :
  forallb Hex.is_hex_digit (list_ascii_of_string (hex bs)) = true.
Proof.
  induction bs as [|b bs IH]; [reflexivity|].
  rewrite hex_cons. cbn [list_ascii_of_string forallb].
  destruct (hex_byte_digits b) as [-> ->]. exact IH.
Qed.

Lemma hex_injective_aux (xs : list byte) :
  forall ys, hex xs = hex ys -> xs = ys.
Proof.
  induction xs as [|x xs IH]; intros [|y ys] Heq; try reflexivity;
    try (rewrite hex_cons in Heq; cbn in Heq; discriminate).
  rewrite !hex_cons in Heq. injection Heq as H1 H2 Hrest.
  f_equal; [|now apply IH].
  apply hex_byte_injective. unfold hex_byte. now rewrite H1, H2.
Qed.

End HexFacts.

(** ** Records written by the piece service *)

Module RecordFacts.
Import Go Collab Errors piece.

(** X3. Two files that can be read get the same piece id from
    [PreparePiece] exactly when the first eight bytes of their hashes agree:
    the hexadecimal id loses nothing of those bytes. *)
Theorem PreparePiece_same_id env p q pathA pathB sizeA contentA sizeB contentB :
  os_open env pathA = FileOk sizeA contentA ->
  os_open env pathB = FileOk sizeB contentB ->
  exists infoA infoB,
    snd (PreparePiece env p pathA) = Returns infoA /\
    snd (PreparePiece env q pathB) = Returns infoB /\
    (ID infoA = ID infoB <->
     firstn 8 (sha256_sum env contentA) = firstn 8 (sha256_sum env contentB)).
Proof.
  intros HopenA HopenB. unfold PreparePiece. rewrite HopenA, HopenB.
  do 2 eexists. split; [reflexivity|]. split; [reflexivity|]. cbn [ID].
  split; [apply HexFacts.hex_injective_aux | now intros ->].
Qed.

Lemma PreparePiece_same_id_witness :
  exists infoA infoB,
    snd (PreparePiece (Examples.env_ok []) Examples.fresh "empty.bin") = Returns infoA /\
    snd (PreparePiece (Examples.env_ok [])
           (Examples.state_with "uploaded" Examples.empty_db) "empty.bin")
      = Returns infoB /\
    (ID infoA = ID infoB <->
     firstn 8 (sha256_sum (Examples.env_ok []) []) =
     firstn 8 (sha256_sum (Examples.env_ok []) [])).
Proof.
  apply (PreparePiece_same_id (Examples.env_ok []) Examples.fresh
           (Examples.state_with "uploaded" Examples.empty_db)
           "empty.bin" "empty.bin" 0 [] 0 []); reflexivity.
Defined.

(** X4. [PreparePiece] of a readable file registers a record under an id of
    sixteen lower-case hexadecimal digits, the first eight bytes of the file's
    hash; the record is [prepared], carries the path and the size of the file,
    and [GetPiece] finds it under that id. *)
Theorem PreparePiece_registers env p filePath size content :
  os_open env filePath = FileOk size content ->
  (8 <= length (sha256_sum env content))%nat ->
  exists info,
    PreparePiece env p filePath
      = (with_pieces (<[ID info := info]> (pieces p)) p, Returns info) /\
    ID info = hex (firstn 8 (sha256_sum env content)) /\
    String.length (ID info) = 16%nat /\
    forallb Hex.is_hex_digit (list_ascii_of_string (ID info)) = true /\
    Status info = "prepared" /\ FilePath info = filePath /\ Size info = size /\
    GetPiece (fst (PreparePiece env p filePath)) (ID info) = Returns info.
Proof.
  intros Hopen Hhash. unfold PreparePiece. rewrite Hopen.
  lazymatch goal with
  | |- exists info, (_, Returns ?x) = _ /\ _ => exists x
  end.
  split; [reflexivity|]. cbn [ID Status FilePath Size fst].
  split; [reflexivity|].
  split; [rewrite HexFacts.hex_length, length_firstn; lia|].
  split; [apply HexFacts.hex_digits|].
  repeat (split; [reflexivity|]).
  unfold GetPiece. cbn [pieces with_pieces]. now rewrite lookup_insert_eq.
Qed.

Lemma PreparePiece_registers_witness :
  exists info,
    PreparePiece (Examples.env_ok []) Examples.fresh "empty.bin"
      = (with_pieces (<[ID info := info]> (pieces Examples.fresh)) Examples.fresh,
         Returns info) /\
    ID info = "e3b0c44298fc1c14".
Proof.
  destruct (PreparePiece_registers (Examples.env_ok []) Examples.fresh "empty.bin"
              0 [])
    as (info & Hcall & Hid & _); [reflexivity | cbn; lia |].
  exists info. split; [exact Hcall|]. rewrite Hid. reflexivity.
Defined.

(** X5. An upload that returns a piece has stored, under the given id, a
    record whose size is the length of the padded content (a power of two, at
    least the content's length and less than twice it), whose commitment is the
    hexadecimal form of the digest computed over the padded content, and whose
    piece CID is the key under which the blob store accepted that padded
    content; no other piece and no table of the database has changed. *)
Theorem UploadPiece_record env p pieceID fileContent p' piece :
  (0 < length fileContent)%nat ->
  UploadPiece env p pieceID fileContent = (p', Returns piece) ->
  exists padded digest paddedPieceSize,
    Padding.padToPowerOfTwo fileContent = Some padded /\
    commp_digest env padded = ok (digest, paddedPieceSize) /\
    commitment_to_cid env digest = ok (PieceCID piece) /\
    blob_put env (PieceCID piece) padded = None /\
    ID piece = pieceID /\ Status piece = "uploaded" /\
    CommP piece = hex digest /\ DataCID piece = PieceCID piece /\
    Size piece = Z.of_nat (length padded) /\
    (Z.of_nat (length fileContent) <= GoInt.max_pow2 ->
     Padding.is_pow2 (length padded) /\
     Z.of_nat (length fileContent) <= Size piece < 2 * Z.of_nat (length fileContent)) /\
    GetPiece p' pieceID = Returns piece /\
    (forall other, other <> pieceID -> pieces p' !! other = pieces p !! other) /\
    db p' = db p.
Proof.
  intros Hpos. unfold UploadPiece.
  destruct (pieces p !! pieceID) as [existing|]; [discriminate|].
  destruct (Padding.padToPowerOfTwo fileContent) as [padded|] eqn:Hpad;
    [|discriminate].
  destruct (commp_write env padded); [discriminate|].
  destruct (commp_digest env padded) as [[digest paddedPieceSize]|] eqn:Hdigest;
    [|discriminate].
  destruct (commitment_to_cid env digest) as [pieceCID|] eqn:Hcid; [|discriminate].
  cbn [PieceCID].
  destruct (blob_put env pieceCID padded) eqn:Hput; [discriminate|].
  intros [= <- <-]. exists padded, digest, paddedPieceSize.
  cbn [PieceCID ID Status CommP DataCID Size].
  repeat (split; [first [reflexivity | assumption]|]).
  split.
  { intros Hmax.
    destruct (PaddingMore.padToPowerOfTwo_shape fileContent Hpos Hmax)
      as (j & Hj & Hshape & Hle & Hmin).
    rewrite Hshape in Hpad. injection Hpad as <-.
    pose proof (PaddingMore.padToPowerOfTwo_shape_length fileContent j
                  ltac:(lia) Hle) as Hlen.
    split; [apply (PaddingTheorems.is_pow2_Z _ j); [lia | exact Hlen]|].
    rewrite Hlen. split; [lia|].
    destruct (Z.eq_dec j 0) as [->|Hj0]; [cbn; lia|].
    destruct Hmin as [->|Hlt]; [lia|].
    assert (2 ^ j = 2 * 2 ^ (j - 1)).
    { replace j with (Z.succ (j - 1)) at 1 by lia. apply Z.pow_succ_r. lia. }
    lia. }
  split; [unfold GetPiece; cbn [pieces with_pieces]; now rewrite lookup_insert_eq|].
  split; [|reflexivity].
  intros other Hne. cbn [pieces with_pieces]. now rewrite lookup_insert_ne.
Qed.

Lemma UploadPiece_record_witness :
  exists piece,
    snd (UploadPiece (Examples.env_ok []) Examples.fresh "test-small"
           Examples.hundred_bytes) = Returns piece /\
    Size piece = 128.
Proof.
  destruct (UploadPiece (Examples.env_ok []) Examples.fresh "test-small"
              Examples.hundred_bytes) as [p' o] eqn:Hcall.
  assert (Ho : exists piece, o = Returns piece)
    by (vm_compute in Hcall; injection Hcall as _ <-; eauto).
  destruct Ho as [piece ->]. exists piece. split; [reflexivity|].
  destruct (UploadPiece_record (Examples.env_ok []) Examples.fresh "test-small"
              Examples.hundred_bytes p' piece ltac:(cbn; lia) Hcall)
    as (padded & digest & sz & Hpad & _ & _ & _ & _ & _ & _ & _ & Hsize & _).
  rewrite Hsize. vm_compute in Hpad. injection Hpad as <-. reflexivity.
Defined.

End RecordFacts.

(** ** Submission to a proof set *)

Module SubmitFacts.
Import Go Collab Errors piece server Submissions.

(** The root request [AddPieceToProofSet] builds. *)
Lemma AddPieceToProofSet_cases env p pieceID proofSetID :
  (exists e,
     AddPieceToProofSet env p pieceID proofSetID = (p, Fails e) /\
     (e = ErrPieceNotFound pieceID \/ e = ErrNotUploaded pieceID \/
      (exists c, e = ErrInvalidCID c) \/ (exists c, e = ErrUnsealedCID c) \/
      (exists inner, e = ErrPiriEntries inner))) \/
  (exists piece0 pieceCID generatedCID d',
     pieces p !! pieceID = Some piece0 /\
     Status piece0 = "uploaded" /\
     cid_decode env (PieceCID piece0) = ok pieceCID /\
     generate_unsealed_cid env (Size piece0) pieceCID = ok generatedCID /\
     createPiriDatabaseEntries env (db p) piece0 = (d', None) /\
     ((exists c,
         proof_set_add_root env proofSetID
           [{| service.RootCID := generatedCID;
               service.SubrootCIDs := [PieceCID piece0] |}] = fail c /\
         AddPieceToProofSet env p pieceID proofSetID
           = ({| pieces :=
                   <[pieceID :=
                       set_ErrorMessage ("failed to add root to proof set: " ++ c)%string
                         (set_Status "error" piece0)]> (pieces p);
                 db := d' |},
              Fails (ErrLedger c))) \/
      (exists result,
         proof_set_add_root env proofSetID
           [{| service.RootCID := generatedCID;
               service.SubrootCIDs := [PieceCID piece0] |}] = ok result /\
         AddPieceToProofSet env p pieceID proofSetID
           = ({| pieces :=
                   <[pieceID :=
                       set_TransactionTimestamp (time_now env)
                         (set_Status "pending_confirmation"
                            (set_ProofSetID proofSetID
                               match result with
                               | IString txHash => set_TransactionHash txHash piece0
                               | IOther => piece0
                               end))]> (pieces p);
                 db := d' |},
              Returns tt)))).
Proof.
  unfold AddPieceToProofSet.
  destruct (pieces p !! pieceID) as [piece0|]; [|left; eauto 10].
  destruct (String.eqb_spec (Status piece0) "uploaded") as [Hst|Hst];
    cbn [negb]; [|left; eauto 10].
  destruct (cid_decode env (PieceCID piece0)) as [pieceCID|c] eqn:Hdecode;
    [|left; eauto 10].
  destruct (generate_unsealed_cid env (Size piece0) pieceCID)
    as [generatedCID|c] eqn:Hgen; [|left; eauto 10].
  destruct (createPiriDatabaseEntries env (db p) piece0) as [d' [inner|]] eqn:Hdb;
    [left; eauto 10|].
  right. exists piece0, pieceCID, generatedCID, d'.
  repeat (split; [first [reflexivity | assumption]|]).
  destruct (proof_set_add_root env proofSetID _) as [result|c];
    [right; eauto | left; eauto].
Qed.

Lemma next_id_above (ids : list Z) (x : Z) :
  In x ids -> x < models.next_id ids.
Proof.
  unfold models.next_id. induction ids as [|y ids IH]; [intros []|].
  cbn [fold_right]. intros [->|Hin]; [lia|]. specialize (IH Hin). lia.
Qed.

Lemma next_id_fresh (ids : list Z) : ~ In (models.next_id ids) ids.
Proof. intros Hin. apply next_id_above in Hin. lia. Qed.

Lemma existsb_cid_false {A} (key : A -> string) (rows : list A) (cid : string) :
  existsb (fun r => String.eqb (key r) cid) rows = false ->
  ~ In cid (map key rows).
Proof.
  induction rows as [|r rows IH]; cbn [existsb map]; [intros _ []|].
  intros Hex [Heq|Hin].
  - rewrite Heq, String.eqb_refl in Hex. discriminate.
  - apply orb_false_elim in Hex as [_ Hex]. now apply IH.
Qed.

(** X6. [createPiriDatabaseEntries] is all or nothing. When it returns an
    error the database is as before. When it returns [nil], each of the three
    tables has exactly one more row, for the piece's CID and size; the new
    rows refer to one another ([PieceID] to the parked piece, [PieceRef] to the
    reference), their primary keys were not in use, and no row parked that CID
    before; the transaction table is untouched. *)
Theorem createPiriDatabaseEntries_all_or_nothing env d piece0 d' r :
  createPiriDatabaseEntries env d piece0 = (d', r) ->
  match r with
  | Some e => d' = d
  | None =>
      exists parkedPiece parkedPieceRef pdpPieceRef,
        models.parked_pieces d' = models.parked_pieces d ++ [parkedPiece] /\
        models.parked_piece_refs d' = models.parked_piece_refs d ++ [parkedPieceRef] /\
        models.pdp_piecerefs d' = models.pdp_piecerefs d ++ [pdpPieceRef] /\
        models.message_waits_eth d' = models.message_waits_eth d /\
        models.pp_PieceCID parkedPiece = PieceCID piece0 /\
        models.pdp_PieceCID pdpPieceRef = PieceCID piece0 /\
        models.PiecePaddedSize parkedPiece = Size piece0 /\
        models.PieceRawSize parkedPiece = Size piece0 /\
        models.PieceID parkedPieceRef = models.pp_ID parkedPiece /\
        models.PieceRef pdpPieceRef = models.RefID parkedPieceRef /\
        ~ In (models.pp_ID parkedPiece) (map models.pp_ID (models.parked_pieces d)) /\
        ~ In (models.RefID parkedPieceRef)
             (map models.RefID (models.parked_piece_refs d)) /\
        ~ In (models.pdp_ID pdpPieceRef) (map models.pdp_ID (models.pdp_piecerefs d)) /\
        ~ In (PieceCID piece0) (map models.pp_PieceCID (models.parked_pieces d)) /\
        ~ In (PieceCID piece0) (map models.pdp_PieceCID (models.pdp_piecerefs d))
  end.
Proof.
  unfold createPiriDatabaseEntries.
  destruct (db_error env 0); [intros [= <- <-]; reflexivity|].
  destruct (existsb _ (models.parked_pieces d)) eqn:Hparked;
    [intros [= <- <-]; reflexivity|].
  destruct (db_error env 1); [intros [= <- <-]; reflexivity|].
  destruct (db_error env 2); [intros [= <- <-]; reflexivity|].
  destruct (existsb _ (models.pdp_piecerefs d)) eqn:Hpdp;
    [intros [= <- <-]; reflexivity|].
  intros [= <- <-]. do 3 eexists.
  cbn [models.parked_pieces models.parked_piece_refs models.pdp_piecerefs
       models.message_waits_eth].
  repeat (split; [reflexivity|]).
  cbn [models.pp_ID models.RefID models.pdp_ID].
  split; [apply next_id_fresh|]. split; [apply next_id_fresh|].
  split; [apply next_id_fresh|].
  split; [exact (existsb_cid_false _ _ _ Hparked)
         |exact (existsb_cid_false _ _ _ Hpdp)].
Qed.

Lemma createPiriDatabaseEntries_all_or_nothing_witness :
  exists parkedPiece,
    models.parked_pieces
      (fst (createPiriDatabaseEntries (Examples.env_ok []) Examples.empty_db
              (Examples.a_piece "uploaded"))) = [parkedPiece] /\
    models.PiecePaddedSize parkedPiece = 128.
Proof.
  pose proof (createPiriDatabaseEntries_all_or_nothing (Examples.env_ok [])
                Examples.empty_db (Examples.a_piece "uploaded")
                (fst (createPiriDatabaseEntries (Examples.env_ok []) Examples.empty_db
                        (Examples.a_piece "uploaded")))
                None ltac:(vm_compute; reflexivity)) as H.
  cbn beta iota in H.
  destruct H as (pp & ref & pdp & Hpp & _ & _ & _ & _ & _ & Hsize & _).
  exists pp. split; [exact Hpp | exact Hsize].
Defined.

(** X7. Whenever [AddPieceToProofSet] returns an error that is not the
    ledger's own, nothing has changed: neither the piece, nor any other piece,
    nor the database. When the ledger rejects the submission, the piece, which
    was [uploaded], is now [error] with a message that quotes the ledger, and
    the rows written for it stay in the database. *)
Theorem AddPieceToProofSet_failure env p pieceID proofSetID p' e :
  AddPieceToProofSet env p pieceID proofSetID = (p', Fails e) ->
  (p' = p /\
   (e = ErrPieceNotFound pieceID \/ e = ErrNotUploaded pieceID \/
    (exists c, e = ErrInvalidCID c) \/ (exists c, e = ErrUnsealedCID c) \/
    (exists inner, e = ErrPiriEntries inner))) \/
  (exists c piece0,
     e = ErrLedger c /\
     pieces p !! pieceID = Some piece0 /\ Status piece0 = "uploaded" /\
     pieces p'
       = <[pieceID :=
             set_ErrorMessage ("failed to add root to proof set: " ++ c)%string
               (set_Status "error" piece0)]> (pieces p) /\
     createPiriDatabaseEntries env (db p) piece0 = (db p', None)).
Proof.
  intros Hcall.
  destruct (AddPieceToProofSet_cases env p pieceID proofSetID)
    as [(e0 & He0 & Hkind)
       |(piece0 & pieceCID & generatedCID & d' & Hlookup & Hst & _ & _ & Hdb
          & [(c & _ & Hres)|(result & _ & Hres)])];
    rewrite Hcall in *.
  - injection He0 as -> ->. left. auto.
  - injection Hres as -> ->. right. exists c, piece0. auto.
  - discriminate.
Qed.

Lemma AddPieceToProofSet_failure_witness :
  exists c piece0,
    ErrLedger "execution reverted" = ErrLedger c /\
    pieces (Examples.state_with "uploaded" Examples.empty_db) !! "test-small"
      = Some piece0 /\
    Status piece0 = "uploaded".
Proof.
  destruct (AddPieceToProofSet_failure Examples.env_ledger_down
              (Examples.state_with "uploaded" Examples.empty_db) "test-small" 7
              (fst (AddPieceToProofSet Examples.env_ledger_down
                      (Examples.state_with "uploaded" Examples.empty_db)
                      "test-small" 7))
              (ErrLedger "execution reverted") ltac:(vm_compute; reflexivity))
    as [[_ [H|[H|[[c H]|[[c H]|[c H]]]]]]|(c & piece0 & He & Hl & Hs & _)];
    try discriminate.
  exists c, piece0. auto.
Defined.

(** X8. When [AddPieceToProofSet] returns [nil], the piece was [uploaded]
    and is now [pending_confirmation] for the given proof set, stamped with the
    current time; the ledger accepted one root request whose root is the
    unsealed CID generated from the piece's size and CID and whose only
    subroot is the piece CID, and the piece carries the transaction hash the
    ledger returned (its previous one when the ledger returned no string).
    Every other field of the piece and every other piece are as before. *)
Theorem AddPieceToProofSet_submits env p pieceID proofSetID p' :
  AddPieceToProofSet env p pieceID proofSetID = (p', Returns tt) ->
  exists piece0 piece' pieceCID generatedCID result,
    pieces p !! pieceID = Some piece0 /\ Status piece0 = "uploaded" /\
    cid_decode env (PieceCID piece0) = ok pieceCID /\
    generate_unsealed_cid env (Size piece0) pieceCID = ok generatedCID /\
    proof_set_add_root env proofSetID
      [{| service.RootCID := generatedCID;
          service.SubrootCIDs := [PieceCID piece0] |}] = ok result /\
    pieces p' = <[pieceID := piece']> (pieces p) /\
    Status piece' = "pending_confirmation" /\
    ProofSetID piece' = proofSetID /\
    TransactionTimestamp piece' = time_now env /\
    TransactionHash piece'
      = match result with
        | IString txHash => txHash
        | IOther => TransactionHash piece0
        end /\
    ID piece' = ID piece0 /\ FilePath piece' = FilePath piece0 /\
    Size piece' = Size piece0 /\ CommP piece' = CommP piece0 /\
    PieceCID piece' = PieceCID piece0 /\ DataCID piece' = DataCID piece0 /\
    ErrorMessage piece' = ErrorMessage piece0 /\
    UploadURL piece' = UploadURL piece0 /\
    createPiriDatabaseEntries env (db p) piece0 = (db p', None).
Proof.
  intros Hcall.
  destruct (AddPieceToProofSet_cases env p pieceID proofSetID)
    as [(e0 & He0 & _)
       |(piece0 & pieceCID & generatedCID & d' & Hlookup & Hst & Hdec & Hgen & Hdb
          & [(c & _ & Hres)|(result & Hroot & Hres)])];
    rewrite Hcall in *; try discriminate.
  injection Hres as ->. exists piece0. eexists. exists pieceCID, generatedCID, result.
  do 5 (split; [eassumption|]). cbn [pieces db].
  split; [reflexivity|].
  destruct result; cbn; repeat (split; [reflexivity|]); exact Hdb.
Qed.

Lemma AddPieceToProofSet_submits_witness :
  exists piece',
    pieces (fst (AddPieceToProofSet (Examples.env_ok [])
                   (Examples.state_with "uploaded" Examples.empty_db)
                   "test-small" 9))
    = <["test-small" := piece']>
        (pieces (Examples.state_with "uploaded" Examples.empty_db)) /\
    Status piece' = "pending_confirmation" /\ ProofSetID piece' = 9.
Proof.
  destruct (AddPieceToProofSet_submits (Examples.env_ok [])
              (Examples.state_with "uploaded" Examples.empty_db) "test-small" 9
              (fst (AddPieceToProofSet (Examples.env_ok [])
                      (Examples.state_with "uploaded" Examples.empty_db)
                      "test-small" 9))
              ltac:(vm_compute; reflexivity))
    as (piece0 & piece' & _ & _ & _ & _ & _ & _ & _ & _ & Hp & Hst & Hps & _).
  exists piece'. auto.
Defined.

End SubmitFacts.

(** ** Submissions along a run *)

Module SubmitRuns.
Import Go Collab Errors piece server Submissions.

Lemma AddPieceToProofSet_other env p pieceID proofSetID other :
  other <> pieceID ->
  pieces (fst (AddPieceToProofSet env p pieceID proofSetID)) !! other
  = pieces p !! other.
Proof.
  intros Hne.
  destruct (SubmitFacts.AddPieceToProofSet_cases env p pieceID proofSetID)
    as [(e0 & -> & _)
       |(piece0 & pieceCID & generatedCID & d' & _ & _ & _ & _ & _
          & [(c & _ & ->)|(result & _ & ->)])];
    cbn [fst pieces]; [reflexivity| |]; now rewrite lookup_insert_ne.
Qed.

Lemma spent_PreparePiece env s filePath pieceID :
  spent s pieceID -> spent (fst (PreparePiece env s filePath)) pieceID.
Proof.
  intros Hspent. unfold PreparePiece.
  destruct (os_open env filePath); try exact Hspent.
  cbn [fst]. unfold spent. cbn [pieces with_pieces]. rewrite lookup_insert.
  case_decide; [|exact Hspent].
  eexists. split; [reflexivity|]. cbn. discriminate.
Qed.

Lemma spent_UploadPiece env s id fileContent pieceID :
  spent s pieceID -> spent (fst (UploadPiece env s id fileContent)) pieceID.
Proof.
  intros Hspent.
  destruct (PieceFacts.UploadPiece_cases env s id fileContent)
    as [[e ->]|[->|(piece & Hnone & _ & ->)]]; try exact Hspent.
  cbn [fst]. unfold spent. cbn [pieces with_pieces].
  destruct Hspent as (piece0 & Hlookup & Hst).
  rewrite lookup_insert_ne by congruence. eauto.
Qed.

Lemma spent_AddPieceToProofSet env s id proofSetID pieceID :
  spent s pieceID -> spent (fst (AddPieceToProofSet env s id proofSetID)) pieceID.
Proof.
  intros (piece0 & Hlookup & Hst).
  destruct (decide (pieceID = id)) as [->|Hne].
  - unfold AddPieceToProofSet.
    rewrite Hlookup, (PieceFacts.eqb_false_of_ne _ _ Hst). cbn [negb fst].
    exists piece0. auto.
  - exists piece0. split; [|exact Hst].
    now rewrite AddPieceToProofSet_other.
Qed.

Lemma spent_MonitorTransactionStatus env s id pieceID :
  spent s pieceID -> spent (fst (MonitorTransactionStatus env s id)) pieceID.
Proof.
  intros (piece0 & Hlookup & Hst).
  destruct (decide (pieceID = id)) as [->|Hne];
    [|exists piece0; split; [|exact Hst];
      now rewrite MonitorFacts.MonitorTransactionStatus_other].
  destruct (decide (Status piece0 = "pending_confirmation")) as [Hpend|Hpend].
  2: { rewrite (MonitorFacts.MonitorTransactionStatus_not_pending env s id piece0
                  Hlookup Hpend). exists piece0. auto. }
  destruct (decide (TransactionHash piece0 = "")) as [Hh|Hh].
  { unfold MonitorTransactionStatus. rewrite Hlookup, Hpend, Hh.
    cbn [fst String.eqb Ascii.eqb Bool.eqb negb]. exists piece0. auto. }
  rewrite (MonitorFacts.MonitorTransactionStatus_pending env s id piece0
             Hlookup Hpend Hh).
  destruct (query_transaction _ _ _) as [row| |];
    try (exists piece0; now auto).
  destruct (String.eqb (models.TxStatus row) "confirmed");
    [|exists piece0; now auto].
  destruct (models.TxSuccess row) as [[|]|]; cbn [fst]; unfold spent;
    cbn [pieces with_pieces]; rewrite lookup_insert_eq;
    (eexists; split; [reflexivity|cbn; discriminate]).
Qed.

(** A piece that is in the table and not [uploaded] never becomes
    [uploaded]. *)
Lemma spent_step env s op pieceID :
  spent s pieceID -> spent (fst (step env s op)) pieceID.
Proof.
  intros Hspent.
  destruct op as [filePath|id fileContent|id proofSetID|id| |txHash txType];
    cbn [step].
  - pose proof (spent_PreparePiece env s filePath pieceID Hspent) as H.
    destruct (PreparePiece env s filePath). exact H.
  - pose proof (spent_UploadPiece env s id fileContent pieceID Hspent) as H.
    destruct (UploadPiece env s id fileContent). exact H.
  - now apply spent_AddPieceToProofSet.
  - now apply spent_MonitorTransactionStatus.
  - unfold spent. now rewrite ServerFacts.tick_pieces.
  - unfold spent. now rewrite ServerFacts.watch_pieces.
Qed.

(** A call that reached the ledger leaves the piece [pending_confirmation]
    or [error]. *)
Lemma submission_spends env s op pieceID s' o :
  step env s op = (s', o) ->
  submission pieceID (op, o) = true ->
  spent s' pieceID.
Proof.
  intros Hstep Hsub.
  destruct op as [filePath|id fileContent|id proofSetID|id| |txHash txType];
    try discriminate.
  cbn [step] in Hstep.
  assert (Hid : id = pieceID).
  { cbn [submission] in Hsub.
    destruct o as [u|[]|]; try discriminate; now apply String.eqb_eq. }
  subst id.
  destruct (SubmitFacts.AddPieceToProofSet_cases env s pieceID proofSetID)
    as [(e0 & He0 & Hkind)
       |(piece0 & pieceCID & generatedCID & d' & _ & _ & _ & _ & _
          & [(c & _ & Hres)|(result & _ & Hres)])];
    rewrite Hstep in *.
  - injection He0 as -> ->. cbn [submission] in Hsub.
    destruct Hkind as [->|[->|[[c ->]|[[c ->]|[c ->]]]]]; discriminate.
  - injection Hres as -> _. unfold spent. cbn [pieces].
    rewrite lookup_insert_eq. eexists. split; [reflexivity|cbn; discriminate].
  - injection Hres as -> _. unfold spent. cbn [pieces].
    rewrite lookup_insert_eq. eexists. split; [reflexivity|cbn; discriminate].
Qed.

Lemma spent_not_submitted env s op pieceID s' o :
  spent s pieceID ->
  step env s op = (s', o) ->
  submission pieceID (op, o) = false.
Proof.
  intros (piece0 & Hlookup & Hst) Hstep.
  destruct (submission pieceID (op, o)) eqn:Hsub; [|reflexivity].
  destruct op as [filePath|id fileContent|id proofSetID|id| |txHash txType];
    try discriminate.
  assert (Hid : id = pieceID).
  { cbn [submission] in Hsub.
    destruct o as [u|[]|]; try discriminate; now apply String.eqb_eq. }
  subst id. cbn [step] in Hstep. unfold AddPieceToProofSet in Hstep.
  rewrite Hlookup, (PieceFacts.eqb_false_of_ne _ _ Hst) in Hstep.
  cbn [negb] in Hstep. injection Hstep as _ <-. discriminate.
Qed.

Lemma count_submissions_cons pieceID entry log :
  count_submissions pieceID (entry :: log)
  = ((if submission pieceID entry then 1 else 0)
     + count_submissions pieceID log)%nat.
Proof.
  unfold count_submissions. cbn [List.filter].
  destruct (submission pieceID entry); reflexivity.
Qed.

Lemma run_spent_no_submission pieceID trace :
  forall s, spent s pieceID ->
            count_submissions pieceID (snd (run s trace)) = 0%nat.
Proof.
  induction trace as [|[env op] rest IH]; intros s Hspent; [reflexivity|].
  cbn [run].
  destruct (step env s op) as [s' o] eqn:Hstep.
  pose proof (spent_not_submitted env s op pieceID s' o Hspent Hstep) as Hentry.
  assert (Hspent' : spent s' pieceID).
  { pose proof (spent_step env s op pieceID Hspent) as H. now rewrite Hstep in H. }
  destruct o as [u|e|].
  - specialize (IH s' Hspent'). destruct (run s' rest) as [s'' log].
    cbn [snd] in *. now rewrite count_submissions_cons, Hentry, IH.
  - specialize (IH s' Hspent'). destruct (run s' rest) as [s'' log].
    cbn [snd] in *. now rewrite count_submissions_cons, Hentry, IH.
  - cbn [snd]. now rewrite count_submissions_cons, Hentry.
Qed.

(** X9. In every run of the server, whatever the collaborators answer, at
    most one call of [AddPieceToProofSet] per piece id reaches the ledger: once
    a submission has been accepted or rejected, every later call for that id
    is refused before the ledger is asked. *)
Theorem one_submission_per_piece (s : State) (trace : list (Env * Op))
    (pieceID : string) :
  (count_submissions pieceID (snd (run s trace)) <= 1)%nat.
Proof.
  revert s. induction trace as [|[env op] rest IH]; intros s; [cbn; lia|].
  cbn [run].
  destruct (step env s op) as [s' o] eqn:Hstep.
  destruct (submission pieceID (op, o)) eqn:Hentry.
  - pose proof (submission_spends env s op pieceID s' o Hstep Hentry) as Hspent.
    pose proof (run_spent_no_submission pieceID rest s' Hspent) as Hrest.
    destruct o as [u|e|].
    + destruct (run s' rest) as [s'' log]. cbn [snd] in *.
      rewrite count_submissions_cons, Hentry, Hrest. lia.
    + destruct (run s' rest) as [s'' log]. cbn [snd] in *.
      rewrite count_submissions_cons, Hentry, Hrest. lia.
    + cbn [snd]. rewrite count_submissions_cons, Hentry. cbn. lia.
  - destruct o as [u|e|].
    + specialize (IH s'). destruct (run s' rest) as [s'' log].
      cbn [snd] in *. rewrite count_submissions_cons, Hentry. lia.
    + specialize (IH s'). destruct (run s' rest) as [s'' log].
      cbn [snd] in *. rewrite count_submissions_cons, Hentry. lia.
    + cbn [snd]. rewrite count_submissions_cons, Hentry. cbn. lia.
Qed.

Example submit_twice :
  map snd
    (snd (run Examples.fresh
            [(Examples.env_ok [], OpUploadPiece "test-small" Examples.hundred_bytes);
             (Examples.env_ok [], OpAddPieceToProofSet "test-small" 7);
             (Examples.env_ok [], OpAddPieceToProofSet "test-small" 7)]))
  = [Returns tt; Returns tt; Fails (ErrNotUploaded "test-small")].
Proof. vm_compute. reflexivity. Qed.

End SubmitRuns.

(** ** The watcher *)

Module WatcherFacts.
Import Go Collab Errors models watcher RowByRow TableFacts.

Lemma with_rows_same (d : DB) : with_rows (message_waits_eth d) d = d.
Proof. now destruct d. Qed.

Lemma apply_updates_ID piriTx row : ID (apply_updates piriTx row) = ID row.
Proof. reflexivity. Qed.

Lemma fate_ID env i row : ID (fate env i row) = ID row.
Proof.
  unfold fate. destruct (piri_db env i) as [piriRows|]; [|reflexivity].
  destruct (first_by_hash piriRows _) as [piriTx|]; [|reflexivity].
  destruct (negb _); [|reflexivity]. now destruct (db_error env (S i)).
Qed.

(** With unique primary keys, the update of a row rewrites that row alone. *)
Lemma update_row_alone (pre post : list MessageWaitsEth) row piriTx (d : DB) :
  List.NoDup (map ID (pre ++ row :: post)) ->
  update_row row piriTx (with_rows (pre ++ row :: post) d)
  = with_rows (pre ++ apply_updates piriTx row :: post) d.
Proof.
  intros Hnodup. unfold update_row, with_rows.
  cbn [message_waits_eth parked_pieces parked_piece_refs pdp_piecerefs].
  f_equal. rewrite map_app. cbn [map]. rewrite Z.eqb_refl.
  rewrite map_app in Hnodup. cbn [map] in Hnodup.
  apply NoDup_remove_2 in Hnodup.
  assert (Hother : forall rows,
             ~ In (ID row) (map ID rows) ->
             map (fun r => if ID r =? ID row then apply_updates piriTx r else r) rows
             = rows).
  { induction rows as [|r rows IH]; [reflexivity|]. cbn [map]. intros Hnot.
    destruct (Z.eqb_spec (ID r) (ID row)) as [Heq|_];
      [exfalso; apply Hnot; now left|].
    f_equal. apply IH. intros Hin. apply Hnot. now right. }
  rewrite !Hother; [reflexivity| |];
    intros Hin; apply Hnodup, in_or_app; auto.
Qed.

Lemma handleConfirmedTransaction_same tw tx piriTx :
  handleConfirmedTransaction tw tx piriTx = (tw, None).
Proof.
  unfold handleConfirmedTransaction, updatePieceStatusForConfirmedTx.
  now destruct (0 <? length (TxReceipt piriTx))%nat.
Qed.

Lemma checkTransactionStatus_row env i pre post row (d : DB) :
  List.NoDup (map ID (pre ++ row :: post)) ->
  fst (checkTransactionStatus env {| db := with_rows (pre ++ row :: post) d |} i row)
  = {| db := with_rows (pre ++ fate env i row :: post) d |}.
Proof.
  intros Hnodup. unfold checkTransactionStatus, fate.
  destruct (piri_db env i) as [piriRows|]; [|reflexivity].
  destruct (first_by_hash piriRows _) as [piriTx|]; [|reflexivity].
  destruct (negb _); [|reflexivity].
  destruct (db_error env (S i)); [reflexivity|].
  cbn [db]. rewrite (update_row_alone pre post row piriTx d Hnodup).
  destruct (String.eqb _ _ && _); [|reflexivity].
  now rewrite handleConfirmedTransaction_same.
Qed.

Lemma check_all_rows env (d : DB) (rest : list MessageWaitsEth) :
  forall pre i,
    List.NoDup (map ID (pre ++ rest)) ->
    check_all env {| db := with_rows (pre ++ rest) d |} i
      (List.filter (fun r => String.eqb (TxStatus r) "pending") rest)
    = {| db := with_rows (pre ++ reconciled env i rest) d |}.
Proof.
  induction rest as [|row rest IH]; intros pre i Hnodup; [reflexivity|].
  cbn [List.filter reconciled].
  destruct (String.eqb (TxStatus row) "pending").
  - cbn [check_all]. rewrite (checkTransactionStatus_row env i pre rest row d Hnodup).
    replace (pre ++ fate env i row :: rest) with ((pre ++ [fate env i row]) ++ rest)
      by (now rewrite <- app_assoc).
    rewrite IH.
    + now rewrite <- app_assoc.
    + rewrite <- app_assoc. cbn [app].
      rewrite map_app in *. cbn [map] in *. now rewrite fate_ID.
  - replace (pre ++ row :: rest) with ((pre ++ [row]) ++ rest)
      by (now rewrite <- app_assoc).
    rewrite IH; [now rewrite <- app_assoc|].
    now rewrite <- app_assoc.
Qed.

Lemma reconciled_no_pending env i rows :
  List.filter (fun r => String.eqb (TxStatus r) "pending") rows = [] ->
  reconciled env i rows = rows.
Proof.
  induction rows as [|row rows IH]; [reflexivity|]. cbn [List.filter reconciled].
  destruct (String.eqb (TxStatus row) "pending"); [discriminate|].
  intros H. now rewrite IH.
Qed.

(** The tick in closed form. *)
Lemma processPendingTransactions_rows env tw :
  List.NoDup (map ID (message_waits_eth (db tw))) ->
  db_error env 0 = None ->
  processPendingTransactions env tw
  = ({| db := with_rows (reconciled env 0 (message_waits_eth (db tw))) (db tw) |},
     None).
Proof.
  intros Hnodup Hfind. unfold processPendingTransactions. rewrite Hfind.
  destruct tw as [d]. cbn [db] in *.
  destruct (List.filter _ (message_waits_eth d)) as [|tx pend] eqn:Hpend.
  - cbn [length Nat.eqb]. rewrite reconciled_no_pending by exact Hpend.
    now rewrite with_rows_same.
  - cbn [length Nat.eqb]. rewrite <- Hpend.
    pose proof (check_all_rows env d (message_waits_eth d) [] 0 Hnodup) as Hall.
    cbn [app] in Hall. rewrite with_rows_same in Hall. now rewrite Hall.
Qed.

(** X10. With unique primary keys, and once its initial query is answered,
    a tick returns [nil] and leaves the transaction table that the row-by-row
    account gives: each row that was pending takes the columns of Piri's
    record if Piri answers the row's query, knows its hash under another
    status, and the update is accepted, and stays as it is otherwise; a failure
    on one row has no effect on any other row, and no other table changes. *)
Theorem tick_row_by_row env tw :
  List.NoDup (map ID (message_waits_eth (db tw))) ->
  db_error env 0 = None ->
  processPendingTransactions env tw
  = ({| db := with_rows (reconciled env 0 (message_waits_eth (db tw))) (db tw) |},
     None).
Proof. apply processPendingTransactions_rows. Qed.

Lemma tick_row_by_row_witness :
  processPendingTransactions
    (Examples.env_ok [Examples.tx_row "confirmed" (Some true) (Some 12345) [x01]])
    {| db := Examples.db_with (Examples.tx_row "pending" None None []) |}
  = ({| db := Examples.db_with
                (Examples.tx_row "confirmed" (Some true) (Some 12345) [x01]) |},
     None).
Proof.
  rewrite (tick_row_by_row
             (Examples.env_ok [Examples.tx_row "confirmed" (Some true) (Some 12345) [x01]])
             {| db := Examples.db_with (Examples.tx_row "pending" None None []) |}).
  - reflexivity.
  - cbn. repeat constructor. intros [].
  - reflexivity.
Defined.

Lemma map_key_apply {B} (key : MessageWaitsEth -> B) (f : MessageWaitsEth -> MessageWaitsEth)
    (rows : list MessageWaitsEth) :
  (forall r, key (f r) = key r) -> map key (map f rows) = map key rows.
Proof.
  intros Hkey. induction rows as [|r rows IH]; [reflexivity|].
  cbn [map]. now rewrite Hkey, IH.
Qed.

Lemma same_keys_refl d : same_keys d d.
Proof. repeat split. Qed.

Lemma same_keys_trans d1 d2 d3 : same_keys d1 d2 -> same_keys d2 d3 -> same_keys d1 d3.
Proof.
  intros (H1 & H2 & H3 & H4 & H5 & H6) (G1 & G2 & G3 & G4 & G5 & G6).
  repeat split; congruence.
Qed.

Lemma update_row_keys tx piriTx d : same_keys d (update_row tx piriTx d).
Proof.
  unfold same_keys, update_row.
  cbn [message_waits_eth parked_pieces parked_piece_refs pdp_piecerefs].
  repeat split; apply map_key_apply; intros r;
    now destruct (ID r =? ID tx).
Qed.

Lemma checkTransactionStatus_keys env tw i tx :
  same_keys (db tw) (db (fst (checkTransactionStatus env tw i tx))).
Proof.
  unfold checkTransactionStatus.
  destruct (piri_db env i) as [piriRows|]; [|apply same_keys_refl].
  destruct (first_by_hash piriRows _) as [piriTx|]; [|apply same_keys_refl].
  destruct (negb _); [|apply same_keys_refl].
  destruct (db_error env (S i)); [apply same_keys_refl|].
  destruct (String.eqb _ _ && _);
    [rewrite handleConfirmedTransaction_same|]; cbn [fst db];
    apply update_row_keys.
Qed.

Lemma check_all_keys env pendingTxs :
  forall tw i, same_keys (db tw) (db (check_all env tw i pendingTxs)).
Proof.
  induction pendingTxs as [|tx rest IH]; intros tw i; [apply same_keys_refl|].
  cbn [check_all].
  eapply same_keys_trans; [apply (checkTransactionStatus_keys env tw i tx)|apply IH].
Qed.

Lemma processPendingTransactions_keys env tw :
  same_keys (db tw) (db (fst (processPendingTransactions env tw))).
Proof.
  unfold processPendingTransactions.
  destruct (db_error env 0); [apply same_keys_refl|].
  destruct (length _ =? 0)%nat; [apply same_keys_refl|]. apply check_all_keys.
Qed.

(** X11. A tick never adds or removes a transaction row, never changes the
    primary key, the signed hash or the waiter of a row, and never touches the
    other tables. It returns an error only when its initial query for the
    pending rows fails, and then it has changed nothing; the failure of a
    single row is never returned. *)
Theorem tick_footprint env tw :
  map ID (message_waits_eth (db (fst (processPendingTransactions env tw))))
    = map ID (message_waits_eth (db tw)) /\
  map SignedTxHash (message_waits_eth (db (fst (processPendingTransactions env tw))))
    = map SignedTxHash (message_waits_eth (db tw)) /\
  map WaiterMachineID (message_waits_eth (db (fst (processPendingTransactions env tw))))
    = map WaiterMachineID (message_waits_eth (db tw)) /\
  parked_pieces (db (fst (processPendingTransactions env tw))) = parked_pieces (db tw) /\
  parked_piece_refs (db (fst (processPendingTransactions env tw)))
    = parked_piece_refs (db tw) /\
  pdp_piecerefs (db (fst (processPendingTransactions env tw))) = pdp_piecerefs (db tw) /\
  match db_error env 0 with
  | Some c => processPendingTransactions env tw = (tw, Some (ErrGetPending c))
  | None => snd (processPendingTransactions env tw) = None
  end.
Proof.
  destruct (processPendingTransactions_keys env tw) as (H1 & H2 & H3 & H4 & H5 & H6).
  repeat (split; [assumption|]).
  unfold processPendingTransactions.
  destruct (db_error env 0); [reflexivity|].
  now destruct (length _ =? 0)%nat.
Qed.

Lemma fate_steady env piriRows i row :
  steady env piriRows -> fate env i row = fate env 0 row.
Proof.
  intros [Hdb Hpiri]. unfold fate. now rewrite !Hpiri, !Hdb.
Qed.

Lemma reconciled_steady env piriRows rows :
  steady env piriRows ->
  forall i,
    reconciled env i rows
    = map (fun row => if String.eqb (TxStatus row) "pending"
                      then fate env 0 row else row) rows.
Proof.
  intros Hsteady. induction rows as [|row rows IH]; intros i; [reflexivity|].
  cbn [reconciled map].
  destruct (String.eqb (TxStatus row) "pending");
    now rewrite ?(fate_steady env piriRows i row Hsteady), IH.
Qed.

(** Under steady collaborators a row that has met its fate is settled. *)
Lemma fate_settled env piriRows row :
  steady env piriRows ->
  TxStatus row = "pending" ->
  (if String.eqb (TxStatus (fate env 0 row)) "pending"
   then fate env 0 (fate env 0 row) else fate env 0 row)
  = fate env 0 row.
Proof.
  intros [Hdb Hpiri] Hpending.
  destruct (String.eqb_spec (TxStatus (fate env 0 row)) "pending") as [Hst|];
    [|reflexivity].
  revert Hst. unfold fate at 1 3 4. rewrite Hpiri.
  destruct (first_by_hash piriRows (SignedTxHash row)) as [piriTx|] eqn:Hfirst.
  2: { intros _. unfold fate. now rewrite Hpiri, Hfirst. }
  rewrite Hpending, Hdb.
  destruct (String.eqb_spec (TxStatus piriTx) "pending") as [Hp|Hp]; cbn [negb].
  - intros _. unfold fate. now rewrite Hpiri, Hfirst, Hpending, Hp.
  - cbn [apply_updates TxStatus]. intros Hst. contradiction.
Qed.

Lemma settle_twice env piriRows rows :
  steady env piriRows ->
  map (fun row => if String.eqb (TxStatus row) "pending"
                  then fate env 0 row else row)
    (map (fun row => if String.eqb (TxStatus row) "pending"
                     then fate env 0 row else row) rows)
  = map (fun row => if String.eqb (TxStatus row) "pending"
                    then fate env 0 row else row) rows.
Proof.
  intros Hsteady. rewrite map_map. apply map_ext. intros row.
  destruct (String.eqb_spec (TxStatus row) "pending") as [Hp|Hp].
  - exact (fate_settled env piriRows row Hsteady Hp).
  - now rewrite (PieceFacts.eqb_false_of_ne _ _ Hp).
Qed.

(** X12. Against collaborators that answer steadily, a tick brings the
    local transaction table in line with Piri's: every row that was pending
    and whose hash Piri knows under another status now carries Piri's status,
    success flag, confirmed hash, block, data and receipt, under its own
    primary key and signed hash. *)
Theorem tick_catches_up env piriRows tw row piriTx :
  steady env piriRows ->
  List.NoDup (map ID (message_waits_eth (db tw))) ->
  In row (message_waits_eth (db tw)) ->
  TxStatus row = "pending" ->
  first_by_hash piriRows (SignedTxHash row) = Some piriTx ->
  TxStatus piriTx <> "pending" ->
  In {| ID := ID row;
        SignedTxHash := SignedTxHash row;
        ConfirmedTxHash := ConfirmedTxHash piriTx;
        TxStatus := TxStatus piriTx;
        TxSuccess := TxSuccess piriTx;
        ConfirmedBlockNumber := ConfirmedBlockNumber piriTx;
        ConfirmedTxData := ConfirmedTxData piriTx;
        TxReceipt := TxReceipt piriTx;
        WaiterMachineID := WaiterMachineID row |}
     (message_waits_eth (db (fst (processPendingTransactions env tw)))).
Proof.
  intros Hsteady Hnodup Hin Hpending Hfirst Hother.
  rewrite (processPendingTransactions_rows env tw Hnodup (proj1 Hsteady 0%nat)).
  cbn [fst db with_rows message_waits_eth].
  rewrite (reconciled_steady env piriRows _ Hsteady).
  apply in_map_iff. exists row. split; [|exact Hin].
  rewrite Hpending. cbn [String.eqb Ascii.eqb Bool.eqb].
  unfold fate. destruct Hsteady as [Hdb Hpiri].
  rewrite Hpiri, Hfirst, Hpending, Hdb.
  now rewrite (PieceFacts.eqb_false_of_ne _ _ Hother).
Qed.

Lemma tick_catches_up_witness :
  In (Examples.tx_row "confirmed" (Some true) (Some 12345) [x01])
     (message_waits_eth
        (db (fst (processPendingTransactions
                    (Examples.env_ok
                       [Examples.tx_row "confirmed" (Some true) (Some 12345) [x01]])
                    {| db := Examples.db_with
                               (Examples.tx_row "pending" None None []) |})))).
Proof.
  apply (tick_catches_up
           (Examples.env_ok [Examples.tx_row "confirmed" (Some true) (Some 12345) [x01]])
           [Examples.tx_row "confirmed" (Some true) (Some 12345) [x01]]
           {| db := Examples.db_with (Examples.tx_row "pending" None None []) |}
           (Examples.tx_row "pending" None None [])
           (Examples.tx_row "confirmed" (Some true) (Some 12345) [x01])).
  - split; reflexivity.
  - cbn. repeat constructor. intros [].
  - cbn. now left.
  - reflexivity.
  - reflexivity.
  - cbn. discriminate.
Defined.

(** X13. Against collaborators that answer steadily, a tick is idempotent:
    a second tick changes nothing. *)
Theorem tick_idempotent env piriRows tw :
  steady env piriRows ->
  List.NoDup (map ID (message_waits_eth (db tw))) ->
  processPendingTransactions env (fst (processPendingTransactions env tw))
  = (fst (processPendingTransactions env tw), None).
Proof.
  intros Hsteady Hnodup.
  assert (Hnodup' :
            List.NoDup (map ID (message_waits_eth
                                  (db (fst (processPendingTransactions env tw)))))).
  { destruct (processPendingTransactions_keys env tw) as [-> _]. exact Hnodup. }
  rewrite (processPendingTransactions_rows env _ Hnodup' (proj1 Hsteady 0%nat)).
  f_equal.
  rewrite (processPendingTransactions_rows env tw Hnodup (proj1 Hsteady 0%nat)).
  cbn [fst db with_rows message_waits_eth parked_pieces parked_piece_refs
       pdp_piecerefs].
  rewrite !(reconciled_steady env piriRows _ Hsteady).
  now rewrite (settle_twice env piriRows _ Hsteady).
Qed.

Lemma tick_idempotent_witness :
  processPendingTransactions
    (Examples.env_ok [Examples.tx_row "confirmed" (Some true) (Some 12345) [x01]])
    (fst (processPendingTransactions
            (Examples.env_ok [Examples.tx_row "confirmed" (Some true) (Some 12345) [x01]])
            {| db := Examples.db_with (Examples.tx_row "pending" None None []) |}))
  = (fst (processPendingTransactions
            (Examples.env_ok [Examples.tx_row "confirmed" (Some true) (Some 12345) [x01]])
            {| db := Examples.db_with (Examples.tx_row "pending" None None []) |}),
     None).
Proof.
  apply (tick_idempotent
           (Examples.env_ok [Examples.tx_row "confirmed" (Some true) (Some 12345) [x01]])
           [Examples.tx_row "confirmed" (Some true) (Some 12345) [x01]]).
  - split; reflexivity.
  - cbn. repeat constructor. intros [].
Defined.

Lemma NoDup_app_iff_fresh (ids : list Z) (x : Z) :
  List.NoDup ids -> ~ In x ids -> List.NoDup (ids ++ [x]).
Proof.
  intros Hnodup Hfresh. induction Hnodup as [|y ids Hy Hnodup IH]; cbn [app].
  - constructor; [intros []|constructor].
  - constructor.
    + intros Hin. apply in_app_or in Hin as [Hin|[->|[]]]; [auto|].
      apply Hfresh. now left.
    + apply IH. intros Hin. apply Hfresh. now right.
Qed.

(** X14. [MonitorTransaction] returns an error only when the isolated
    database refuses a statement, and then changes nothing. When it returns
    [nil] the hash is watched: a row with that signed hash is in the table. If
    one was there before, nothing has changed; otherwise exactly one row was
    appended, [pending], with no confirmation data and a primary key not in
    use. Watching the same hash again changes nothing. *)
Theorem MonitorTransaction_watches env tw txHash txType :
  (forall e, snd (MonitorTransaction env tw txHash txType) = Some e ->
             fst (MonitorTransaction env tw txHash txType) = tw /\
             exists c, (e = ErrCheckExisting c \/ e = ErrCreateTx c) /\
                       (db_error env 0 = Some c \/ db_error env 1 = Some c)) /\
  (snd (MonitorTransaction env tw txHash txType) = None ->
   is_Some (first_by_hash
              (message_waits_eth (db (fst (MonitorTransaction env tw txHash txType))))
              txHash) /\
   (is_Some (first_by_hash (message_waits_eth (db tw)) txHash) ->
    fst (MonitorTransaction env tw txHash txType) = tw) /\
   (first_by_hash (message_waits_eth (db tw)) txHash = None ->
    exists newTx,
      db (fst (MonitorTransaction env tw txHash txType))
        = with_rows (message_waits_eth (db tw) ++ [newTx]) (db tw) /\
      SignedTxHash newTx = txHash /\ TxStatus newTx = "pending" /\
      TxSuccess newTx = None /\ ConfirmedBlockNumber newTx = None /\
      TxReceipt newTx = [] /\
      ~ In (ID newTx) (map ID (message_waits_eth (db tw)))) /\
   (forall env2 txType2,
      db_error env2 0 = None ->
      MonitorTransaction env2 (fst (MonitorTransaction env tw txHash txType))
        txHash txType2
      = (fst (MonitorTransaction env tw txHash txType), None))).
Proof.
  unfold MonitorTransaction.
  destruct (db_error env 0) as [c0|] eqn:H0.
  { split; [|discriminate]. cbn [fst snd]. intros e [= <-]. eauto 6. }
  destruct (first_by_hash (message_waits_eth (db tw)) txHash) as [existingTx|]
    eqn:Hfirst.
  { split; [discriminate|]. intros _. cbn [fst snd].
    split; [rewrite Hfirst; eauto|]. split; [reflexivity|].
    split; [discriminate|].
    intros env2 txType2 H2. now rewrite H2, Hfirst. }
  destruct (db_error env 1) as [c1|] eqn:H1.
  { split; [|discriminate]. cbn [fst snd]. intros e [= <-]. eauto 6. }
  split; [discriminate|]. intros _. cbn [fst snd db message_waits_eth].
  assert (Hnow : is_Some (first_by_hash
                            (message_waits_eth (db tw) ++
                             [{| ID := next_id (map ID (message_waits_eth (db tw)));
                                 SignedTxHash := txHash;
                                 ConfirmedTxHash := "";
                                 TxStatus := "pending";
                                 TxSuccess := None;
                                 ConfirmedBlockNumber := None;
                                 ConfirmedTxData := [];
                                 TxReceipt := [];
                                 WaiterMachineID := None |}]) txHash)).
  { eapply first_by_hash_present; [apply in_or_app; right; now left|reflexivity]. }
  split; [exact Hnow|]. split; [intros [? ?]; discriminate|].
  split.
  { intros _. eexists. split; [reflexivity|].
    cbn [SignedTxHash TxStatus TxSuccess ConfirmedBlockNumber TxReceipt ID].
    repeat (split; [reflexivity|]). apply SubmitFacts.next_id_fresh. }
  intros env2 txType2 H2. rewrite H2.
  destruct Hnow as [row Hrow]. now rewrite Hrow.
Qed.

Lemma MonitorTransaction_watches_witness :
  is_Some (first_by_hash
             (message_waits_eth
                (db (fst (MonitorTransaction (Examples.env_ok [])
                            {| db := Examples.empty_db |} "mock_tx_hash" "add_root"))))
             "mock_tx_hash").
Proof.
  apply (proj2 (MonitorTransaction_watches (Examples.env_ok [])
                  {| db := Examples.empty_db |} "mock_tx_hash" "add_root")).
  reflexivity.
Defined.

Lemma MonitorTransaction_keys env tw txHash txType :
  (List.NoDup (map ID (message_waits_eth (db tw))) ->
   List.NoDup (map ID (message_waits_eth
                         (db (fst (MonitorTransaction env tw txHash txType)))))) /\
  parked_pieces (db (fst (MonitorTransaction env tw txHash txType)))
    = parked_pieces (db tw).
Proof.
  unfold MonitorTransaction.
  destruct (db_error env 0); [now split|].
  destruct (first_by_hash _ txHash); [now split|].
  destruct (db_error env 1); [now split|].
  cbn [fst db message_waits_eth parked_pieces]. split; [|reflexivity].
  intros Hnodup. rewrite map_app. cbn [map ID].
  apply NoDup_app_iff_fresh; [exact Hnodup|apply SubmitFacts.next_id_fresh].
Qed.

End WatcherFacts.

(** ** The database along a run *)

Module DbRuns.
Import Go Collab Errors piece server Submissions.

Lemma PreparePiece_db env s filePath : db (fst (PreparePiece env s filePath)) = db s.
Proof. unfold PreparePiece. now destruct (os_open env filePath). Qed.

Lemma UploadPiece_db env s id fileContent :
  db (fst (UploadPiece env s id fileContent)) = db s.
Proof.
  destruct (PieceFacts.UploadPiece_cases env s id fileContent)
    as [[e ->]|[->|(piece & _ & _ & ->)]]; reflexivity.
Qed.

Lemma createPiriDatabaseEntries_grows env d piece0 :
  models.message_waits_eth (fst (createPiriDatabaseEntries env d piece0))
    = models.message_waits_eth d /\
  exists more,
    models.parked_pieces (fst (createPiriDatabaseEntries env d piece0))
      = models.parked_pieces d ++ more.
Proof.
  unfold createPiriDatabaseEntries.
  assert (Hsame : models.message_waits_eth d = models.message_waits_eth d /\
                  exists more, models.parked_pieces d = models.parked_pieces d ++ more)
    by (split; [reflexivity | exists []; now rewrite app_nil_r]).
  destruct (db_error env 0); [exact Hsame|].
  destruct (existsb _ (models.parked_pieces d)); [exact Hsame|].
  destruct (db_error env 1); [exact Hsame|].
  destruct (db_error env 2); [exact Hsame|].
  destruct (existsb _ (models.pdp_piecerefs d)); [exact Hsame|].
  cbn [fst models.message_waits_eth models.parked_pieces]. eauto.
Qed.

Lemma AddPieceToProofSet_db env s id proofSetID :
  models.message_waits_eth (db (fst (AddPieceToProofSet env s id proofSetID)))
    = models.message_waits_eth (db s) /\
  exists more,
    models.parked_pieces (db (fst (AddPieceToProofSet env s id proofSetID)))
      = models.parked_pieces (db s) ++ more.
Proof.
  assert (Hsame : models.message_waits_eth (db s) = models.message_waits_eth (db s) /\
                  exists more,
                    models.parked_pieces (db s) = models.parked_pieces (db s) ++ more)
    by (split; [reflexivity | exists []; now rewrite app_nil_r]).
  destruct (SubmitFacts.AddPieceToProofSet_cases env s id proofSetID)
    as [(e0 & -> & _)
       |(piece0 & pieceCID & generatedCID & d' & _ & _ & _ & _ & Hdb
          & [(c & _ & ->)|(result & _ & ->)])];
    [exact Hsame| |];
    cbn [fst db];
    pose proof (createPiriDatabaseEntries_grows env (db s) piece0) as Hgrow;
    rewrite Hdb in Hgrow; exact Hgrow.
Qed.

(** What every operation keeps of the database: the primary keys of the
    transaction rows stay unique, and a parked piece stays parked. *)
Lemma step_db env s op :
  (List.NoDup (map models.ID (models.message_waits_eth (db s))) ->
   List.NoDup (map models.ID (models.message_waits_eth (db (fst (step env s op)))))) /\
  exists more,
    models.parked_pieces (db (fst (step env s op)))
      = models.parked_pieces (db s) ++ more.
Proof.
  assert (Hsame : forall d,
             d = db s ->
             (List.NoDup (map models.ID (models.message_waits_eth (db s))) ->
              List.NoDup (map models.ID (models.message_waits_eth d))) /\
             exists more, models.parked_pieces d = models.parked_pieces (db s) ++ more).
  { intros d ->. split; [auto | exists []; now rewrite app_nil_r]. }
  destruct op as [filePath|id fileContent|id proofSetID|id| |txHash txType];
    cbn [step].
  - pose proof (PreparePiece_db env s filePath) as H.
    destruct (PreparePiece env s filePath). now apply Hsame.
  - pose proof (UploadPiece_db env s id fileContent) as H.
    destruct (UploadPiece env s id fileContent). now apply Hsame.
  - destruct (AddPieceToProofSet_db env s id proofSetID) as [Hwaits Hmore].
    split; [|exact Hmore]. intros Hnodup.
    exact (eq_ind_r (fun rows => List.NoDup (map models.ID rows)) Hnodup Hwaits).
  - apply Hsame. apply MonitorFacts.MonitorTransactionStatus_db.
  - unfold tick.
    pose proof (WatcherFacts.processPendingTransactions_keys env
                  {| watcher.db := db s |}) as (Hid & _ & _ & Hparked & _).
    destruct (watcher.processPendingTransactions env _) as [tw r].
    cbn [fst db with_db watcher.db] in *. rewrite Hid, Hparked.
    split; [auto | exists []; now rewrite app_nil_r].
  - unfold watch.
    pose proof (WatcherFacts.MonitorTransaction_keys env {| watcher.db := db s |}
                  txHash txType) as Hkeys.
    destruct (watcher.MonitorTransaction env _ txHash txType) as [tw r].
    cbn [fst db with_db watcher.db] in *. destruct Hkeys as [Hid Hparked].
    split; [exact Hid|]. exists []. now rewrite app_nil_r.
Qed.

Lemma run_db trace :
  forall s,
    (List.NoDup (map models.ID (models.message_waits_eth (db s))) ->
     List.NoDup (map models.ID (models.message_waits_eth (db (fst (run s trace)))))) /\
    exists more,
      models.parked_pieces (db (fst (run s trace)))
        = models.parked_pieces (db s) ++ more.
Proof.
  induction trace as [|[env op] rest IH]; intros s.
  { split; [auto | exists []; now rewrite app_nil_r]. }
  cbn [run].
  destruct (step_db env s op) as [Hkeys [more Hparked]].
  destruct (step env s op) as [s' o]. cbn [fst] in Hkeys, Hparked.
  assert (Hrest :
            (List.NoDup (map models.ID (models.message_waits_eth (db s))) ->
             List.NoDup (map models.ID
                           (models.message_waits_eth (db (fst (run s' rest)))))) /\
            exists more',
              models.parked_pieces (db (fst (run s' rest)))
                = models.parked_pieces (db s) ++ more').
  { destruct (IH s') as [Hkeys' [more' Hparked']]. split; [auto|].
    exists (more ++ more'). now rewrite Hparked', Hparked, app_assoc. }
  destruct o as [u|e|].
  - destruct (run s' rest) as [s'' log]. exact Hrest.
  - destruct (run s' rest) as [s'' log]. exact Hrest.
  - cbn [fst]. eauto.
Qed.

(** X15. The primary keys of the transaction rows stay unique along every
    run of the server: no operation writes the key of a row, and
    [MonitorTransaction] takes a key that is not in use. So the row-by-row
    account of the tick holds in every state a server reaches. *)
Theorem transaction_keys_stay_unique (s : State) (trace : list (Env * Op)) :
  List.NoDup (map models.ID (models.message_waits_eth (db s))) ->
  List.NoDup (map models.ID (models.message_waits_eth (db (fst (run s trace))))).
Proof. apply run_db. Qed.

Lemma transaction_keys_stay_unique_witness :
  List.NoDup
    (map models.ID
       (models.message_waits_eth
          (db (fst (run Examples.fresh
                      [(Examples.env_ok [], OpMonitorTransaction "0xaa" "add_root");
                       (Examples.env_ok [], OpMonitorTransaction "0xbb" "add_root");
                       (Examples.env_ok [], OpMonitorTransaction "0xaa" "add_root");
                       (Examples.env_ok [], OpTick)]))))).
Proof.
  apply (transaction_keys_stay_unique Examples.fresh). cbn. constructor.
Defined.

Lemma existsb_cid_true {A} (key : A -> string) (rows : list A) (cid : string) :
  In cid (map key rows) ->
  existsb (fun r => String.eqb (key r) cid) rows = true.
Proof.
  induction rows as [|r rows IH]; cbn [existsb map]; [intros []|].
  intros [<-|Hin]; [now rewrite String.eqb_refl|]. rewrite IH by exact Hin.
  apply orb_true_r.
Qed.

Lemma createPiriDatabaseEntries_parked env d piece0 :
  In (PieceCID piece0) (map models.pp_PieceCID (models.parked_pieces d)) ->
  exists e, createPiriDatabaseEntries env d piece0 = (d, Some e).
Proof.
  intros Hin. unfold createPiriDatabaseEntries.
  destruct (db_error env 0); [eauto|].
  rewrite (existsb_cid_true _ _ _ Hin). eauto.
Qed.

(** X16. A piece CID is parked at most once. Once a row of [parked_pieces]
    carries a CID, it carries it in every later state, and every call of
    [AddPieceToProofSet] for a piece with that CID returns an error before the
    ledger is asked and changes nothing. So content that was submitted under
    one id cannot be submitted again under another. *)
Theorem parked_cid_is_refused (s : State) (trace : list (Env * Op)) env pieceID
    proofSetID piece0 :
  In (PieceCID piece0) (map models.pp_PieceCID (models.parked_pieces (db s))) ->
  pieces (fst (run s trace)) !! pieceID = Some piece0 ->
  In (PieceCID piece0)
     (map models.pp_PieceCID (models.parked_pieces (db (fst (run s trace))))) /\
  exists e,
    AddPieceToProofSet env (fst (run s trace)) pieceID proofSetID
      = (fst (run s trace), Fails e) /\
    forall c, e <> ErrLedger c.
Proof.
  intros Hparked Hlookup.
  assert (Hlater : In (PieceCID piece0)
                      (map models.pp_PieceCID
                         (models.parked_pieces (db (fst (run s trace)))))).
  { destruct (run_db trace s) as [_ [more ->]].
    rewrite map_app. apply in_or_app. now left. }
  split; [exact Hlater|].
  destruct (createPiriDatabaseEntries_parked env (db (fst (run s trace))) piece0 Hlater)
    as [inner Hcreate].
  destruct (SubmitFacts.AddPieceToProofSet_cases env (fst (run s trace)) pieceID
              proofSetID)
    as [(e0 & He0 & Hkind)
       |(piece1 & pieceCID & generatedCID & d' & Hlookup1 & _ & _ & _ & Hdb & _)].
  - exists e0. split; [exact He0|]. intros c ->.
    destruct Hkind as [H|[H|[[? H]|[[? H]|[? H]]]]]; discriminate.
  - rewrite Hlookup in Hlookup1. injection Hlookup1 as <-.
    rewrite Hcreate in Hdb. discriminate.
Qed.

Lemma parked_cid_is_refused_witness :
  exists e,
    AddPieceToProofSet (Examples.env_ok [])
      (fst (run (fst (run Examples.fresh
                        [(Examples.env_ok [],
                          OpUploadPiece "first" Examples.hundred_bytes);
                         (Examples.env_ok [], OpAddPieceToProofSet "first" 7)]))
              [(Examples.env_ok [], OpUploadPiece "second" Examples.hundred_bytes)]))
      "second" 7
    = (fst (run (fst (run Examples.fresh
                        [(Examples.env_ok [],
                          OpUploadPiece "first" Examples.hundred_bytes);
                         (Examples.env_ok [], OpAddPieceToProofSet "first" 7)]))
              [(Examples.env_ok [], OpUploadPiece "second" Examples.hundred_bytes)]),
       Fails e).
Proof.
  destruct (parked_cid_is_refused
              (fst (run Examples.fresh
                      [(Examples.env_ok [], OpUploadPiece "first" Examples.hundred_bytes);
                       (Examples.env_ok [], OpAddPieceToProofSet "first" 7)]))
              [(Examples.env_ok [], OpUploadPiece "second" Examples.hundred_bytes)]
              (Examples.env_ok []) "second" 7
              {| ID := "second"; FilePath := ""; Size := 128;
                 CommP := hex (repeat x00 32);
                 PieceCID := ("baga6ea4seaq" ++ hex (repeat x00 32))%string;
                 DataCID := ("baga6ea4seaq" ++ hex (repeat x00 32))%string;
                 ProofSetID := 0; Status := "uploaded"; ErrorMessage := "";
                 UploadURL := ""; TransactionHash := "";
                 TransactionTimestamp := 0 |})
    as [_ (e & Hcall & _)].
  - vm_compute. now left.
  - vm_compute. reflexivity.
  - exists e. exact Hcall.
Defined.

End DbRuns.

(** ** More on the manual monitor *)

Module MonitorMore.
Import Go Collab Errors piece server Submissions.

Lemma MonitorTransactionStatus_no_hash env p pieceID piece0 :
  pieces p !! pieceID = Some piece0 ->
  Status piece0 = "pending_confirmation" ->
  TransactionHash piece0 = "" ->
  MonitorTransactionStatus env p pieceID = (p, Fails (ErrNoTxHash pieceID)).
Proof.
  intros Hlookup Hst Hh. unfold MonitorTransactionStatus.
  now rewrite Hlookup, Hst, Hh.
Qed.

(** X17. The monitor writes nothing but the status and the error message of
    the piece it is asked about: the database and every other piece are as
    before. Whenever it returns an error (piece not found, piece not pending,
    no transaction hash, or a failed query) it has written nothing at all; and
    it always returns. *)
Theorem MonitorTransactionStatus_footprint env p pieceID :
  db (fst (MonitorTransactionStatus env p pieceID)) = db p /\
  (forall other, other <> pieceID ->
     pieces (fst (MonitorTransactionStatus env p pieceID)) !! other
     = pieces p !! other) /\
  (forall e, snd (MonitorTransactionStatus env p pieceID) = Fails e ->
     fst (MonitorTransactionStatus env p pieceID) = p /\
     (e = ErrPieceNotFound pieceID \/ e = ErrNotPending pieceID \/
      e = ErrNoTxHash pieceID \/ exists c, e = ErrQueryTx c)) /\
  snd (MonitorTransactionStatus env p pieceID) <> Hangs.
Proof.
  split; [apply MonitorFacts.MonitorTransactionStatus_db|].
  split; [intros other Hne; now apply MonitorFacts.MonitorTransactionStatus_other|].
  unfold MonitorTransactionStatus.
  destruct (pieces p !! pieceID) as [piece0|];
    [|split; [intros e [= <-]; auto | discriminate]].
  destruct (negb _); [split; [intros e [= <-]; auto | discriminate]|].
  destruct (String.eqb (TransactionHash piece0) "");
    [split; [intros e [= <-]; auto | discriminate]|].
  destruct (query_transaction _ _ _) as [row| |];
    [|split; [discriminate | discriminate]
     |split; [intros e [= <-]; eauto 6 | discriminate]].
  destruct (String.eqb (models.TxStatus row) "confirmed");
    [|split; discriminate].
  destruct (models.TxSuccess row) as [[|]|]; split; discriminate.
Qed.

Lemma MonitorTransactionStatus_footprint_witness :
  fst (MonitorTransactionStatus (Examples.env_ok [])
         (Examples.state_with "uploaded" Examples.empty_db) "test-small")
  = Examples.state_with "uploaded" Examples.empty_db.
Proof.
  apply (proj1 (proj2 (proj2 (MonitorTransactionStatus_footprint (Examples.env_ok [])
                                (Examples.state_with "uploaded" Examples.empty_db)
                                "test-small")))
           (ErrNotPending "test-small")).
  vm_compute. reflexivity.
Defined.

(** X18. The monitor is idempotent: against the same collaborators, a
    second call for the same piece leaves the state the first call left. *)
Theorem MonitorTransactionStatus_idempotent env p pieceID :
  fst (MonitorTransactionStatus env
         (fst (MonitorTransactionStatus env p pieceID)) pieceID)
  = fst (MonitorTransactionStatus env p pieceID).
Proof.
  destruct (pieces p !! pieceID) as [piece0|] eqn:Hlookup.
  2: { unfold MonitorTransactionStatus at 2 3. rewrite Hlookup. cbn [fst].
       unfold MonitorTransactionStatus. now rewrite Hlookup. }
  destruct (decide (Status piece0 = "pending_confirmation")) as [Hst|Hst].
  2: { rewrite !(MonitorFacts.MonitorTransactionStatus_not_pending env p pieceID
                   piece0 Hlookup Hst). cbn [fst].
       now rewrite (MonitorFacts.MonitorTransactionStatus_not_pending env p pieceID
                      piece0 Hlookup Hst). }
  destruct (decide (TransactionHash piece0 = "")) as [Hh|Hh].
  { rewrite !(MonitorTransactionStatus_no_hash env p pieceID piece0 Hlookup Hst Hh).
    cbn [fst].
    now rewrite (MonitorTransactionStatus_no_hash env p pieceID piece0 Hlookup Hst Hh). }
  pose proof (MonitorFacts.MonitorTransactionStatus_pending env p pieceID piece0
                Hlookup Hst Hh) as Hcall.
  destruct (query_transaction env (db p) (TransactionHash piece0)) as [row| |];
    try (rewrite !Hcall; cbn [fst]; now rewrite Hcall).
  destruct (String.eqb (models.TxStatus row) "confirmed");
    [|rewrite !Hcall; cbn [fst]; now rewrite Hcall].
  destruct (models.TxSuccess row) as [[|]|]; rewrite !Hcall; cbn [fst];
    (erewrite MonitorFacts.MonitorTransactionStatus_not_pending;
       [reflexivity
       |cbn [pieces with_pieces]; apply lookup_insert_eq
       |cbn; discriminate]).
Qed.

Lemma frozen_not_movable piece0 :
  frozen piece0 = true ->
  Status piece0 <> "pending_confirmation" \/
  (Status piece0 = "pending_confirmation" /\ TransactionHash piece0 = "").
Proof.
  unfold frozen. intros Hfrozen.
  destruct (String.eqb_spec (Status piece0) "pending_confirmation") as [Hst|Hst];
    [|now left].
  right. split; [exact Hst|]. cbn [negb orb] in Hfrozen. now apply String.eqb_eq.
Qed.

Lemma frozen_step env s op pieceID piece0 :
  is_reconciliation op = true ->
  pieces s !! pieceID = Some piece0 ->
  frozen piece0 = true ->
  pieces (fst (step env s op)) !! pieceID = Some piece0.
Proof.
  intros Hop Hlookup Hfrozen.
  destruct op as [filePath|id fileContent|id proofSetID|id| |txHash txType];
    try discriminate; cbn [step]; [|now rewrite ServerFacts.tick_pieces].
  destruct (decide (pieceID = id)) as [->|Hne];
    [|now rewrite MonitorFacts.MonitorTransactionStatus_other].
  destruct (frozen_not_movable piece0 Hfrozen) as [Hst|[Hst Hh]].
  - now rewrite (MonitorFacts.MonitorTransactionStatus_not_pending env s id piece0
                   Hlookup Hst).
  - now rewrite (MonitorTransactionStatus_no_hash env s id piece0 Hlookup Hst Hh).
Qed.

Lemma frozen_run pieceID piece0 trace :
  Forall (fun call => is_reconciliation (snd call) = true) trace ->
  frozen piece0 = true ->
  forall s, pieces s !! pieceID = Some piece0 ->
            pieces (fst (run s trace)) !! pieceID = Some piece0.
Proof.
  intros Hall Hfrozen.
  induction Hall as [|[env op] rest Hop _ IH]; intros s Hlookup; [exact Hlookup|].
  cbn [snd] in Hop. cbn [run].
  pose proof (frozen_step env s op pieceID piece0 Hop Hlookup Hfrozen) as Hstep.
  destruct (step env s op) as [s' o]. cbn [fst] in Hstep.
  destruct o as [u|e|].
  - specialize (IH s' Hstep). destruct (run s' rest) as [s'' log]. exact IH.
  - specialize (IH s' Hstep). destruct (run s' rest) as [s'' log]. exact IH.
  - exact Hstep.
Qed.

(** X19. A piece that is [pending_confirmation] without a transaction hash
    (what [AddPieceToProofSet] leaves when the ledger's answer is not a
    string) is stuck: through every sequence of ticks and manual monitors its
    record stays as it is, and every manual monitor of it returns the error
    "no transaction hash found". *)
Theorem pending_without_hash_is_stuck (s : State) (trace : list (Env * Op))
    pieceID piece0 :
  pieces s !! pieceID = Some piece0 ->
  Status piece0 = "pending_confirmation" ->
  TransactionHash piece0 = "" ->
  Forall (fun call => is_reconciliation (snd call) = true) trace ->
  pieces (fst (run s trace)) !! pieceID = Some piece0 /\
  forall env,
    MonitorTransactionStatus env (fst (run s trace)) pieceID
    = (fst (run s trace), Fails (ErrNoTxHash pieceID)).
Proof.
  intros Hlookup Hst Hh Hall.
  assert (Hfrozen : frozen piece0 = true).
  { unfold frozen. rewrite Hh. apply orb_true_r. }
  pose proof (frozen_run pieceID piece0 trace Hall Hfrozen s Hlookup) as Hlater.
  split; [exact Hlater|]. intros env.
  exact (MonitorTransactionStatus_no_hash env _ pieceID piece0 Hlater Hst Hh).
Qed.

Lemma pending_without_hash_is_stuck_witness :
  exists piece0,
    pieces (fst (run (fst (run Examples.fresh
                             [(Examples.env_ok [],
                               OpUploadPiece "test-small" Examples.hundred_bytes);
                              (Examples.env_odd_result,
                               OpAddPieceToProofSet "test-small" 7)]))
                   [(Examples.env_ok [Examples.tx_row "confirmed" (Some true) None []],
                     OpTick);
                    (Examples.env_ok [],
                     OpMonitorTransactionStatus "test-small")]))
      !! "test-small" = Some piece0 /\
    Status piece0 = "pending_confirmation".
Proof.
  eexists. split;
    [apply (pending_without_hash_is_stuck
              (fst (run Examples.fresh
                      [(Examples.env_ok [],
                        OpUploadPiece "test-small" Examples.hundred_bytes);
                       (Examples.env_odd_result,
                        OpAddPieceToProofSet "test-small" 7)])));
       [vm_compute; reflexivity | reflexivity | reflexivity | repeat constructor]
    |reflexivity].
Defined.

End MonitorMore.

(** ** The server as wired *)

Module WiredFacts.
Import Go Collab Errors piece server PiriServiceAdapter.

Lemma adapter_marked_insert (s : State) pieceID piece1 (d : models.DB) :
  adapter_marked s ->
  Status piece1 <> "error" ->
  (Status piece1 = "pending_confirmation" \/ Status piece1 = "added_to_proofset" \/
   Status piece1 = "transaction_failed" ->
   TransactionHash piece1 = "mock_tx_hash") ->
  adapter_marked {| pieces := <[pieceID := piece1]> (pieces s); db := d |}.
Proof.
  intros Hmarked Hst Hhash id piece0. cbn [pieces]. rewrite lookup_insert.
  case_decide; [intros [= <-]; auto | apply Hmarked].
Qed.

Lemma adapter_marked_pieces (s s' : State) :
  pieces s' = pieces s -> adapter_marked s -> adapter_marked s'.
Proof. intros Heq Hmarked id piece0. rewrite Heq. apply Hmarked. Qed.

Lemma adapter_marked_step env s op :
  wired env -> adapter_marked s -> adapter_marked (fst (step env s op)).
Proof.
  intros Hwired Hmarked.
  destruct op as [filePath|id fileContent|id proofSetID|id| |txHash txType];
    cbn [step].
  - unfold PreparePiece. destruct (os_open env filePath); try exact Hmarked.
    cbn [fst]. apply adapter_marked_insert; [exact Hmarked|cbn; discriminate|].
    cbn. intros [H|[H|H]]; discriminate.
  - destruct (PieceFacts.UploadPiece_cases env s id fileContent)
      as [[e ->]|[->|(piece1 & _ & Hst & ->)]]; try exact Hmarked.
    cbn [fst]. apply adapter_marked_insert; [exact Hmarked| |];
      rewrite Hst; [discriminate|intros [H|[H|H]]; discriminate].
  - destruct (SubmitFacts.AddPieceToProofSet_cases env s id proofSetID)
      as [(e0 & -> & _)
         |(piece0 & pieceCID & generatedCID & d' & _ & _ & _ & _ & _
            & [(c & Hroot & _)|(result & Hroot & ->)])];
      [exact Hmarked| |].
    + rewrite Hwired in Hroot. discriminate.
    + rewrite Hwired in Hroot. injection Hroot as <-. cbn [fst].
      apply adapter_marked_insert; [exact Hmarked|cbn; discriminate|reflexivity].
  - destruct (pieces s !! id) as [piece0|] eqn:Hlookup.
    2: { unfold MonitorTransactionStatus. now rewrite Hlookup. }
    destruct (decide (Status piece0 = "pending_confirmation")) as [Hst|Hst].
    2: { now rewrite (MonitorFacts.MonitorTransactionStatus_not_pending env s id
                        piece0 Hlookup Hst). }
    destruct (decide (TransactionHash piece0 = "")) as [Hh|Hh].
    { now rewrite (MonitorMore.MonitorTransactionStatus_no_hash env s id piece0
                     Hlookup Hst Hh). }
    rewrite (MonitorFacts.MonitorTransactionStatus_pending env s id piece0
               Hlookup Hst Hh).
    destruct (Hmarked id piece0 Hlookup) as [_ Hhash].
    specialize (Hhash (or_introl Hst)).
    destruct (query_transaction _ _ _) as [row| |]; try exact Hmarked.
    destruct (String.eqb (models.TxStatus row) "confirmed"); [|exact Hmarked].
    destruct (models.TxSuccess row) as [[|]|]; cbn [fst];
      (apply (adapter_marked_insert s id _ (db s) Hmarked);
         [cbn; discriminate | intros _; exact Hhash]).
  - apply (adapter_marked_pieces s); [apply ServerFacts.tick_pieces|exact Hmarked].
  - apply (adapter_marked_pieces s); [apply ServerFacts.watch_pieces|exact Hmarked].
Qed.

(** X20. With the ledger service wired to [PiriServiceAdapter], as
    [initializePDPServer] does, no run of the server ever puts a piece in
    status [error], and every piece that has been submitted carries the same
    transaction hash, [mock_tx_hash]: the adapter answers every submission with
    it, for whatever proof set and root. *)
Theorem wired_server_marks_all_alike (s : State) (trace : list (Env * Op)) :
  adapter_marked s ->
  Forall (fun call => wired (fst call)) trace ->
  adapter_marked (fst (run s trace)).
Proof.
  intros Hmarked Hall. revert s Hmarked.
  induction Hall as [|[env op] rest Hwired _ IH]; intros s Hmarked; [exact Hmarked|].
  cbn [fst] in Hwired. cbn [run].
  pose proof (adapter_marked_step env s op Hwired Hmarked) as Hstep.
  destruct (step env s op) as [s' o]. cbn [fst] in Hstep.
  destruct o as [u|e|].
  - specialize (IH s' Hstep). destruct (run s' rest) as [s'' log]. exact IH.
  - specialize (IH s' Hstep). destruct (run s' rest) as [s'' log]. exact IH.
  - exact Hstep.
Qed.

Lemma wired_server_marks_all_alike_witness :
  adapter_marked
    (fst (run Examples.fresh
            [(Examples.env_ok [], OpUploadPiece "first" Examples.hundred_bytes);
             (Examples.env_ok [], OpAddPieceToProofSet "first" 7)])).
Proof.
  apply (wired_server_marks_all_alike Examples.fresh).
  - intros id piece0 Hlookup. cbn in Hlookup. discriminate.
  - repeat constructor.
Defined.

End WiredFacts.

(** ** The handlers *)

Module HandlerFacts.
Import Go Collab Errors piece server api.

Lemma nextPowerOfTwo_loop_reaches fuel size :
  forall x n, Padding.nextPowerOfTwo_loop fuel x size = Some n -> size <= n.
Proof.
  induction fuel as [|fuel IH]; intros x n; cbn [Padding.nextPowerOfTwo_loop];
    destruct (Z.ltb_spec x size); try discriminate; try (intros [= <-]; lia).
  apply IH.
Qed.

(** Padding never shortens. *)
Lemma padToPowerOfTwo_longer data padded :
  Padding.padToPowerOfTwo data = Some padded ->
  (length data <= length padded)%nat.
Proof.
  unfold Padding.padToPowerOfTwo.
  destruct (Z.of_nat (length data) =? 0); [intros [= <-]; lia|].
  destruct (Padding.nextPowerOfTwo_loop _ 1 _) as [n|] eqn:Hloop; [|discriminate].
  apply nextPowerOfTwo_loop_reaches in Hloop.
  destruct (n =? Z.of_nat (length data)); intros [= <-]; [lia|].
  rewrite PaddingTheorems.copy_make_longer by exact Hloop.
  rewrite length_app. lia.
Qed.

(** X21. [handleUploadPiece] answers 400 and leaves the server as it is
    when the piece id is empty or no content arrives; it answers 200 only when
    [UploadPiece] returned the piece for non-empty content read from the form
    file or, without one, from the body, and then the piece it shows is stored
    under the id, has a positive size, and is what [handleGetPiece] shows;
    with any other answer the piece table is unchanged. *)
Theorem handleUploadPiece_guards env s req :
  (up_pieceID req = "" ->
   handleUploadPiece env (Some s) req
   = (Some s, Responds {| code := StatusBadRequest;
                          body := ErrorJSON "Piece ID is required" |})) /\
  (up_pieceID req <> "" ->
   (up_formFile req = FormFileContent [] \/
    (up_formFile req = NoFormFile /\ up_body req = ok [])) ->
   handleUploadPiece env (Some s) req
   = (Some s, Responds {| code := StatusBadRequest;
                          body := ErrorJSON "No file content provided" |})) /\
  (forall svc' r,
     handleUploadPiece env (Some s) req = (svc', Responds r) ->
     (code r = StatusOK ->
      exists s' fileContent pieceInfo,
        svc' = Some s' /\ body r = PieceJSON pieceInfo /\
        up_pieceID req <> "" /\ (0 < length fileContent)%nat /\
        (up_formFile req = FormFileContent fileContent \/
         (up_formFile req = NoFormFile /\ up_body req = ok fileContent)) /\
        UploadPiece env s (up_pieceID req) fileContent = (s', Returns pieceInfo) /\
        0 < Size pieceInfo /\
        handleGetPiece (Some s') (up_pieceID req)
        = Responds {| code := StatusOK; body := PieceJSON pieceInfo |}) /\
     (code r <> StatusOK -> svc' = Some s) /\
     (code r = StatusOK \/ code r = StatusBadRequest \/
      code r = StatusInternalServerError)).
Proof.
  split; [intros Hid; unfold handleUploadPiece; now rewrite Hid|].
  split.
  { intros Hid Hempty. unfold handleUploadPiece.
    rewrite (PieceFacts.eqb_false_of_ne _ _ Hid).
    destruct Hempty as [->|[-> ->]]; reflexivity. }
  intros svc' r. unfold handleUploadPiece.
  destruct (String.eqb_spec (up_pieceID req) "") as [Hid|Hid].
  { intros [= <- <-]. cbn. repeat split; try discriminate; auto. }
  set (read := match up_formFile req with
               | NoFormFile => _ | FormFileOpenFails => _
               | FormFileReadFails => _ | FormFileContent content => _ end).
  assert (Hread : forall fileContent,
             read = inr fileContent ->
             up_formFile req = FormFileContent fileContent \/
             (up_formFile req = NoFormFile /\ up_body req = ok fileContent)).
  { intros fileContent. unfold read.
    destruct (up_formFile req); try discriminate.
    - destruct (up_body req); [intros [= ->]; auto | discriminate].
    - intros [= ->]. auto. }
  assert (Hcodes : forall response,
             read = inl response ->
             code response = StatusBadRequest \/
             code response = StatusInternalServerError).
  { intros response. unfold read.
    destruct (up_formFile req); try discriminate.
    - destruct (up_body req); [discriminate|]. intros [= <-]. auto.
    - intros [= <-]. auto.
    - intros [= <-]. auto. }
  destruct read as [response|fileContent].
  { intros [= <- <-].
    destruct (Hcodes response eq_refl) as [Hc|Hc]; rewrite Hc;
      repeat split; try discriminate; auto. }
  specialize (Hread fileContent eq_refl).
  destruct (Nat.eqb_spec (length fileContent) 0) as [Hlen|Hlen].
  { intros [= <- <-]. cbn. repeat split; try discriminate; auto. }
  destruct (PieceFacts.UploadPiece_cases env s (up_pieceID req) fileContent)
    as [[e Hcall]|[Hcall|(pieceInfo & Hnone & Hst & Hcall)]]; rewrite Hcall.
  - intros [= <- <-]. cbn. repeat split; try discriminate; auto.
  - discriminate.
  - intros [= <- <-]. cbn [code body]. split; [|split; [congruence|auto]].
    intros _. eexists. exists fileContent, pieceInfo.
    split; [reflexivity|]. split; [reflexivity|]. split; [exact Hid|].
    split; [lia|]. split; [exact Hread|]. split; [exact Hcall|].
    split.
    + revert Hcall. unfold UploadPiece. rewrite Hnone.
      destruct (Padding.padToPowerOfTwo fileContent) as [padded|] eqn:Hpad;
        [|discriminate].
      apply padToPowerOfTwo_longer in Hpad.
      destruct (commp_write env padded); [discriminate|].
      destruct (commp_digest env padded) as [[digest sz]|]; [|discriminate].
      destruct (commitment_to_cid env digest); [|discriminate].
      cbn [PieceCID]. destruct (blob_put env _ padded); [discriminate|].
      intros [= _ <-]. cbn [Size]. lia.
    + unfold handleGetPiece, GetPiece.
      rewrite (PieceFacts.eqb_false_of_ne _ _ Hid).
      cbn [pieces with_pieces]. now rewrite lookup_insert_eq.
Qed.

Lemma handleUploadPiece_guards_witness :
  handleUploadPiece (Examples.env_ok []) (Some Examples.fresh)
    {| up_pieceID := "test-small"; up_formFile := NoFormFile; up_body := ok [] |}
  = (Some Examples.fresh,
     Responds {| code := StatusBadRequest;
                 body := ErrorJSON "No file content provided" |}).
Proof.
  apply (proj1 (proj2 (handleUploadPiece_guards (Examples.env_ok []) Examples.fresh
                         {| up_pieceID := "test-small"; up_formFile := NoFormFile;
                            up_body := ok [] |}))).
  - cbn. discriminate.
  - right. split; reflexivity.
Defined.

Lemma run_present trace pieceID :
  forall s, is_Some (pieces s !! pieceID) ->
            is_Some (pieces (fst (run s trace)) !! pieceID).
Proof.
  induction trace as [|[env op] rest IH]; intros s Hin; [exact Hin|].
  cbn [run].
  pose proof (ServerFacts.step_present env s op pieceID Hin) as Hstep.
  destruct (step env s op) as [s' o]. cbn [fst] in Hstep.
  destruct o as [u|e|].
  - specialize (IH s' Hstep). destruct (run s' rest) as [s'' log]. exact IH.
  - specialize (IH s' Hstep). destruct (run s' rest) as [s'' log]. exact IH.
  - exact Hstep.
Qed.

Lemma MonitorTransactionStatus_returns_present env s pieceID s1 u :
  MonitorTransactionStatus env s pieceID = (s1, Returns u) ->
  is_Some (pieces s1 !! pieceID).
Proof.
  intros Hcall.
  assert (Hin : is_Some (pieces s !! pieceID)).
  { revert Hcall. unfold MonitorTransactionStatus.
    destruct (pieces s !! pieceID); [eauto | discriminate]. }
  pose proof (ServerFacts.MonitorTransactionStatus_present env s pieceID pieceID Hin)
    as Hafter.
  now rewrite Hcall in Hafter.
Qed.

Lemma MonitorTransactionStatus_fails_same env s pieceID s1 e :
  MonitorTransactionStatus env s pieceID = (s1, Fails e) -> s1 = s.
Proof.
  unfold MonitorTransactionStatus.
  destruct (pieces s !! pieceID) as [piece0|]; [|now intros [= <- _]].
  destruct (negb _); [now intros [= <- _]|].
  destruct (String.eqb (TransactionHash piece0) ""); [now intros [= <- _]|].
  destruct (query_transaction _ _ _) as [row| |]; try (now intros [= <- _]).
  destruct (String.eqb (models.TxStatus row) "confirmed"); [|discriminate].
  destruct (models.TxSuccess row) as [[|]|]; discriminate.
Qed.

(** X22. [handleMonitorTransaction] answers 400 to an empty piece id, and
    to any other id 500 whenever the monitor returns an error, with the
    monitor's message and the server as it was; so a piece that is missing,
    not pending or without a transaction hash gets 500. It never answers 404,
    whatever other requests and ticks run between its two calls into the piece
    service: when the monitor has returned [nil] the piece is in the table, and
    no operation removes a piece. The handler answers 200, 400 or 500: 400 only
    to the empty id, 500 only when the monitor returned an error, and with 200
    it shows the piece as the table then holds it. *)
Theorem handleMonitorTransaction_never_404 env s pieceID between :
  (pieceID = "" ->
   handleMonitorTransaction env (Some s) pieceID between
   = (Some s, Responds {| code := StatusBadRequest;
                          body := HTTPError "piece ID is required" |})) /\
  (pieceID <> "" ->
   forall e,
     snd (MonitorTransactionStatus env s pieceID) = Fails e ->
     handleMonitorTransaction env (Some s) pieceID between
     = (Some s, Responds {| code := StatusInternalServerError;
                            body := HTTPError ("failed to monitor transaction: "
                                               ++ message e)%string |})) /\
  (pieceID <> "" ->
   (pieces s !! pieceID = None \/
    exists piece0,
      pieces s !! pieceID = Some piece0 /\
      (Status piece0 <> "pending_confirmation" \/ TransactionHash piece0 = "")) ->
   exists e,
     (e = ErrPieceNotFound pieceID \/ e = ErrNotPending pieceID \/
      e = ErrNoTxHash pieceID) /\
     handleMonitorTransaction env (Some s) pieceID between
     = (Some s, Responds {| code := StatusInternalServerError;
                            body := HTTPError ("failed to monitor transaction: "
                                               ++ message e)%string |})) /\
  (forall svc' r,
     handleMonitorTransaction env (Some s) pieceID between = (svc', Responds r) ->
     code r <> StatusNotFound /\
     (code r = StatusOK \/ code r = StatusBadRequest \/
      code r = StatusInternalServerError) /\
     (code r = StatusBadRequest <-> pieceID = "") /\
     (code r = StatusInternalServerError <->
      pieceID <> "" /\
      exists e, snd (MonitorTransactionStatus env s pieceID) = Fails e) /\
     (code r = StatusOK ->
      exists s1 s2 p,
        MonitorTransactionStatus env s pieceID = (s1, Returns tt) /\
        s2 = fst (run s1 between) /\
        svc' = Some s2 /\ pieces s2 !! pieceID = Some p /\
        r = transaction_response p)).
Proof.
  assert (Hfails : pieceID <> "" ->
            forall e,
              snd (MonitorTransactionStatus env s pieceID) = Fails e ->
              handleMonitorTransaction env (Some s) pieceID between
              = (Some s,
                 Responds {| code := StatusInternalServerError;
                             body := HTTPError ("failed to monitor transaction: "
                                                ++ message e)%string |})).
  { intros Hid e Hfail. unfold handleMonitorTransaction.
    rewrite (PieceFacts.eqb_false_of_ne _ _ Hid).
    destruct (MonitorTransactionStatus env s pieceID) as [s1 o] eqn:Hcall.
    cbn [snd] in Hfail. subst o.
    now rewrite (MonitorTransactionStatus_fails_same _ _ _ _ _ Hcall). }
  split; [intros ->; reflexivity|].
  split; [exact Hfails|].
  split.
  { intros Hid Hcase.
    assert (He : exists e,
               (e = ErrPieceNotFound pieceID \/ e = ErrNotPending pieceID \/
                e = ErrNoTxHash pieceID) /\
               snd (MonitorTransactionStatus env s pieceID) = Fails e).
    { unfold MonitorTransactionStatus.
      destruct Hcase as [Hnone|(piece0 & Hsome & Hcase)].
      - rewrite Hnone. eexists. split; [left; reflexivity|reflexivity].
      - rewrite Hsome.
        destruct (String.eqb_spec (Status piece0) "pending_confirmation") as [Hst|Hst];
          cbn [negb].
        + destruct Hcase as [Hno|Hempty]; [contradiction|].
          rewrite Hempty. cbn [String.eqb].
          eexists. split; [right; right; reflexivity|reflexivity].
        + eexists. split; [right; left; reflexivity|reflexivity]. }
    destruct He as (e & Hkind & Hfail).
    exists e. split; [exact Hkind|]. now apply Hfails. }
  intros svc' r. unfold handleMonitorTransaction.
  destruct (String.eqb_spec pieceID "") as [Hid|Hid].
  { intros [= <- <-]. cbn [code].
    split; [discriminate|]. split; [auto|].
    split; [split; auto|].
    split; [split; [discriminate|now intros [Hne _]]|discriminate]. }
  destruct (MonitorTransactionStatus env s pieceID) as [s1 [u|e|]] eqn:Hcall.
  - pose proof (MonitorTransactionStatus_returns_present _ _ _ _ _ Hcall) as Hin.
    pose proof (run_present between pieceID s1 Hin) as Hlater.
    destruct (run s1 between) as [s2 log] eqn:Hrun. cbn [fst] in Hlater.
    destruct (existsb _ log); [discriminate|].
    unfold GetPiece. destruct Hlater as [p Hp]. rewrite Hp.
    intros [= <- <-]. cbn [code transaction_response snd].
    split; [discriminate|]. split; [auto|].
    split; [split; [discriminate|contradiction]|].
    split; [split; [discriminate|intros [_ [e He]]; discriminate]|].
    intros _. exists s1, s2, p. destruct u. repeat split; auto.
    now rewrite Hrun.
  - intros [= <- <-]. cbn [code snd].
    split; [discriminate|]. split; [auto|].
    split; [split; [discriminate|contradiction]|].
    split; [split; [intros _; split; [exact Hid|eauto]|reflexivity]|discriminate].
  - discriminate.
Qed.

(** A piece the server does not know. *)
Lemma handleMonitorTransaction_never_404_witness :
  handleMonitorTransaction (Examples.env_ok []) (Some Examples.fresh) "nobody" []
  = (Some Examples.fresh,
     Responds {| code := StatusInternalServerError;
                 body := HTTPError "failed to monitor transaction: piece not found: nobody" |}).
Proof.
  refine (proj1 (proj2 (handleMonitorTransaction_never_404 (Examples.env_ok [])
                          Examples.fresh "nobody" []))
            _ (ErrPieceNotFound "nobody") _).
  - discriminate.
  - vm_compute. reflexivity.
Defined.

End HandlerFacts.

(** ** Reconciliation in two steps *)

Module TwoSteps.
Import Go Collab Errors piece server RowByRow.

Lemma fate_hash env i row :
  models.SignedTxHash (fate env i row) = models.SignedTxHash row.
Proof.
  unfold fate. destruct (piri_db env i) as [piriRows|]; [|reflexivity].
  destruct (models.first_by_hash piriRows _) as [piriTx|]; [|reflexivity].
  destruct (negb _); [|reflexivity]. now destruct (db_error env (S i)).
Qed.

Lemma filter_hash_map (g : models.MessageWaitsEth -> models.MessageWaitsEth) h rows :
  (forall r, models.SignedTxHash (g r) = models.SignedTxHash r) ->
  List.filter (fun r => String.eqb (models.SignedTxHash r) h) (map g rows)
  = map g (List.filter (fun r => String.eqb (models.SignedTxHash r) h) rows).
Proof.
  intros Hg. induction rows as [|r rows IH]; [reflexivity|].
  cbn [map List.filter]. rewrite Hg.
  destruct (String.eqb (models.SignedTxHash r) h); cbn [map]; now rewrite IH.
Qed.

Lemma least_id_map (g : models.MessageWaitsEth -> models.MessageWaitsEth) rows :
  (forall r, models.ID (g r) = models.ID r) ->
  models.least_id (map g rows) = option_map g (models.least_id rows).
Proof.
  intros Hg. induction rows as [|r rows IH]; [reflexivity|].
  cbn [map models.least_id]. rewrite IH.
  destruct (models.least_id rows) as [r'|]; cbn [option_map]; [|reflexivity].
  rewrite !Hg. now destruct (models.ID r' <? models.ID r).
Qed.

Lemma first_by_hash_map (g : models.MessageWaitsEth -> models.MessageWaitsEth) h rows :
  (forall r, models.SignedTxHash (g r) = models.SignedTxHash r) ->
  (forall r, models.ID (g r) = models.ID r) ->
  models.first_by_hash (map g rows) h = option_map g (models.first_by_hash rows h).
Proof.
  intros Hhash Hid. unfold models.first_by_hash.
  now rewrite filter_hash_map, least_id_map.
Qed.

(** The state a tick leaves, under steady collaborators. *)
Lemma tick_steady env piriRows (s : State) :
  steady env piriRows ->
  List.NoDup (map models.ID (models.message_waits_eth (db s))) ->
  fst (tick env s)
  = with_db
      (with_rows
         (map (fun row => if String.eqb (models.TxStatus row) "pending"
                          then fate env 0 row else row)
              (models.message_waits_eth (db s)))
         (db s)) s.
Proof.
  intros Hsteady Hnodup. unfold tick.
  rewrite (WatcherFacts.processPendingTransactions_rows env {| watcher.db := db s |}
             Hnodup (proj1 Hsteady 0%nat)).
  cbn [fst watcher.db].
  now rewrite (WatcherFacts.reconciled_steady env piriRows _ Hsteady).
Qed.

(** X23. How a confirmation reaches a piece. Take a pending piece whose
    transaction is watched (a local row, still pending) and which Piri's
    database reports confirmed. The manual monitor alone changes nothing, for
    it reads the local row. After one tick against steady collaborators the
    manual monitor moves the piece: to [added_to_proofset] when Piri's record
    has the success flag set, to [transaction_failed] otherwise. *)
Theorem tick_then_monitor env_tick env_monitor piriRows (s : State) pieceID piece0
    row piriTx :
  pieces s !! pieceID = Some piece0 ->
  Status piece0 = "pending_confirmation" ->
  TransactionHash piece0 <> "" ->
  List.NoDup (map models.ID (models.message_waits_eth (db s))) ->
  models.first_by_hash (models.message_waits_eth (db s)) (TransactionHash piece0)
    = Some row ->
  models.TxStatus row = "pending" ->
  steady env_tick piriRows ->
  models.first_by_hash piriRows (TransactionHash piece0) = Some piriTx ->
  models.TxStatus piriTx = "confirmed" ->
  db_error env_monitor 0 = None ->
  MonitorTransactionStatus env_monitor s pieceID = (s, Returns tt) /\
  status_of (fst (tick env_tick s)) pieceID = Some "pending_confirmation" /\
  status_of
    (fst (MonitorTransactionStatus env_monitor (fst (tick env_tick s)) pieceID))
    pieceID
  = Some (if Ledger.succeeded piriTx
          then "added_to_proofset" else "transaction_failed").
Proof.
  intros Hlookup Hst Hh Hnodup Hlocal Hpending Hsteady Hpiri Hconfirmed Hquery.
  split; [|split].
  - rewrite (MonitorFacts.MonitorTransactionStatus_pending env_monitor s pieceID
               piece0 Hlookup Hst Hh).
    unfold query_transaction. rewrite Hquery, Hlocal, Hpending. reflexivity.
  - unfold status_of. rewrite ServerFacts.tick_pieces, Hlookup. cbn. now rewrite Hst.
  - rewrite (tick_steady env_tick piriRows s Hsteady Hnodup).
    set (g := fun row0 => if String.eqb (models.TxStatus row0) "pending"
                          then fate env_tick 0 row0 else row0).
    assert (Hg_hash : forall r, models.SignedTxHash (g r) = models.SignedTxHash r).
    { intros r. unfold g. destruct (String.eqb _ _); [apply fate_hash|reflexivity]. }
    assert (Hg_id : forall r, models.ID (g r) = models.ID r).
    { intros r. unfold g.
      destruct (String.eqb _ _); [apply WatcherFacts.fate_ID|reflexivity]. }
    assert (Hrow : g row = watcher.apply_updates piriTx row).
    { unfold g. rewrite Hpending. cbn [String.eqb Ascii.eqb Bool.eqb].
      destruct (TableFacts.first_by_hash_found _ _ _ Hlocal) as [Hhash _].
      unfold fate. destruct Hsteady as [Hdb Hpiri_db].
      rewrite Hpiri_db, Hhash, Hpiri, Hpending, Hconfirmed, Hdb. reflexivity. }
    match goal with
    | |- context [MonitorTransactionStatus env_monitor ?s1 pieceID] =>
        rewrite (MonitorFacts.MonitorTransactionStatus_pending env_monitor s1 pieceID
                   piece0 Hlookup Hst Hh)
    end.
    unfold query_transaction. rewrite Hquery.
    cbn [db with_db with_rows models.message_waits_eth].
    rewrite (first_by_hash_map g _ _ Hg_hash Hg_id), Hlocal. cbn [option_map].
    rewrite Hrow. cbn [watcher.apply_updates models.TxStatus models.TxSuccess].
    rewrite Hconfirmed. cbn [String.eqb Ascii.eqb Bool.eqb].
    unfold Ledger.succeeded.
    destruct (models.TxSuccess piriTx) as [[|]|]; cbn [fst];
      now rewrite MonitorFacts.status_of_insert.
Qed.

Lemma tick_then_monitor_witness :
  status_of
    (fst (MonitorTransactionStatus (Examples.env_ok [])
            (fst (tick (Examples.env_ok
                          [Examples.tx_row "confirmed" (Some false) (Some 12345) [x01]])
                    (Examples.state_with "pending_confirmation"
                       (Examples.db_with (Examples.tx_row "pending" None None [])))))
            "test-small"))
    "test-small"
  = Some "transaction_failed".
Proof.
  apply (tick_then_monitor
           (Examples.env_ok [Examples.tx_row "confirmed" (Some false) (Some 12345) [x01]])
           (Examples.env_ok [])
           [Examples.tx_row "confirmed" (Some false) (Some 12345) [x01]]
           (Examples.state_with "pending_confirmation"
              (Examples.db_with (Examples.tx_row "pending" None None [])))
           "test-small" (Examples.a_piece "pending_confirmation")
           (Examples.tx_row "pending" None None [])
           (Examples.tx_row "confirmed" (Some false) (Some 12345) [x01])).
  - vm_compute. reflexivity.
  - reflexivity.
  - cbn. discriminate.
  - cbn. repeat constructor. intros [].
  - reflexivity.
  - reflexivity.
  - split; reflexivity.
  - reflexivity.
  - reflexivity.
  - reflexivity.
Defined.

End TwoSteps.
